(** * bakker: checkpoints of a directory tree

    A shallow embedding of [bakker/checkpoint.py] and the properties of
    its tree-node model, checkpoint serializer and identity codec.

    Conventions of the embedding:
    - a Python [str] is a [string] holding its UTF-8 octets (byte-wise
      comparison of UTF-8 agrees with Python's code-point comparison);
      [bytes] are [list byte];
    - a Python [dict] is an association list in insertion order
      ([dict_set] overwrites in place, appends otherwise);
    - raised exceptions are values of [exn], carried by [result];
    - [print] appends a line to an explicit log;
    - the file system is an explicit tree of [entry] values: the entry
      found at [path] is passed along with [path];
    - the xxhash library is a parameter: one digest function, the
      incremental hasher being the bytes it was fed so far;
    - the builders come twice: as the code runs when the operating
      system grants every access it asks for and every link target is
      text, and, with the suffix [_as], for a calling process whose
      access is decided by the permission bits and for any link target;
      the two agree wherever nothing is refused ([buildable]). *)

From Stdlib Require Import ZArith List Strings.String Strings.Ascii Strings.Byte Bool Lia.
From Stdlib Require Import Permutation Sorted.
From Equations Require Import Equations.
From Equations.Prop Require Import Logic.
Import ListNotations.

Local Open Scope string_scope.
Local Open Scope Z_scope.

Set Implicit Arguments.
Set Warnings "-register-all".

(* ===================================================================== *)
(** ** Python values, exceptions and dictionaries *)
(* ===================================================================== *)

Module Py.

Inductive exn : Type :=
| AssertionError
| AttributeError
| IndexError
| KeyError (key : string)
| TypeError (msg : string)
| ValueError (msg : string)
| PermissionError
| UnicodeEncodeError.

Inductive result (A : Type) : Type :=
| OK (a : A)
| Raise (e : exn).
Arguments OK {A} a.
Arguments Raise {A} e.

Definition rbind {A B} (r : result A) (k : A -> result B) : result B :=
  match r with
  | OK a => k a
  | Raise e => Raise e
  end.

Definition is_ok {A} (r : result A) : bool :=
  match r with OK _ => true | Raise _ => false end.

(** [dict]: insertion-ordered association list with unique keys. *)
Definition dict (V : Type) : Type := list (string * V).

Fixpoint dict_get {V} (d : dict V) (k : string) : option V :=
  match d with
  | [] => None
  | (k', v) :: d' => if String.eqb k' k then Some v else dict_get d' k
  end.

(** [d[k] = v]: an existing key keeps its position and takes the new
    value; a new key goes last. *)
Fixpoint dict_set {V} (d : dict V) (k : string) (v : V) : dict V :=
  match d with
  | [] => [(k, v)]
  | (k', v') :: d' =>
      if String.eqb k' k then (k', v) :: d' else (k', v') :: dict_set d' k v
  end.

Definition keys {V} (d : dict V) : list string := map fst d.
Definition values {V} (d : dict V) : list V := map snd d.

(** [sorted(list_of_str)]: ascending by [String.leb]. *)
Fixpoint insert_sorted (x : string) (l : list string) : list string :=
  match l with
  | [] => [x]
  | y :: l' => if String.leb x y then x :: y :: l' else y :: insert_sorted x l'
  end.

Fixpoint sorted (l : list string) : list string :=
  match l with
  | [] => []
  | x :: l' => insert_sorted x (sorted l')
  end.

(** [s.startswith(c)] and [s.endswith(c)] for a one-character [c]. *)
Definition startswith (s : string) (c : ascii) : bool :=
  match s with
  | String a _ => Ascii.eqb a c
  | EmptyString => false
  end.

Fixpoint endswith (s : string) (c : ascii) : bool :=
  match s with
  | EmptyString => false
  | String a EmptyString => Ascii.eqb a c
  | String _ s' => endswith s' c
  end.

(** [posixpath.join(a, b)] for two components. *)
Definition os_path_join (a b : string) : string :=
  if startswith b "/" then b
  else if orb (String.eqb a "") (endswith a "/") then a ++ b
  else a ++ "/" ++ b.

End Py.
Import Py.

(* ===================================================================== *)
(** ** The file system seen by [build_node] *)
(* ===================================================================== *)

Module Fs.

(** What following a symbolic link ends at, as [os.stat] sees it. *)
Inductive resolution : Type :=
| ToFile        (* an existing regular file *)
| ToDirectory   (* an existing directory *)
| ToNothing.    (* dangling, a loop, or a device/socket/pipe *)

Inductive entry : Type :=
| RegFile (st_mode : Z) (content : list byte)
| Link (st_mode : Z) (target : string) (resolves : resolution)
| Dir (st_mode : Z) (listing : list (string * entry))
| Special (st_mode : Z).  (* device file, socket, pipe, ... *)

Definition islink (e : entry) : bool :=
  match e with Link _ _ _ => true | _ => false end.

(** [os.path.isfile] and [os.path.isdir] follow symbolic links. This is
    what they report of an entry when [os.stat] is not refused; for a
    process that may not search the directory above the entry they
    report [False] (see [stat_isfile] and [stat_isdir]). *)
Definition isfile (e : entry) : bool :=
  match e with
  | RegFile _ _ => true
  | Link _ _ ToFile => true
  | _ => false
  end.

Definition isdir (e : entry) : bool :=
  match e with
  | Dir _ _ => true
  | Link _ _ ToDirectory => true
  | _ => false
  end.

(** [os.lstat(path).st_mode]: the mode of the entry itself. *)
Definition lstat_st_mode (e : entry) : Z :=
  match e with
  | RegFile m _ | Link m _ _ | Dir m _ | Special m => m
  end.

(** [stat.S_IMODE]: the low twelve bits. *)
Definition S_IMODE (mode : Z) : Z := Z.land mode 4095.

(** The calling process, by the permission class in which it stands to
    the entries of the tree (to all alike): a privileged process is
    refused nothing the program asks for; for the others the owner,
    group or other bits of [st_mode] decide. *)
Inductive caller : Type :=
| Privileged
| Owner
| Group
| Other.

(** Read permission: to [open] a file for reading, to list a directory. *)
Definition may_read (who : caller) (st_mode : Z) : bool :=
  match who with
  | Privileged => true
  | Owner => Z.testbit st_mode 8
  | Group => Z.testbit st_mode 5
  | Other => Z.testbit st_mode 2
  end.

(** Search permission on a directory: to [stat] what it holds. *)
Definition may_search (who : caller) (st_mode : Z) : bool :=
  match who with
  | Privileged => true
  | Owner => Z.testbit st_mode 6
  | Group => Z.testbit st_mode 3
  | Other => Z.testbit st_mode 0
  end.

(** [os.path.isfile(child_path)] and [os.path.isdir(child_path)] for a
    child of a directory: where the process may not search the
    directory, [os.stat] is refused and both answer [False]. *)
Definition stat_isfile (searchable : bool) (c : entry) : bool :=
  searchable && isfile c.

Definition stat_isdir (searchable : bool) (c : entry) : bool :=
  searchable && isdir c.

(** Text: well-formed UTF-8. [os.readlink] decodes the octets of a
    link target with the [surrogateescape] handler, and the [str] it
    returns can be encoded again, as the hasher has to, exactly when
    the octets are well-formed UTF-8 (the file-system encoding). *)
Definition between (lo hi : N) (b : byte) : bool :=
  let n := Byte.to_N b in
  (N.leb lo n && N.leb n hi)%bool.

Fixpoint utf8 (l : list byte) : bool :=
  match l with
  | [] => true
  | b0 :: l1 =>
      if between 0 127 b0 then utf8 l1
      else if between 194 223 b0 then
        match l1 with
        | b1 :: l2 => between 128 191 b1 && utf8 l2
        | _ => false
        end
      else if between 224 239 b0 then
        match l1 with
        | b1 :: b2 :: l3 =>
            between (if between 224 224 b0 then 160 else 128)
                    (if between 237 237 b0 then 159 else 191) b1
            && between 128 191 b2 && utf8 l3
        | _ => false
        end
      else if between 240 244 b0 then
        match l1 with
        | b1 :: b2 :: b3 :: l4 =>
            between (if between 240 240 b0 then 144 else 128)
                    (if between 244 244 b0 then 143 else 191) b1
            && between 128 191 b2 && between 128 191 b3 && utf8 l4
        | _ => false
        end
      else false
  end.

Definition is_text (s : string) : bool := utf8 (list_byte_of_string s).

(** An open binary file: the bytes not yet read. [read n] returns at
    most [n] bytes and advances. *)
Definition file := list byte.

Fixpoint take (n : N) (f : file) : list byte :=
  match f with
  | [] => []
  | b :: f' => if N.eqb n 0 then [] else b :: take (N.pred n) f'
  end.

Fixpoint drop (n : N) (f : file) : file :=
  match f with
  | [] => []
  | b :: f' => if N.eqb n 0 then f else drop (N.pred n) f'
  end.

Definition read (n : N) (f : file) : list byte * file :=
  (take n f, drop n f).

Lemma take_drop n f : (take n f ++ drop n f)%list = f.
Proof.
  revert n; induction f as [|b f IH]; intros n; simpl; [reflexivity|].
  destruct (N.eqb n 0); simpl; [reflexivity|]. now rewrite IH.
Qed.

Lemma read_length n f :
  (List.length (fst (read n f)) + List.length (snd (read n f)))%nat
  = List.length f.
Proof.
  unfold read; simpl. rewrite <- length_app. now rewrite take_drop.
Qed.

End Fs.
Import Fs.

(* ===================================================================== *)
(** ** Tree nodes *)
(* ===================================================================== *)

Inductive TreeNode : Type :=
| FileNode (name checksum : string) (permissions : Z)
| SymlinkNode (name checksum : string) (permissions : Z)
| DirectoryNode (name checksum : string) (permissions : Z)
                (children : dict TreeNode).

Definition name (n : TreeNode) : string :=
  match n with
  | FileNode s _ _ | SymlinkNode s _ _ | DirectoryNode s _ _ _ => s
  end.

Definition checksum (n : TreeNode) : string :=
  match n with
  | FileNode _ c _ | SymlinkNode _ c _ | DirectoryNode _ c _ _ => c
  end.

Definition permissions (n : TreeNode) : Z :=
  match n with
  | FileNode _ _ p | SymlinkNode _ _ p | DirectoryNode _ _ p _ => p
  end.

Definition children (n : TreeNode) : dict TreeNode :=
  match n with
  | DirectoryNode _ _ _ c => c
  | _ => []
  end.

(** Printing monad: a computation reads and extends the lines printed so
    far and returns a value or raises. *)
Definition log := list string.
Definition M (A : Type) : Type := log -> result A * log.

Definition ret {A} (a : A) : M A := fun l => (OK a, l).
Definition raise {A} (e : exn) : M A := fun l => (Raise e, l).
Definition bind {A B} (m : M A) (k : A -> M B) : M B :=
  fun l => match m l with
           | (OK a, l') => k a l'
           | (Raise e, l') => (Raise e, l')
           end.
Definition print (s : string) : M unit := fun l => (OK tt, (l ++ [s])%list).
Definition assert (b : bool) : M unit :=
  if b then ret tt else raise AssertionError.
Definition lift {A} (r : result A) : M A := fun l => (r, l).

Declare Scope py_scope.
Delimit Scope py_scope with py.
Notation "x <- m ;; k" := (bind m (fun x => k))
  (at level 61, m at next level, right associativity) : py_scope.
Notation "m ;;; k" := (bind m (fun _ => k))
  (at level 61, right associativity) : py_scope.

Definition BLOCKSIZE : N := 65536.

(** The hasher object: the bytes fed so far. *)
Definition hasher := list byte.
Definition xxh64_new : hasher := [].
Definition update (message : hasher) (data : list byte) : hasher :=
  (message ++ data)%list.
Definition update_str (message : hasher) (data : string) : hasher :=
  update message (list_byte_of_string data).

(** The [while len(file_buffer) > 0] loop of [FileNode.build_node]. *)
Equations? read_loop (message : hasher) (file_buffer : list byte) (f : file)
  : hasher by wf (List.length file_buffer + List.length f)%nat lt :=
  read_loop message [] f := message;
  read_loop message (b :: bs) f :=
    read_loop (update message (b :: bs)) (fst (read BLOCKSIZE f))
              (snd (read BLOCKSIZE f)).
Proof.
  pose proof (read_length BLOCKSIZE f) as Hlen. unfold read in Hlen.
  simpl in Hlen. lia.
Qed.

(** The builders as they run when [os.stat], [open] and [os.listdir]
    are granted and every link target is text. *)
Section Build.

(** [xxh64 bs]: the 16-character hexadecimal XXH64 digest of [bs]. *)
Variable xxh64 : list byte -> string.

Definition hexdigest (message : hasher) : string := xxh64 message.

Definition FileNode_build_node (e : entry) (path name : string)
  : M TreeNode :=
  (assert (isfile e) ;;;
   assert (negb (islink e)) ;;;
   let permissions := S_IMODE (lstat_st_mode e) in
   match e with
   | RegFile _ content =>
       let message := xxh64_new in
       let f : file := content in
       let '(file_buffer, f) := read BLOCKSIZE f in
       let message := read_loop message file_buffer f in
       let checksum := hexdigest message in
       ret (FileNode name checksum permissions)
   | _ => raise AssertionError
   end)%py.

Definition SymlinkNode_build_node (e : entry) (path name : string)
  : M TreeNode :=
  (assert (islink e) ;;;
   let permissions := S_IMODE (lstat_st_mode e) in
   match e with
   | Link _ target _ =>
       let message := xxh64_new in
       let message := update_str message target in
       let checksum := hexdigest message in
       ret (SymlinkNode name checksum permissions)
   | _ => raise AssertionError
   end)%py.

(** The [for child_name in os.listdir(path)] loop. A child for which
    [TreeNode.build_node] returns [None] is stored as [None]. *)
Definition build_children
  (build : entry -> string -> string -> M (option TreeNode))
  (path : string)
  : list (string * entry) -> dict (option TreeNode)
    -> M (dict (option TreeNode)) :=
  fix loop listing children :=
    match listing with
    | [] => ret children
    | (child_name, c) :: rest =>
        let child_path := os_path_join path child_name in
        if negb (isfile c) && negb (isdir c) then
          (print ("Ignored: " ++ child_path) ;;;
           loop rest children)%py
        else
          (node <- build c child_path child_name ;;
           loop rest (dict_set children child_name node))%py
    end.

(** [children[child_name].checksum] raises [AttributeError] on a child
    that is [None]. The children are all tested here, before the
    checksums are taken in name order; nothing is printed in between,
    so the outcome is that of the source. *)
Fixpoint built_children (children : dict (option TreeNode))
  : result (dict TreeNode) :=
  match children with
  | [] => OK []
  | (k, Some n) :: rest =>
      rbind (built_children rest) (fun d => OK ((k, n) :: d))
  | (_, None) :: _ => Raise AttributeError
  end.

Definition child_checksums (children : dict TreeNode) : list string :=
  map (fun child_name =>
         match dict_get children child_name with
         | Some n => checksum n
         | None => ""
         end)
      (sorted (keys children)).

Definition directory_checksum (children : dict TreeNode) : string :=
  let message :=
    fold_left (fun message child_digest => update_str message child_digest)
              (child_checksums children) xxh64_new in
  hexdigest message.

(** [DirectoryNode.build_node]; [listing] is what [os.listdir(path)]
    returns, each name with the entry found at the joined path. The
    call back into [TreeNode.build_node] is the parameter [build]. *)
Definition DirectoryNode_build_node_with
  (build : entry -> string -> string -> M (option TreeNode))
  (e : entry) (listing : list (string * entry))
  (path name : string) : M TreeNode :=
  (assert (isdir e) ;;;
   let permissions := S_IMODE (lstat_st_mode e) in
   children <- build_children build path listing [] ;;
   children <- lift (built_children children) ;;
   let checksum := directory_checksum children in
   ret (DirectoryNode name checksum permissions children))%py.

Fixpoint TreeNode_build_node (e : entry) (path name : string)
  {struct e} : M (option TreeNode) :=
  (if islink e then
     n <- SymlinkNode_build_node e path name ;; ret (Some n)
   else if isfile e then
     n <- FileNode_build_node e path name ;; ret (Some n)
   else if isdir e then
     match e with
     | Dir _ listing =>
         n <- DirectoryNode_build_node_with TreeNode_build_node
                e listing path name ;;
         ret (Some n)
     | _ => raise AssertionError  (* not reached: [isdir] holds of
                                     directories and of links only *)
     end
   else
     (print ("Could not backup: " ++ path) ;;; ret None))%py.

Definition DirectoryNode_build_node
  : entry -> list (string * entry) -> string -> string -> M TreeNode :=
  DirectoryNode_build_node_with TreeNode_build_node.

End Build.

(* ===================================================================== *)
(** ** Building under the permission bits *)
(* ===================================================================== *)

(** The builders for a calling process [who]. The path given to a
    builder is one the process can reach; below it the permission bits
    decide: [open] needs read permission on the file, [os.listdir] read
    permission on the directory, and [os.stat] of a child search
    permission on the directory that holds it. The target of a link is
    held as the octets stored in the link. Paths and names are text, so
    that [print] can write them, and the tree stays as it is while it
    is read. *)
Section BuildAs.

Variable who : caller.
Variable xxh64 : list byte -> string.

Definition SymlinkNode_build_node_as (e : entry) (path name : string)
  : M TreeNode :=
  (assert (islink e) ;;;
   let permissions := S_IMODE (lstat_st_mode e) in
   match e with
   | Link _ target _ =>
       let message := xxh64_new in
       if is_text target then
         let message := update_str message target in
         let checksum := hexdigest xxh64 message in
         ret (SymlinkNode name checksum permissions)
       else raise UnicodeEncodeError  (* [update] cannot encode the [str] *)
   | _ => raise AssertionError
   end)%py.

Definition FileNode_build_node_as (e : entry) (path name : string)
  : M TreeNode :=
  (assert (isfile e) ;;;
   assert (negb (islink e)) ;;;
   let permissions := S_IMODE (lstat_st_mode e) in
   match e with
   | RegFile st_mode content =>
       if may_read who st_mode then
         let message := xxh64_new in
         let f : file := content in
         let '(file_buffer, f) := read BLOCKSIZE f in
         let message := read_loop message file_buffer f in
         let checksum := hexdigest xxh64 message in
         ret (FileNode name checksum permissions)
       else raise PermissionError  (* [open(path, 'rb')] is refused *)
   | _ => raise AssertionError
   end)%py.

Definition build_children_as
  (build : entry -> string -> string -> M (option TreeNode))
  (searchable : bool) (path : string)
  : list (string * entry) -> dict (option TreeNode)
    -> M (dict (option TreeNode)) :=
  fix loop listing children :=
    match listing with
    | [] => ret children
    | (child_name, c) :: rest =>
        let child_path := os_path_join path child_name in
        if negb (stat_isfile searchable c) && negb (stat_isdir searchable c)
        then
          (print ("Ignored: " ++ child_path) ;;;
           loop rest children)%py
        else
          (node <- build c child_path child_name ;;
           loop rest (dict_set children child_name node))%py
    end.

(** [DirectoryNode.build_node], checked against the mode of the
    directory itself. (Where [path] is a link to a directory, a call
    the dispatcher never makes, the mode of the directory behind the
    link would decide.) *)
Definition DirectoryNode_build_node_as_with
  (build : entry -> string -> string -> M (option TreeNode))
  (e : entry) (listing : list (string * entry))
  (path name : string) : M TreeNode :=
  (assert (isdir e) ;;;
   let permissions := S_IMODE (lstat_st_mode e) in
   if may_read who (lstat_st_mode e) then
     children <- build_children_as build (may_search who (lstat_st_mode e))
                   path listing [] ;;
     children <- lift (built_children children) ;;
     let checksum := directory_checksum xxh64 children in
     ret (DirectoryNode name checksum permissions children)
   else raise PermissionError  (* [os.listdir(path)] is refused *))%py.

Fixpoint TreeNode_build_node_as (e : entry) (path name : string)
  {struct e} : M (option TreeNode) :=
  (if islink e then
     n <- SymlinkNode_build_node_as e path name ;; ret (Some n)
   else if isfile e then
     n <- FileNode_build_node_as e path name ;; ret (Some n)
   else if isdir e then
     match e with
     | Dir _ listing =>
         n <- DirectoryNode_build_node_as_with TreeNode_build_node_as
                e listing path name ;;
         ret (Some n)
     | _ => raise AssertionError  (* not reached: [isdir] holds of
                                     directories and of links only *)
     end
   else
     (print ("Could not backup: " ++ path) ;;; ret None))%py.

Definition DirectoryNode_build_node_as
  : entry -> list (string * entry) -> string -> string -> M TreeNode :=
  DirectoryNode_build_node_as_with TreeNode_build_node_as.

End BuildAs.

(** Nothing the build of [e] asks for is refused to [who]: the
    permission bits grant read on each regular file and read and search
    on each directory, and the target of each link is text. What a
    directory skips is not looked into. *)
Fixpoint buildable (who : caller) (e : entry) : bool :=
  match e with
  | RegFile st_mode _ => may_read who st_mode
  | Link _ target _ => is_text target
  | Dir st_mode listing =>
      may_read who st_mode && may_search who st_mode
      && (fix all (l : list (string * entry)) : bool :=
            match l with
            | [] => true
            | (_, c) :: l' =>
                (negb (isfile c || isdir c) || buildable who c) && all l'
            end) listing
  | Special _ => true
  end.

(* ===================================================================== *)
(** ** XXH64 *)
(* ===================================================================== *)

(** The digest of the xxhash library with seed 0, on 64-bit words with
    the wrap-around written out. It is used to run the embedding on
    concrete trees; the properties of node building hold for any digest
    function. *)
Module XXH64.

Definition wrap (x : Z) : Z := x mod 2 ^ 64.

Definition PRIME1 : Z := 11400714785074694791.
Definition PRIME2 : Z := 14029467366897019727.
Definition PRIME3 : Z := 1609587929392839161.
Definition PRIME4 : Z := 9650029242287828579.
Definition PRIME5 : Z := 2870177450012600261.

Definition rotl (x r : Z) : Z :=
  wrap (Z.lor (Z.shiftl x r) (Z.shiftr x (64 - r))).

Definition round (acc input : Z) : Z :=
  wrap (rotl (wrap (acc + input * PRIME2)) 31 * PRIME1).

Definition merge_round (acc val : Z) : Z :=
  wrap (Z.lxor acc (round 0 val) * PRIME1 + PRIME4).

(** Little-endian value of a run of bytes. *)
Fixpoint le (bs : list byte) : Z :=
  match bs with
  | [] => 0
  | b :: bs' => Z.of_N (Byte.to_N b) + 256 * le bs'
  end.

(** The stripes of 32 bytes: four lanes of 8 bytes each. *)
Fixpoint stripes (fuel : nat) (v : Z * Z * Z * Z) (bs : list byte)
  : Z * Z * Z * Z * list byte :=
  match fuel with
  | O => (v, bs)
  | S fuel' =>
      if (List.length bs <? 32)%nat then (v, bs)
      else
        let '(v1, v2, v3, v4) := v in
        stripes fuel'
          (round v1 (le (firstn 8 bs)),
           round v2 (le (firstn 8 (skipn 8 bs))),
           round v3 (le (firstn 8 (skipn 16 bs))),
           round v4 (le (firstn 8 (skipn 24 bs))))
          (skipn 32 bs)
  end.

Fixpoint tail (fuel : nat) (h : Z) (bs : list byte) : Z :=
  match fuel with
  | O => h
  | S fuel' =>
      if (8 <=? List.length bs)%nat then
        tail fuel'
          (wrap (rotl (Z.lxor h (round 0 (le (firstn 8 bs)))) 27 * PRIME1
                 + PRIME4))
          (skipn 8 bs)
      else if (4 <=? List.length bs)%nat then
        tail fuel'
          (wrap (rotl (Z.lxor h (wrap (le (firstn 4 bs) * PRIME1))) 23
                 * PRIME2 + PRIME3))
          (skipn 4 bs)
      else
        match bs with
        | [] => h
        | b :: bs' =>
            tail fuel'
              (wrap (rotl (Z.lxor h (wrap (Z.of_N (Byte.to_N b) * PRIME5)))
                       11 * PRIME1))
              bs'
        end
  end.

Definition avalanche (h : Z) : Z :=
  let h := wrap (Z.lxor h (Z.shiftr h 33) * PRIME2) in
  let h := wrap (Z.lxor h (Z.shiftr h 29) * PRIME3) in
  Z.lxor h (Z.shiftr h 32).

(** [XXH64(input, seed = 0)]. *)
Definition digest (bs : list byte) : Z :=
  let n := List.length bs in
  let '(h, rest) :=
    if (32 <=? n)%nat then
      let '(v1, v2, v3, v4, rest) :=
        stripes n (wrap (PRIME1 + PRIME2), PRIME2, 0, wrap (0 - PRIME1)) bs in
      let h := wrap (rotl v1 1 + rotl v2 7 + rotl v3 12 + rotl v4 18) in
      (merge_round (merge_round (merge_round (merge_round h v1) v2) v3) v4,
       rest)
    else (PRIME5, bs) in
  avalanche (tail n (wrap (h + Z.of_nat n)) rest).

Definition hex_digit (d : Z) : ascii :=
  ascii_of_N (Z.to_N (if d <? 10 then 48 + d else 87 + d)).

Fixpoint hex (width : nat) (x : Z) (acc : string) : string :=
  match width with
  | O => acc
  | S w => hex w (x / 16) (String (hex_digit (x mod 16)) acc)
  end.

(** [xxhash.xxh64(bs).hexdigest()]. *)
Definition hexdigest (bs : list byte) : string := hex 16 (digest bs) "".

End XXH64.

(* ===================================================================== *)
(** ** Serialized nodes *)
(* ===================================================================== *)

(** A node dict as [json.loads] returns it. Each key of the node schema
    may be missing; an entry that is present has the Python type the
    schema gives it ([str], [int], a list of node dicts). *)
Inductive node_dict : Type :=
  NodeDict (d_name : option string)
           (d_checksum : option string)
           (d_permissions : option Z)
           (d_children : option (list node_dict))
           (d_type : option string).

(** [d[key]]: the entry, or [KeyError]. *)
Definition getitem {A} (entry : option A) (key : string) : result A :=
  match entry with
  | Some v => OK v
  | None => Raise (KeyError key)
  end.

Definition d_name (d : node_dict) : result string :=
  let 'NodeDict v _ _ _ _ := d in getitem v "name".
Definition d_checksum (d : node_dict) : result string :=
  let 'NodeDict _ v _ _ _ := d in getitem v "checksum".
Definition d_permissions (d : node_dict) : result Z :=
  let 'NodeDict _ _ v _ _ := d in getitem v "permissions".
Definition d_type (d : node_dict) : result string :=
  let 'NodeDict _ _ _ _ v := d in getitem v "type".

Notation "x <~ r ;; k" := (rbind r (fun x => k))
  (at level 61, r at next level, right associativity) : py_scope.

Fixpoint to_dict (n : TreeNode) : node_dict :=
  match n with
  | FileNode name checksum permissions =>
      NodeDict (Some name) (Some checksum) (Some permissions) None
               (Some "file")
  | SymlinkNode name checksum permissions =>
      NodeDict (Some name) (Some checksum) (Some permissions) None
               (Some "symlink")
  | DirectoryNode name checksum permissions children =>
      NodeDict (Some name) (Some checksum) (Some permissions)
               (Some ((fix each (values : list (string * TreeNode)) :=
                         match values with
                         | [] => []
                         | (_, child) :: rest => to_dict child :: each rest
                         end) children))
               (Some "directory")
  end.

Definition FileNode_from_dict (d : node_dict) : result TreeNode :=
  (name <~ d_name d ;;
   checksum <~ d_checksum d ;;
   permissions <~ d_permissions d ;;
   OK (FileNode name checksum permissions))%py.

Definition SymlinkNode_from_dict (d : node_dict) : result TreeNode :=
  (name <~ d_name d ;;
   checksum <~ d_checksum d ;;
   permissions <~ d_permissions d ;;
   OK (SymlinkNode name checksum permissions))%py.

(** The dict comprehension [{child['name']: from_dict(child) for child in
    children}]: the key is evaluated before the value, and a key met
    again keeps its position and takes the later value. *)
Definition children_from_dicts (from_dict : node_dict -> result TreeNode)
  : list node_dict -> dict TreeNode -> result (dict TreeNode) :=
  fix each l acc :=
    match l with
    | [] => OK acc
    | child :: rest =>
        (key <~ d_name child ;;
         node <~ from_dict child ;;
         each rest (dict_set acc key node))%py
    end.

Definition DirectoryNode_from_dict_with
  (from_dict : node_dict -> result TreeNode) (d : node_dict)
  : result TreeNode :=
  (name <~ d_name d ;;
   checksum <~ d_checksum d ;;
   permissions <~ d_permissions d ;;
   match d with
   | NodeDict _ _ _ None _ => Raise (KeyError "children")
   | NodeDict _ _ _ (Some l) _ =>
       children <~ children_from_dicts from_dict l [] ;;
       OK (DirectoryNode name checksum permissions children)
   end)%py.

Fixpoint TreeNode_from_dict (d : node_dict) : result TreeNode :=
  (type <~ d_type d ;;
   if String.eqb type "directory" then
     DirectoryNode_from_dict_with TreeNode_from_dict d
   else if String.eqb type "file" then FileNode_from_dict d
   else if String.eqb type "symlink" then SymlinkNode_from_dict d
   else
     (name <~ d_name d ;;
      Raise (TypeError ("Type " ++ name ++ " does not exist."))))%py.

Definition DirectoryNode_from_dict : node_dict -> result TreeNode :=
  DirectoryNode_from_dict_with TreeNode_from_dict.

(* ===================================================================== *)
(** ** Regular expressions, strings and dates of the Python library *)
(* ===================================================================== *)

Module Re.

(** The fragment of [re] patterns the program uses. *)
Inductive atom : Type :=
| Caret                               (* ^ *)
| Dollar                              (* $ *)
| OneOrMore (class : ascii -> bool).  (* [...]+ *)

(** [...]+ followed by the rest of the pattern [k]: greedy, with
    backtracking to shorter runs. *)
Fixpoint match_plus (class : ascii -> bool) (k : string -> bool)
  (s : string) : bool :=
  match s with
  | EmptyString => false
  | String c s' => class c && (match_plus class k s' || k s')
  end.

(** [$] without [re.MULTILINE]: at the end of the string, or just
    before a newline that is the last character. *)
Definition at_dollar (s : string) : bool :=
  String.eqb s "" || String.eqb s (String "010" "").

Fixpoint match_here (at_start : bool) (p : list atom) (s : string) : bool :=
  match p with
  | [] => true
  | Caret :: p' => at_start && match_here at_start p' s
  | Dollar :: p' => at_dollar s && match_here at_start p' s
  | OneOrMore class :: p' => match_plus class (match_here false p') s
  end.

(** [re.match(pattern, s)]: a match starting at the first character. *)
Definition re_match (pattern : list atom) (s : string) : bool :=
  match_here true pattern s.

End Re.

Definition in_range (lo hi c : ascii) : bool :=
  (N_of_ascii lo <=? N_of_ascii c)%N && (N_of_ascii c <=? N_of_ascii hi)%N.

(** The class [[a-zA-Z0-9_\-.]]. *)
Definition name_class (c : ascii) : bool :=
  in_range "a" "z" c || in_range "A" "Z" c || in_range "0" "9" c
  || Ascii.eqb c "_" || Ascii.eqb c "-" || Ascii.eqb c ".".

(** The pattern ['^[a-zA-Z0-9_\-.]+$']. *)
Definition name_pattern : list Re.atom :=
  [Re.Caret; Re.OneOrMore name_class; Re.Dollar].

Module Str.

(** [s.partition(sep)] for a one-character separator, [None] when the
    separator does not occur. *)
Fixpoint cut (sep : ascii) (s : string) : option (string * string) :=
  match s with
  | EmptyString => None
  | String c s' =>
      if Ascii.eqb c sep then Some ("", s')
      else match cut sep s' with
           | Some (before, after) => Some (String c before, after)
           | None => None
           end
  end.

(** [s.split(sep, maxsplit)] for a one-character separator. *)
Fixpoint split (sep : ascii) (maxsplit : nat) (s : string) : list string :=
  match maxsplit with
  | O => [s]
  | S m =>
      match cut sep s with
      | Some (before, after) => before :: split sep m after
      | None => [s]
      end
  end.

(** [l[i]]: the element, or [IndexError]. *)
Definition index {A} (l : list A) (i : nat) : result A :=
  match nth_error l i with
  | Some x => OK x
  | None => Raise IndexError
  end.

Fixpoint contains (c : ascii) (s : string) : bool :=
  match s with
  | EmptyString => false
  | String a s' => Ascii.eqb a c || contains c s'
  end.

End Str.

Module Datetime.

(** A naive [datetime.datetime] (no [tzinfo]). *)
Record datetime : Type := mk {
  year : Z; month : Z; day : Z;
  hour : Z; minute : Z; second : Z; microsecond : Z
}.

(** The ranges the [datetime] constructor enforces (the day is also
    bounded by the month's length, which nothing here depends on). *)
Definition valid (t : datetime) : Prop :=
  1 <= year t <= 9999 /\ 1 <= month t <= 12 /\ 1 <= day t <= 31 /\
  0 <= hour t < 24 /\ 0 <= minute t < 60 /\ 0 <= second t < 60 /\
  0 <= microsecond t < 1000000.

Definition digit (d : Z) : ascii := ascii_of_N (48 + Z.to_N (d mod 10)).

(** ["%0wd" % z] for [0 <= z < 10^w]: the [w] low decimal digits. *)
Fixpoint zfill (w : nat) (z : Z) (tail : string) : string :=
  match w with
  | O => tail
  | S w' => zfill w' (z / 10) (String (digit z) tail)
  end.

(** [datetime.isoformat()] with the default separator and
    [timespec='auto']: the fraction is written only when it is not 0. *)
Definition isoformat (t : datetime) : string :=
  zfill 4 (year t) ("-" ++ zfill 2 (month t) ("-" ++ zfill 2 (day t)
    ("T" ++ zfill 2 (hour t) (":" ++ zfill 2 (minute t)
      (":" ++ zfill 2 (second t)
         (if microsecond t =? 0 then ""
          else "." ++ zfill 6 (microsecond t) "")))))).

(** The canonical form with all six fraction digits. *)
Definition isoformat_micro (t : datetime) : string :=
  zfill 4 (year t) ("-" ++ zfill 2 (month t) ("-" ++ zfill 2 (day t)
    ("T" ++ zfill 2 (hour t) (":" ++ zfill 2 (minute t)
      (":" ++ zfill 2 (second t) ("." ++ zfill 6 (microsecond t) "")))))).

Definition digit_value (c : ascii) : option Z :=
  let n := N_of_ascii c in
  if ((48 <=? n) && (n <=? 57))%N then Some (Z.of_N n - 48) else None.

Fixpoint number (acc : Z) (s : string) : option Z :=
  match s with
  | EmptyString => Some acc
  | String c s' =>
      match digit_value c with
      | Some d => number (10 * acc + d) s'
      | None => None
      end
  end.

Definition field (s : string) (start len : nat) : option Z :=
  number 0 (substring start len s).

Definition sep_at (s : string) (i : nat) (c : ascii) : bool :=
  match get i s with
  | Some a => Ascii.eqb a c
  | None => false
  end.

(** Modelled from the spec: [utils.datetime_from_iso_format], which
    [checkpoint.py] imports and whose code is not available.
    The spec has it convert an ISO-8601 string with or without the
    fraction (the 19-character and the microsecond-precision forms)
    into a time value; anything else is rejected here. *)
Definition datetime_from_iso_format (s : string) : result datetime :=
  let n := String.length s in
  if negb (Nat.eqb n 19 || Nat.eqb n 26) then
    Raise (ValueError s)
  else if negb (sep_at s 4 "-" && sep_at s 7 "-" && sep_at s 10 "T"
                && sep_at s 13 ":" && sep_at s 16 ":"
                && (Nat.eqb n 19 || sep_at s 19 ".")) then
    Raise (ValueError s)
  else
    match field s 0 4, field s 5 2, field s 8 2,
          field s 11 2, field s 14 2, field s 17 2,
          (if Nat.eqb n 19 then Some 0 else field s 20 6) with
    | Some y, Some mo, Some d, Some h, Some mi, Some sec, Some us =>
        OK (mk y mo d h mi sec us)
    | _, _, _, _, _, _, _ => Raise (ValueError s)
    end.

End Datetime.
Import Datetime.

(* ===================================================================== *)
(** ** Checkpoints and their identifiers *)
(* ===================================================================== *)

Module CheckpointMeta.

Record t : Type := mk {
  checksum : string;
  time : datetime;
  name : option string
}.

Definition to_string (self : t) : string :=
  let timestring := isoformat (time self) in
  let timestring :=
    timestring ++ (if Nat.eqb (String.length timestring) 19
                   then ".000000" else "") in
  checksum self ++ "_" ++ timestring
  ++ match name self with
     | Some n => if String.eqb n "" then "" else "_" ++ n
     | None => ""
     end.

Section FromString.

(** The timestamp parser of [utils]. *)
Variable datetime_from_iso_format : string -> result datetime.

Definition from_string (string : String.string) : result t :=
  let boom := Str.split "_" 2 string in
  (checksum <~ Str.index boom 0 ;;
   boom1 <~ Str.index boom 1 ;;
   time <~ datetime_from_iso_format boom1 ;;
   name <~ (if Nat.eqb (List.length boom) 2 then OK None
            else boom2 <~ Str.index boom 2 ;; OK (Some boom2)) ;;
   OK (mk checksum time name))%py.

End FromString.

End CheckpointMeta.

(** The document handed to [json.dumps] and returned by [json.loads]. *)
Record checkpoint_dict : Type := {
  doc_root : node_dict;
  doc_time : string;
  doc_name : option string
}.

Module Checkpoint.

Record t : Type := mk {
  root : TreeNode;
  time : datetime;
  name : option string
}.

(** [Checkpoint(root, time, name)]; [now] is what [datetime.now()]
    returns at the call. *)
Definition init (now : datetime) (root : TreeNode)
  (time : option datetime) (name : option string) : result t :=
  if match name with
     | None => true
     | Some s => Re.re_match name_pattern s
     end
  then OK (mk root (match time with None => now | Some t => t end) name)
  else Raise AssertionError.

Definition meta (self : t) : CheckpointMeta.t :=
  CheckpointMeta.mk (checksum (root self)) (time self) (name self).

(** [to_json] up to the rendering of the document by [json.dumps]. *)
Definition to_json (self : t) : checkpoint_dict :=
  {| doc_root := to_dict (root self);
     doc_time := isoformat (time self);
     doc_name := name self |}.

(** [stack.pop()]: the last element and the list without it. *)
Fixpoint pop {A} (stack : list A) : option (A * list A) :=
  match stack with
  | [] => None
  | x :: stack' =>
      match pop stack' with
      | None => Some (x, [])
      | Some (y, rest) => Some (y, x :: rest)
      end
  end.

(** The [for child_name, child_node in children.items()] loop. *)
Definition push_children (stack : list (TreeNode * string))
  (current_path : string) (items : dict TreeNode)
  : list (TreeNode * string) :=
  fold_left
    (fun stack '(child_name, child_node) =>
       (stack ++ [(child_node, os_path_join current_path child_name)])%list)
    items stack.

Fixpoint node_size (n : TreeNode) : nat :=
  match n with
  | DirectoryNode _ _ _ children =>
      S ((fix sum (l : list (string * TreeNode)) : nat :=
            match l with
            | [] => O
            | (_, c) :: l' => (node_size c + sum l')%nat
            end) children)
  | _ => 1%nat
  end.

Definition stack_size (stack : list (TreeNode * string)) : nat :=
  fold_right (fun x acc => (node_size (fst x) + acc)%nat) O stack.

Lemma stack_size_app s1 s2 :
  stack_size (s1 ++ s2) = (stack_size s1 + stack_size s2)%nat.
Proof.
  induction s1 as [|x s1 IH]; simpl; [reflexivity|]. rewrite IH. lia.
Qed.

Lemma pop_spec {A} (stack : list A) x rest :
  pop stack = Some (x, rest) -> stack = (rest ++ [x])%list.
Proof.
  revert x rest; induction stack as [|a stack IH]; intros x rest; simpl.
  - discriminate.
  - destruct (pop stack) as [[y r]|] eqn:E.
    + intros [= <- <-]. simpl. now rewrite <- (IH y r).
    + intros [= <- <-]. destruct stack as [|b stack]; [reflexivity|].
      simpl in E. destruct (pop stack) as [[? ?]|]; discriminate.
Qed.

Lemma push_children_size stack path items :
  stack_size (push_children stack path items)
  = (stack_size stack
     + fold_right (fun kv acc => (node_size (snd kv) + acc)%nat) O items)%nat.
Proof.
  revert stack; induction items as [|[k c] items IH]; intros stack; simpl.
  - lia.
  - unfold push_children in *. simpl. rewrite IH, stack_size_app. simpl. lia.
Qed.

Lemma node_size_children n :
  node_size n
  = S (fold_right (fun kv acc => (node_size (snd kv) + acc)%nat) O
         (children n)).
Proof.
  destruct n as [| |nm cs p ch]; simpl; try reflexivity.
  f_equal. induction ch as [|[k c] ch IH]; simpl; [reflexivity|].
  now rewrite IH.
Qed.

(** The [while len(stack)] loop of [iter]; the result lists what the
    generator yields, in order. *)
Equations? iter_loop (stack : list (TreeNode * string))
  : list (TreeNode * string) by wf (stack_size stack) lt :=
  iter_loop stack with inspect (pop stack) := {
    | exist _ None _ => [];
    | exist _ (Some ((current_node, current_path), rest)) _ =>
        (current_node, current_path)
        :: iter_loop
             (match current_node with
              | DirectoryNode _ _ _ items =>
                  push_children rest current_path items
              | _ => rest
              end) }.
Proof.
  apply pop_spec in e. subst stack. rewrite stack_size_app.
  pose proof (node_size_children current_node) as Hs.
  unfold stack_size at 3. cbn [fold_right fst]. rewrite Hs.
  destruct current_node as [| |nm cs p ch]; cbn [children].
  - lia.
  - lia.
  - rewrite push_children_size. lia.
Qed.

Definition iter (self : t) : list (TreeNode * string) :=
  iter_loop [(root self, "")].

End Checkpoint.

(* ===================================================================== *)
(** ** Notions used to state the properties *)
(* ===================================================================== *)

(** Ascending order on names: Python compares [str] by code point. *)
Definition lex_lt (a b : string) : Prop := String.compare a b = Lt.

(** The digest bytes fed to the hasher for the children [names] of a
    directory, one child after the other. *)
Definition digests_of (children : dict TreeNode) (names : list string)
  : list byte :=
  List.concat
    (map (fun k => match dict_get children k with
                   | Some n => list_byte_of_string (checksum n)
                   | None => []
                   end) names).

(** The entry with every [st_mode] set to 0: what is left is the kind
    of each entry, its content or target, and the names. *)
Fixpoint strip_modes (e : entry) : entry :=
  match e with
  | RegFile _ content => RegFile 0 content
  | Link _ target r => Link 0 target r
  | Dir _ listing =>
      Dir 0 ((fix each (l : list (string * entry)) :=
                match l with
                | [] => []
                | (k, c) :: l' => (k, strip_modes c) :: each l'
                end) listing)
  | Special _ => Special 0
  end.

(** Two trees that differ in permission bits only. *)
Definition same_content (e1 e2 : entry) : Prop :=
  strip_modes e1 = strip_modes e2.

(** The data-model invariant of a node: in every directory the keys of
    [children] are pairwise distinct and each child is filed under its
    own name. *)
Fixpoint well_keyed (n : TreeNode) : Prop :=
  match n with
  | DirectoryNode _ _ _ children =>
      NoDup (keys children) /\
      (fix all (l : list (string * TreeNode)) : Prop :=
         match l with
         | [] => True
         | (k, c) :: l' => k = name c /\ well_keyed c /\ all l'
         end) children
  | _ => True
  end.

(** Depth-first, root first, the children of a directory in the order
    of its [children] map. *)
Fixpoint dfs_listed (n : TreeNode) (path : string)
  : list (TreeNode * string) :=
  (n, path)
  :: match n with
     | DirectoryNode _ _ _ children =>
         (fix each (l : list (string * TreeNode)) :=
            match l with
            | [] => []
            | (k, c) :: l' =>
                (dfs_listed c (os_path_join path k) ++ each l')%list
            end) children
     | _ => []
     end.

(** Depth-first, root first, the children of a directory from the last
    inserted to the first. *)
Fixpoint dfs_reversed (n : TreeNode) (path : string)
  : list (TreeNode * string) :=
  (n, path)
  :: match n with
     | DirectoryNode _ _ _ children =>
         (fix each (l : list (string * TreeNode)) :=
            match l with
            | [] => []
            | (k, c) :: l' =>
                (each l' ++ dfs_reversed c (os_path_join path k))%list
            end) children
     | _ => []
     end.

(** The name class, as a property of a whole string. *)
Fixpoint all_in_class (s : string) : bool :=
  match s with
  | EmptyString => true
  | String c s' => name_class c && all_in_class s'
  end.

Section PureView.

Variable xxh64 : list byte -> string.

(** The node [TreeNode.build_node] returns for an entry, without the
    printing: [None] is Python's [None]. *)
Fixpoint node_of (e : entry) (name : string) : option TreeNode :=
  match e with
  | RegFile m content => Some (FileNode name (xxh64 content) (S_IMODE m))
  | Link m target _ =>
      Some (SymlinkNode name (xxh64 (list_byte_of_string target))
              (S_IMODE m))
  | Dir m listing =>
      let kids :=
        (fix each (l : list (string * entry)) (acc : dict TreeNode) :=
           match l with
           | [] => acc
           | (k, c) :: l' =>
               if negb (isfile c) && negb (isdir c) then each l' acc
               else match node_of c k with
                    | Some n => each l' (dict_set acc k n)
                    | None => each l' acc
                    end
           end) listing [] in
      Some (DirectoryNode name (directory_checksum xxh64 kids)
              (S_IMODE m) kids)
  | Special _ => None
  end.

Fixpoint kids_of (l : list (string * entry)) (acc : dict TreeNode)
  : dict TreeNode :=
  match l with
  | [] => acc
  | (k, c) :: l' =>
      if negb (isfile c) && negb (isdir c) then kids_of l' acc
      else match node_of c k with
           | Some n => kids_of l' (dict_set acc k n)
           | None => kids_of l' acc
           end
  end.

(** The items [build_node] files for a listing, in listing order. *)
Definition items (listing : list (string * entry)) : dict TreeNode :=
  flat_map (fun kv =>
              if negb (isfile (snd kv)) && negb (isdir (snd kv)) then []
              else match node_of (snd kv) (fst kv) with
                   | Some n => [(fst kv, n)]
                   | None => []
                   end) listing.

End PureView.

(** A dictionary under construction, none of its values [None]. *)
Definition some_dict (d : dict TreeNode) : dict (option TreeNode) :=
  map (fun kv => (fst kv, Some (snd kv))) d.

(** Dictionaries with the same keys, in the same order, whose values
    have the same checksums. *)
Definition same_digests (d1 d2 : dict TreeNode) : Prop :=
  Forall2 (fun a b => fst a = fst b /\ checksum (snd a) = checksum (snd b))
          d1 d2.

(** [strip_modes] on the children of a directory. *)
Definition strip_listing (l : list (string * entry))
  : list (string * entry) :=
  map (fun kv => (fst kv, strip_modes (snd kv))) l.

(** The invariant of [well_keyed], for one dictionary. *)
Definition keyed (d : dict TreeNode) : Prop :=
  Forall (fun kv => fst kv = name (snd kv) /\ well_keyed (snd kv)) d.

(** One [dict_set] per entry, in list order. *)
Definition set_all {V} (entries : list (string * V)) (acc : dict V) : dict V :=
  fold_left (fun a kv => dict_set a (fst kv) (snd kv)) entries acc.

(* ===================================================================== *)
(** ** Induction principles for the nested types *)
(* ===================================================================== *)

Section EntryInd.
Variable P : entry -> Prop.
Hypothesis Hfile : forall m c, P (RegFile m c).
Hypothesis Hlink : forall m t r, P (Link m t r).
Hypothesis Hdir : forall m l, Forall (fun kv => P (snd kv)) l -> P (Dir m l).
Hypothesis Hspecial : forall m, P (Special m).

Fixpoint entry_nested_ind (e : entry) : P e :=
  match e with
  | RegFile m c => Hfile m c
  | Link m t r => Hlink m t r
  | Dir m l =>
      Hdir m ((fix each (l : list (string * entry))
                : Forall (fun kv => P (snd kv)) l :=
                 match l with
                 | [] => Forall_nil _
                 | kv :: l' =>
                     Forall_cons kv (entry_nested_ind (snd kv)) (each l')
                 end) l)
  | Special m => Hspecial m
  end.
End EntryInd.

Section TreeNodeInd.
Variable P : TreeNode -> Prop.
Hypothesis Hfile : forall n c p, P (FileNode n c p).
Hypothesis Hlink : forall n c p, P (SymlinkNode n c p).
Hypothesis Hdir : forall n c p ch,
    Forall (fun kv => P (snd kv)) ch -> P (DirectoryNode n c p ch).

Fixpoint TreeNode_nested_ind (n : TreeNode) : P n :=
  match n with
  | FileNode s c p => Hfile s c p
  | SymlinkNode s c p => Hlink s c p
  | DirectoryNode s c p ch =>
      Hdir s c p ((fix each (l : list (string * TreeNode))
                    : Forall (fun kv => P (snd kv)) l :=
                     match l with
                     | [] => Forall_nil _
                     | kv :: l' =>
                         Forall_cons kv (TreeNode_nested_ind (snd kv))
                                     (each l')
                     end) ch)
  end.
End TreeNodeInd.

(* ===================================================================== *)
(** ** Concrete inputs *)
(* ===================================================================== *)

Definition newline : string := String "010" EmptyString.

Module Examples.

(** A directory [rwxr-xr-x] holding a file ["b"] and a link ["a"] to
    it, listed in two orders. *)
Definition listing : list (string * entry) :=
  [("b", RegFile 33188 [x68; x69]); ("a", Link 41471 "b" ToFile)].

Definition listing_swapped : list (string * entry) :=
  [("a", Link 41471 "b" ToFile); ("b", RegFile 33188 [x68; x69])].

(** The same directory after [chmod 000 b]. *)
Definition listing_chmod : list (string * entry) :=
  [("b", RegFile 32768 [x68; x69]); ("a", Link 41471 "b" ToFile)].

(** The same directory after [chmod 600 b]. *)
Definition listing_owner_only : list (string * entry) :=
  [("b", RegFile 33152 [x68; x69]); ("a", Link 41471 "b" ToFile)].

Definition file_a : TreeNode := FileNode "a" "d24ec4f1a98c6e5b" 420.
Definition file_b : TreeNode := FileNode "b" "44bc2cf5ad770999" 384.

Definition root : TreeNode :=
  DirectoryNode "" "ef46db3751d8e999" 493 [("a", file_a); ("b", file_b)].

(** 2024-01-01 00:00:00, on the second. *)
Definition midnight : datetime := Datetime.mk 2024 1 1 0 0 0 0.

Definition checkpoint : Checkpoint.t :=
  Checkpoint.mk root midnight None.

Definition meta : CheckpointMeta.t :=
  CheckpointMeta.mk "ef46db3751d8e999" midnight (Some "my_backup.1").

(** Two child dicts of the same name. *)
Definition child_first : node_dict :=
  NodeDict (Some "a") (Some "d24ec4f1a98c6e5b") (Some 420) None
           (Some "file").
Definition child_last : node_dict :=
  NodeDict (Some "a") (Some "44bc2cf5ad770999") (Some 384) None
           (Some "symlink").

End Examples.

(* ===================================================================== *)
(** ** Building and loading checkpoints *)
(* ===================================================================== *)

(** What building the entry at [path] prints: one ["Ignored: ..."] line
    for each child, at any depth, that is neither a file nor a directory
    once links are followed, in listing order; ["Could not backup: ..."]
    for an entry that [TreeNode.build_node] itself cannot classify. *)
Fixpoint warnings_of (e : entry) (path : string) : list string :=
  match e with
  | Dir _ listing =>
      (fix each (l : list (string * entry)) : list string :=
         match l with
         | [] => []
         | (child_name, c) :: l' =>
             ((if negb (isfile c) && negb (isdir c)
               then [("Ignored: " ++ os_path_join path child_name)%string]
               else warnings_of c (os_path_join path child_name))
              ++ each l')%list
         end) listing
  | Special _ => ["Could not backup: " ++ path]
  | _ => []
  end.

Definition warnings_in (path : string) (l : list (string * entry))
  : list string :=
  flat_map (fun kv =>
              if negb (isfile (snd kv)) && negb (isdir (snd kv))
              then ["Ignored: " ++ os_path_join path (fst kv)]
              else warnings_of (snd kv) (os_path_join path (fst kv))) l.

(** The entries of a listing that the children loop keeps. *)
Definition kept (listing : list (string * entry)) : list (string * entry) :=
  filter (fun kv => isfile (snd kv) || isdir (snd kv)) listing.

Section ViewAs.

Variable who : caller.
Variable xxh64 : list byte -> string.

(** What [TreeNode.build_node] returns or raises for the caller, apart
    from what it prints. *)
Definition built_as (e : entry) (path name : string)
  : result (option TreeNode) :=
  fst (TreeNode_build_node_as who xxh64 e path name []).

(** The items the caller's build files for the listing of a directory
    it may search, in listing order. *)
Definition items_as (path : string) (listing : list (string * entry))
  : dict TreeNode :=
  flat_map (fun kv =>
              if negb (isfile (snd kv)) && negb (isdir (snd kv)) then []
              else match built_as (snd kv) (os_path_join path (fst kv))
                           (fst kv) with
                   | OK (Some n) => [(fst kv, n)]
                   | _ => []
                   end) listing.

(** Every kept entry of the listing is built to a node. *)
Definition all_built (path : string) (listing : list (string * entry))
  : Prop :=
  Forall (fun kv => isfile (snd kv) || isdir (snd kv) = true ->
                    exists n, built_as (snd kv)
                                (os_path_join path (fst kv)) (fst kv)
                              = OK (Some n)) listing.

End ViewAs.

Section Loading.

(** The digest function and the timestamp parser of [utils]. *)
Variable xxh64 : list byte -> string.
Variable datetime_from_iso_format : string -> result datetime.

(** [Checkpoint.from_json] from the document [json.loads] returns. The
    arguments of [Checkpoint(...)] are evaluated from left to right,
    then the name is checked; [now] is what [datetime.now()] would
    return, which is not read since a time is passed. *)
Definition Checkpoint_from_json (now : datetime)
  (tree_dict : checkpoint_dict) : result Checkpoint.t :=
  (root <~ TreeNode_from_dict (doc_root tree_dict) ;;
   time <~ datetime_from_iso_format (doc_time tree_dict) ;;
   Checkpoint.init now root (Some time) (doc_name tree_dict))%py.

(** A [Checkpoint] object with the root it was given, a node or [None]:
    [build_checkpoint] passes on whatever [TreeNode.build_node]
    returned. The objects whose root is a node are the [Checkpoint.t]. *)
Record checkpoint_object : Type := {
  obj_root : option TreeNode;
  obj_time : datetime;
  obj_name : option string
}.

(** [Checkpoint(root, time, name)] for such a root: the assertion and
    the default of [Checkpoint.init]. *)
Definition Checkpoint_new (now : datetime) (root : option TreeNode)
  (time : option datetime) (name : option string) : result checkpoint_object :=
  if match name with
     | None => true
     | Some s => Re.re_match name_pattern s
     end
  then OK {| obj_root := root;
             obj_time := match time with None => now | Some t => t end;
             obj_name := name |}
  else Raise AssertionError.

(** [to_json] on such an object, up to the rendering of the document:
    [self.root.to_dict()] comes first and raises [AttributeError] on
    [None]. *)
Definition checkpoint_object_to_json (self : checkpoint_object)
  : result checkpoint_dict :=
  match obj_root self with
  | Some root =>
      OK {| doc_root := to_dict root;
            doc_time := isoformat (obj_time self);
            doc_name := obj_name self |}
  | None => Raise AttributeError
  end.

Variable who : caller.

Definition Checkpoint_build_checkpoint (now : datetime) (e : entry)
  (path : string) (name : option string) : M checkpoint_object :=
  (root <- TreeNode_build_node_as who xxh64 e path "" ;;
   lift (Checkpoint_new now root None name))%py.

End Loading.

(* ===================================================================== *)
(** ** Order on names and [sorted] *)
(* ===================================================================== *)

Section Sorting.

Lemma ascii_compare_refl c : Ascii.compare c c = Eq.
Proof. unfold Ascii.compare. apply N.compare_refl. Qed.

Lemma ascii_compare_lt_trans a b c :
  Ascii.compare a b = Lt -> Ascii.compare b c = Lt -> Ascii.compare a c = Lt.
Proof.
  unfold Ascii.compare. rewrite !N.compare_lt_iff. apply N.lt_trans.
Qed.

Lemma compare_refl s : String.compare s s = Eq.
Proof.
  induction s as [|c s IH]; simpl; [reflexivity|].
  now rewrite ascii_compare_refl.
Qed.

Lemma compare_lt_trans s1 : forall s2 s3,
    String.compare s1 s2 = Lt -> String.compare s2 s3 = Lt ->
    String.compare s1 s3 = Lt.
Proof.
  induction s1 as [|a s1 IH]; intros [|b s2] [|c s3]; simpl;
    try discriminate; try reflexivity.
  destruct (Ascii.compare a b) eqn:Eab; try discriminate;
    destruct (Ascii.compare b c) eqn:Ebc; try discriminate; intros H1 H2.
  - apply Ascii.compare_eq_iff in Eab, Ebc. subst.
    rewrite ascii_compare_refl. eauto.
  - apply Ascii.compare_eq_iff in Eab. subst. now rewrite Ebc.
  - apply Ascii.compare_eq_iff in Ebc. subst. now rewrite Eab.
  - now rewrite (ascii_compare_lt_trans _ _ _ Eab Ebc).
Qed.

Lemma leb_iff s1 s2 : String.leb s1 s2 = true <-> lex_lt s1 s2 \/ s1 = s2.
Proof.
  unfold String.leb, lex_lt. split.
  - destruct (String.compare s1 s2) eqn:E; try discriminate; auto.
    right. now apply String.compare_eq_iff.
  - intros [-> | ->]; [reflexivity|]. now rewrite compare_refl.
Qed.

Lemma leb_trans s1 s2 s3 :
  String.leb s1 s2 = true -> String.leb s2 s3 = true ->
  String.leb s1 s3 = true.
Proof.
  rewrite !leb_iff. intros [H1 | ->] [H2 | ->]; auto.
  left. eapply compare_lt_trans; eauto.
Qed.

Lemma insert_sorted_perm x l : Permutation (insert_sorted x l) (x :: l).
Proof.
  induction l as [|y l IH]; simpl; [reflexivity|].
  destruct (String.leb x y); [reflexivity|].
  rewrite IH. apply perm_swap.
Qed.

Lemma sorted_perm l : Permutation (sorted l) l.
Proof.
  induction l as [|x l IH]; simpl; [reflexivity|].
  rewrite insert_sorted_perm. now constructor.
Qed.

Lemma insert_sorted_comm a b l :
  insert_sorted a (insert_sorted b l) = insert_sorted b (insert_sorted a l).
Proof.
  induction l as [|y l IH]; simpl.
  - destruct (String.leb a b) eqn:Eab, (String.leb b a) eqn:Eba;
      try reflexivity.
    + now rewrite (String.leb_antisym _ _ Eab Eba).
    + destruct (String.leb_total a b); congruence.
  - destruct (String.leb b y) eqn:Eby, (String.leb a y) eqn:Eay; simpl;
      rewrite ?Eby, ?Eay.
    + destruct (String.leb a b) eqn:Eab, (String.leb b a) eqn:Eba;
        simpl; rewrite ?Eby, ?Eay; try reflexivity.
      * now rewrite (String.leb_antisym _ _ Eab Eba).
      * destruct (String.leb_total a b); congruence.
    + destruct (String.leb a b) eqn:Eab.
      * rewrite (leb_trans _ _ _ Eab Eby) in Eay. discriminate.
      * reflexivity.
    + destruct (String.leb b a) eqn:Eba.
      * rewrite (leb_trans _ _ _ Eba Eay) in Eby. discriminate.
      * reflexivity.
    + now rewrite IH.
Qed.

Lemma sorted_ext l1 l2 : Permutation l1 l2 -> sorted l1 = sorted l2.
Proof.
  induction 1 as [|x l1 l2 _ IH|x y l|l1 l2 l3 _ IH1 _ IH2]; simpl.
  - reflexivity.
  - now rewrite IH.
  - apply insert_sorted_comm.
  - congruence.
Qed.

Lemma insert_sorted_ascending x l :
  StronglySorted (fun a b => String.leb a b = true) l ->
  StronglySorted (fun a b => String.leb a b = true) (insert_sorted x l).
Proof.
  induction 1 as [|y l Hs IH Hall]; simpl.
  - repeat constructor.
  - destruct (String.leb x y) eqn:E.
    + constructor; [now constructor|]. constructor; [assumption|].
      eapply Forall_impl; [|exact Hall]. intros z Hz.
      eapply leb_trans; eassumption.
    + constructor; [assumption|].
      eapply Permutation_Forall;
        [symmetry; apply insert_sorted_perm|].
      constructor; [|assumption].
      destruct (String.leb_total x y); congruence.
Qed.

Lemma sorted_ascending l :
  StronglySorted (fun a b => String.leb a b = true) (sorted l).
Proof.
  induction l; simpl; [constructor|]. now apply insert_sorted_ascending.
Qed.

(** Of distinct names, [sorted] is strictly ascending. *)
Lemma sorted_strictly_ascending l :
  NoDup l -> StronglySorted lex_lt (sorted l).
Proof.
  intros Hnd.
  assert (Hnd' : NoDup (sorted l)).
  { eapply Permutation_NoDup; [symmetry; apply sorted_perm|assumption]. }
  pose proof (sorted_ascending l) as Hs.
  induction Hs as [|y l' Hs IH Hall]; [constructor|].
  inversion Hnd' as [|? ? Hnotin Hnd'']; subst.
  constructor; [auto|].
  rewrite Forall_forall in *. intros z Hz.
  destruct (proj1 (leb_iff y z) (Hall z Hz)) as [Hlt | ->];
    [assumption | contradiction].
Qed.

End Sorting.

(* ===================================================================== *)
(** ** Dictionaries *)
(* ===================================================================== *)

Section DictFacts.

Context {V : Type}.
Implicit Types (d : dict V) (k : string) (v : V).

Lemma dict_get_set_same d k v : dict_get (dict_set d k v) k = Some v.
Proof.
  induction d as [|[k' v'] d IH]; simpl.
  - now rewrite String.eqb_refl.
  - destruct (String.eqb k' k) eqn:E; simpl; rewrite E; auto.
Qed.

Lemma dict_get_set_other d k k' v :
  k <> k' -> dict_get (dict_set d k v) k' = dict_get d k'.
Proof.
  intros Hne. induction d as [|[k0 v0] d IH]; simpl.
  - apply String.eqb_neq in Hne. now rewrite Hne.
  - destruct (String.eqb k0 k) eqn:E; simpl.
    + apply String.eqb_eq in E. subst k0.
      apply String.eqb_neq in Hne. now rewrite Hne.
    + now rewrite IH.
Qed.

Lemma dict_set_new d k v :
  ~ In k (keys d) -> dict_set d k v = (d ++ [(k, v)])%list.
Proof.
  induction d as [|[k' v'] d IH]; simpl; intros Hnin; [reflexivity|].
  destruct (String.eqb_spec k' k) as [->|Hne]; [tauto|].
  rewrite IH; tauto.
Qed.

Lemma dict_set_keys d k v :
  forall x, In x (keys (dict_set d k v)) <-> x = k \/ In x (keys d).
Proof.
  intros x. induction d as [|[k' v'] d IH]; simpl.
  - intuition.
  - destruct (String.eqb_spec k' k) as [->|Hne]; simpl; [intuition|].
    rewrite IH. intuition.
Qed.

Lemma dict_set_nodup d k v : NoDup (keys d) -> NoDup (keys (dict_set d k v)).
Proof.
  induction d as [|[k' v'] d IH]; simpl; intros Hnd.
  - repeat constructor. intros [].
  - inversion Hnd as [|? ? Hnin Hnd']; subst.
    destruct (String.eqb_spec k' k) as [->|Hne]; simpl.
    + now constructor.
    + constructor; [|auto]. rewrite dict_set_keys. intuition.
Qed.

Lemma dict_get_in d k v :
  NoDup (keys d) -> In (k, v) d -> dict_get d k = Some v.
Proof.
  induction d as [|[k' v'] d IH]; simpl; intros Hnd Hin; [tauto|].
  inversion Hnd as [|? ? Hnin Hnd']; subst.
  destruct Hin as [[= -> ->]|Hin].
  - now rewrite String.eqb_refl.
  - destruct (String.eqb_spec k' k) as [->|Hne]; [|auto].
    exfalso. apply Hnin. change k with (fst (k, v)). now apply in_map.
Qed.

Lemma dict_get_some_in d k v : dict_get d k = Some v -> In (k, v) d.
Proof.
  induction d as [|[k' v'] d IH]; simpl; [discriminate|].
  destruct (String.eqb_spec k' k) as [->|Hne].
  - intros [= ->]. now left.
  - auto.
Qed.

(** Two dictionaries holding the same items answer lookups alike. *)
Lemma dict_get_perm d1 d2 k :
  NoDup (keys d1) -> Permutation d1 d2 -> dict_get d1 k = dict_get d2 k.
Proof.
  intros Hnd Hp.
  assert (Hnd2 : NoDup (keys d2)).
  { eapply Permutation_NoDup; [|exact Hnd]. now apply Permutation_map. }
  destruct (dict_get d1 k) as [v|] eqn:E1.
  - symmetry. apply dict_get_in; [assumption|].
    eapply Permutation_in; [exact Hp|]. now apply dict_get_some_in.
  - destruct (dict_get d2 k) as [v|] eqn:E2; [|reflexivity].
    apply dict_get_some_in in E2.
    apply Permutation_sym in Hp.
    pose proof (Permutation_in _ Hp E2) as Hin.
    rewrite (dict_get_in _ _ _ Hnd Hin) in E1. discriminate.
Qed.

End DictFacts.

(* ===================================================================== *)
(** ** Building nodes *)
(* ===================================================================== *)

(** Reading a file block by block feeds the hasher the whole content. *)
Lemma read_loop_all (n : nat) : forall message f,
    (List.length f <= n)%nat ->
    read_loop message (fst (read BLOCKSIZE f)) (snd (read BLOCKSIZE f))
    = (message ++ f)%list.
Proof.
  induction n as [|n IH]; intros message f Hlen.
  - destruct f; [|simpl in Hlen; lia].
    simpl. simp read_loop. now rewrite app_nil_r.
  - destruct f as [|b f]; [simpl; simp read_loop; now rewrite app_nil_r|].
    assert (Hread : fst (read BLOCKSIZE (b :: f))
                    = b :: take (N.pred BLOCKSIZE) f) by reflexivity.
    rewrite Hread. simp read_loop.
    rewrite IH.
    + unfold update. rewrite <- app_assoc. f_equal.
      change (b :: take (N.pred BLOCKSIZE) f)
        with (take BLOCKSIZE (b :: f)).
      change (snd (read BLOCKSIZE (b :: f))) with (drop BLOCKSIZE (b :: f)).
      apply take_drop.
    + pose proof (read_length BLOCKSIZE (b :: f)) as Hl.
      rewrite Hread in Hl. cbn [List.length] in Hl, Hlen. lia.
Qed.

Section BuildFacts.

Variable xxh64 : list byte -> string.

Lemma FileNode_build_node_regular m content path name out :
  FileNode_build_node xxh64 (RegFile m content) path name out
  = (OK (FileNode name (xxh64 content) (S_IMODE m)), out).
Proof.
  unfold FileNode_build_node, hexdigest. cbn [isfile islink negb assert].
  unfold bind, ret. cbn [lstat_st_mode].
  pose proof (@read_loop_all (List.length content) xxh64_new content
                (Nat.le_refl _)) as H.
  destruct (read BLOCKSIZE content) as [buf f] eqn:E. simpl in H.
  now rewrite H.
Qed.

Lemma SymlinkNode_build_node_link m target r path name out :
  SymlinkNode_build_node xxh64 (Link m target r) path name out
  = (OK (SymlinkNode name (xxh64 (list_byte_of_string target)) (S_IMODE m)),
     out).
Proof. reflexivity. Qed.

Lemma some_dict_set d k n :
  dict_set (some_dict d) k (Some n) = some_dict (dict_set d k n).
Proof.
  induction d as [|[k' n'] d IH]; simpl; [reflexivity|].
  destruct (String.eqb k' k); simpl; [reflexivity|]. now rewrite IH.
Qed.

Lemma built_children_some d : built_children (some_dict d) = OK d.
Proof.
  induction d as [|[k n] d IH]; simpl; [reflexivity|]. now rewrite IH.
Qed.

Lemma node_of_some e name :
  isfile e || isdir e = true -> exists n, node_of xxh64 e name = Some n.
Proof.
  destruct e as [m c|m t r|m l|m]; simpl; intros H; eauto; discriminate.
Qed.

Lemma node_of_dir m listing name :
  node_of xxh64 (Dir m listing) name
  = Some (DirectoryNode name
            (directory_checksum xxh64 (kids_of xxh64 listing []))
            (S_IMODE m) (kids_of xxh64 listing [])).
Proof.
  simpl.
  assert (H : forall l acc,
             (fix each (l : list (string * entry)) (acc : dict TreeNode) :=
                match l with
                | [] => acc
                | (k, c) :: l' =>
                    if negb (isfile c) && negb (isdir c) then each l' acc
                    else match node_of xxh64 c k with
                         | Some n => each l' (dict_set acc k n)
                         | None => each l' acc
                         end
                end) l acc = kids_of xxh64 l acc).
  { induction l as [|[k c] l IH]; intros acc; simpl; [reflexivity|].
    destruct (negb (isfile c) && negb (isdir c)); [apply IH|].
    destruct (node_of xxh64 c k); apply IH. }
  now rewrite H.
Qed.

(** The children loop, given that [build] agrees with [node_of]. *)
Lemma build_children_spec build path listing :
  Forall (fun kv => forall p n o, exists o',
              build (snd kv) p n o = (OK (node_of xxh64 (snd kv) n), o'))
         listing ->
  forall acc out, exists out',
    build_children build path listing (some_dict acc) out
    = (OK (some_dict (kids_of xxh64 listing acc)), out').
Proof.
  induction 1 as [|[k c] listing Hc _ IH]; intros acc out; simpl.
  - eexists. reflexivity.
  - destruct (negb (isfile c) && negb (isdir c)) eqn:G.
    + unfold bind, print. apply IH.
    + unfold bind.
      destruct (Hc (os_path_join path k) k out) as [o' Hb]. simpl in Hb.
      rewrite Hb.
      destruct (node_of_some c k) as [n Hn].
      { rewrite <- negb_orb in G. now apply negb_false_iff in G. }
      rewrite Hn, some_dict_set. apply IH.
Qed.

(** [TreeNode.build_node] never raises; it returns [node_of]. *)
Lemma TreeNode_build_node_spec e :
  forall path name out, exists out',
    TreeNode_build_node xxh64 e path name out
    = (OK (node_of xxh64 e name), out').
Proof.
  induction e as [m c|m t r|m l IH|m] using entry_nested_ind;
    intros path name out.
  - simpl. unfold bind. rewrite FileNode_build_node_regular.
    eexists. reflexivity.
  - eexists. reflexivity.
  - rewrite node_of_dir.
    cbn [TreeNode_build_node islink isfile isdir].
    unfold DirectoryNode_build_node_with, bind at 1.
    cbn [isdir assert]. unfold bind at 1, ret at 1.
    unfold bind at 1.
    destruct (build_children_spec (TreeNode_build_node xxh64) path IH
                [] out) as [out' Hk].
    simpl some_dict in Hk at 1. rewrite Hk.
    unfold bind, lift, ret. rewrite built_children_some.
    eexists. reflexivity.
  - eexists. reflexivity.
Qed.

Lemma DirectoryNode_build_node_spec m listing path name out :
  exists out',
    DirectoryNode_build_node xxh64 (Dir m listing) listing path name out
    = (OK (DirectoryNode name
             (directory_checksum xxh64 (kids_of xxh64 listing []))
             (S_IMODE m) (kids_of xxh64 listing [])), out').
Proof.
  destruct (TreeNode_build_node_spec (Dir m listing) path name out)
    as [out' H].
  rewrite node_of_dir in H.
  cbn [TreeNode_build_node islink isfile isdir] in H.
  unfold DirectoryNode_build_node.
  unfold bind at 1 in H.
  destruct (DirectoryNode_build_node_with xxh64 (TreeNode_build_node xxh64)
              (Dir m listing) listing path name out) as [[n|e] o].
  - unfold ret in H. injection H as H1 H2. subst. eexists. reflexivity.
  - discriminate.
Qed.

End BuildFacts.

Section ChildrenFacts.

Variable xxh64 : list byte -> string.



Lemma kids_of_items listing : forall acc,
    NoDup (keys acc ++ map fst listing) ->
    kids_of xxh64 listing acc = (acc ++ items xxh64 listing)%list.
Proof.
  induction listing as [|[k c] l IH]; intros acc Hnd; simpl.
  - now rewrite app_nil_r.
  - simpl in Hnd. pose proof (NoDup_remove_1 _ _ _ Hnd) as Hnd1.
    pose proof (NoDup_remove_2 _ _ _ Hnd) as Hnin.
    destruct (negb (isfile c) && negb (isdir c)); [now apply IH|].
    destruct (node_of xxh64 c k) as [n|]; [|now apply IH].
    rewrite dict_set_new by (intros Hin; apply Hnin, in_or_app; now left).
    rewrite IH.
    + now rewrite <- app_assoc.
    + unfold keys. rewrite map_app. simpl. rewrite <- app_assoc. exact Hnd.
Qed.

Lemma kids_of_nodup listing : forall acc,
    NoDup (keys acc) -> NoDup (keys (kids_of xxh64 listing acc)).
Proof.
  induction listing as [|[k c] l IH]; intros acc Hnd; simpl; [assumption|].
  destruct (negb (isfile c) && negb (isdir c)); [auto|].
  destruct (node_of xxh64 c k); [|auto].
  apply IH. now apply dict_set_nodup.
Qed.

Lemma kids_of_perm listing listing' :
  NoDup (map fst listing) -> Permutation listing listing' ->
  Permutation (kids_of xxh64 listing []) (kids_of xxh64 listing' []).
Proof.
  intros Hnd Hp.
  rewrite !kids_of_items; simpl; [| |assumption].
  - now apply Permutation_flat_map.
  - eapply Permutation_NoDup; [|exact Hnd]. now apply Permutation_map.
Qed.

Lemma fold_update_str l : forall message,
    fold_left (fun message child_digest => update_str message child_digest)
              l message
    = (message ++ List.concat (map list_byte_of_string l))%list.
Proof.
  induction l as [|s l IH]; intros message; simpl.
  - now rewrite app_nil_r.
  - rewrite IH. unfold update_str, update. now rewrite app_assoc.
Qed.

Lemma directory_checksum_digests children :
  directory_checksum xxh64 children
  = xxh64 (digests_of children (sorted (keys children))).
Proof.
  unfold directory_checksum, hexdigest, child_checksums, digests_of.
  rewrite fold_update_str. simpl. rewrite map_map. do 2 f_equal.
  apply map_ext. intros k. now destruct (dict_get children k).
Qed.

(** The checksum of a directory hashes the children's digests in
    strictly ascending order of their names. *)
Lemma directory_checksum_in_name_order children :
  NoDup (keys children) ->
  exists names,
    Permutation names (keys children) /\ StronglySorted lex_lt names /\
    directory_checksum xxh64 children = xxh64 (digests_of children names).
Proof.
  intros Hnd. exists (sorted (keys children)). split; [apply sorted_perm|].
  split; [now apply sorted_strictly_ascending|].
  apply directory_checksum_digests.
Qed.

Lemma digests_of_perm d1 d2 names :
  NoDup (keys d1) -> Permutation d1 d2 ->
  digests_of d1 names = digests_of d2 names.
Proof.
  intros Hnd Hp. unfold digests_of. f_equal. apply map_ext. intros k.
  now rewrite (dict_get_perm k Hnd Hp).
Qed.

Lemma directory_checksum_perm d1 d2 :
  NoDup (keys d1) -> Permutation d1 d2 ->
  directory_checksum xxh64 d1 = directory_checksum xxh64 d2.
Proof.
  intros Hnd Hp. rewrite !directory_checksum_digests.
  rewrite (sorted_ext (l1 := keys d1) (l2 := keys d2))
    by (now apply Permutation_map).
  now rewrite (digests_of_perm _ Hnd Hp).
Qed.

End ChildrenFacts.

Section BuildLog.

Variable xxh64 : list byte -> string.

Lemma warnings_of_dir m l path :
  warnings_of (Dir m l) path = warnings_in path l.
Proof.
  simpl. unfold warnings_in.
  induction l as [|[k c] l IH]; simpl; [reflexivity|]. now rewrite IH.
Qed.

Lemma build_children_log build path listing :
  Forall (fun kv => forall p n o,
              build (snd kv) p n o
              = (OK (node_of xxh64 (snd kv) n),
                 (o ++ warnings_of (snd kv) p)%list)) listing ->
  forall acc out,
    build_children build path listing (some_dict acc) out
    = (OK (some_dict (kids_of xxh64 listing acc)),
       (out ++ warnings_in path listing)%list).
Proof.
  induction 1 as [|[k c] listing Hc _ IH]; intros acc out.
  - simpl. now rewrite app_nil_r.
  - cbn [build_children kids_of warnings_in flat_map fst snd].
    fold (warnings_in path listing).
    destruct (negb (isfile c) && negb (isdir c)) eqn:G.
    + unfold bind, print. rewrite IH. now rewrite <- app_assoc.
    + unfold bind. pose proof (Hc (os_path_join path k) k out) as Hb.
      cbn [snd] in Hb. rewrite Hb.
      destruct (node_of_some xxh64 c k) as [n Hn].
      { rewrite <- negb_orb in G. now apply negb_false_iff in G. }
      rewrite Hn, some_dict_set, IH. now rewrite <- app_assoc.
Qed.

(** The value and the printed lines of [TreeNode.build_node]. *)
Lemma TreeNode_build_node_log e :
  forall path name out,
    TreeNode_build_node xxh64 e path name out
    = (OK (node_of xxh64 e name), (out ++ warnings_of e path)%list).
Proof.
  induction e as [m c|m t r|m l IH|m] using entry_nested_ind;
    intros path name out.
  - simpl. unfold bind. rewrite FileNode_build_node_regular.
    unfold ret. now rewrite app_nil_r.
  - simpl. unfold bind, ret, assert. simpl. now rewrite app_nil_r.
  - rewrite node_of_dir, warnings_of_dir.
    cbn [TreeNode_build_node islink isfile isdir].
    unfold DirectoryNode_build_node_with, bind at 1.
    cbn [isdir assert]. unfold bind at 1, ret at 1.
    unfold bind at 1.
    pose proof (build_children_log (TreeNode_build_node xxh64) path IH
                  [] out) as Hk.
    simpl some_dict in Hk at 1. rewrite Hk.
    unfold bind, lift, ret. now rewrite built_children_some.
  - reflexivity.
Qed.



End BuildLog.

(* ===================================================================== *)
(** ** Building under the permission bits *)
(* ===================================================================== *)

Section Access.

Variable who : caller.
Variable xxh64 : list byte -> string.

Lemma buildable_dir m l :
  buildable who (Dir m l)
  = may_read who m && may_search who m
    && forallb (fun kv => negb (isfile (snd kv) || isdir (snd kv))
                          || buildable who (snd kv)) l.
Proof.
  simpl. f_equal. induction l as [|[k c] l IH]; simpl; [reflexivity|].
  now rewrite IH.
Qed.

(** [update] decides for a link: the digest of the target, or
    [UnicodeEncodeError]. *)
Lemma SymlinkNode_build_node_as_link m target r path name out :
  SymlinkNode_build_node_as xxh64 (Link m target r) path name out
  = if is_text target
    then (OK (SymlinkNode name (xxh64 (list_byte_of_string target))
                (S_IMODE m)), out)
    else (Raise UnicodeEncodeError, out).
Proof.
  unfold SymlinkNode_build_node_as. cbn [islink assert].
  unfold bind, ret. cbn [lstat_st_mode].
  now destruct (is_text target).
Qed.

(** [open] decides: the digest of the whole content, or
    [PermissionError] before anything is read. *)
Lemma FileNode_build_node_as_regular m content path name out :
  FileNode_build_node_as who xxh64 (RegFile m content) path name out
  = if may_read who m
    then (OK (FileNode name (xxh64 content) (S_IMODE m)), out)
    else (Raise PermissionError, out).
Proof.
  unfold FileNode_build_node_as, hexdigest. cbn [isfile islink negb assert].
  unfold bind, ret. cbn [lstat_st_mode].
  destruct (may_read who m); [|reflexivity].
  pose proof (@read_loop_all (List.length content) xxh64_new content
                (Nat.le_refl _)) as H.
  destruct (read BLOCKSIZE content) as [buf f] eqn:E. simpl in H.
  now rewrite H.
Qed.

Lemma build_children_as_granted build_as build path l :
  Forall (fun kv => isfile (snd kv) || isdir (snd kv) = true ->
                    forall p n o,
                      build_as (snd kv) p n o = build (snd kv) p n o) l ->
  forall acc out,
    build_children_as build_as true path l acc out
    = build_children build path l acc out.
Proof.
  induction 1 as [|[k c] l Hc _ IH]; intros acc out; [reflexivity|].
  cbn [build_children_as build_children]. unfold stat_isfile, stat_isdir.
  cbn [andb].
  destruct (negb (isfile c) && negb (isdir c)) eqn:G.
  - unfold bind, print. apply IH.
  - rewrite <- negb_orb in G. apply negb_false_iff in G.
    unfold bind. pose proof (Hc G (os_path_join path k) k out) as Hb.
    cbn [snd] in Hb. rewrite Hb.
    destruct (build c (os_path_join path k) k out) as [[node|x] o];
      [apply IH|reflexivity].
Qed.

(** Where nothing is refused, the process sees what the code sees
    when every access is granted. *)
Lemma TreeNode_build_node_as_granted e :
  buildable who e = true ->
  forall path name out,
    TreeNode_build_node_as who xxh64 e path name out
    = TreeNode_build_node xxh64 e path name out.
Proof.
  induction e as [m c|m t r|m l IH|m] using entry_nested_ind;
    intros Hacc path name out; try reflexivity.
  - simpl in Hacc. cbn [TreeNode_build_node_as TreeNode_build_node
                          islink isfile].
    unfold bind. rewrite FileNode_build_node_as_regular, Hacc.
    now rewrite FileNode_build_node_regular.
  - simpl in Hacc. cbn [TreeNode_build_node_as TreeNode_build_node islink].
    unfold bind. rewrite SymlinkNode_build_node_as_link, Hacc.
    reflexivity.
  - rewrite buildable_dir in Hacc.
    apply andb_prop in Hacc. destruct Hacc as [Hacc Hall].
    apply andb_prop in Hacc. destruct Hacc as [Hr Hs].
    cbn [TreeNode_build_node_as TreeNode_build_node islink isfile isdir].
    unfold DirectoryNode_build_node_as_with, DirectoryNode_build_node_with.
    cbn [lstat_st_mode]. rewrite Hr, Hs.
    unfold bind at 1 2. unfold bind at 3 4. cbn [isdir assert].
    unfold ret at 1. unfold ret at 3. cbn iota.
    unfold bind at 1. unfold bind at 3.
    rewrite (build_children_as_granted (TreeNode_build_node_as who xxh64)
               (TreeNode_build_node xxh64) path (l := l)).
    + reflexivity.
    + rewrite forallb_forall in Hall. rewrite Forall_forall in *.
      intros kv Hin G p n o. apply IH; [assumption|].
      specialize (Hall _ Hin). now rewrite G in Hall.
Qed.

Lemma DirectoryNode_build_node_as_granted m l :
  buildable who (Dir m l) = true ->
  forall path name out,
    DirectoryNode_build_node_as who xxh64 (Dir m l) l path name out
    = DirectoryNode_build_node xxh64 (Dir m l) l path name out.
Proof.
  intros Hacc path name out.
  pose proof (TreeNode_build_node_as_granted (Dir m l) Hacc path name out)
    as H.
  cbn [TreeNode_build_node_as TreeNode_build_node islink isfile isdir] in H.
  unfold DirectoryNode_build_node_as, DirectoryNode_build_node.
  unfold bind, ret in H.
  destruct (DirectoryNode_build_node_as_with who xxh64
              (TreeNode_build_node_as who xxh64) (Dir m l) l path name out)
    as [[n|x] o];
    destruct (DirectoryNode_build_node_with xxh64 (TreeNode_build_node xxh64)
                (Dir m l) l path name out) as [[n'|x'] o'];
    congruence.
Qed.

(** In a directory the process may not search, every entry is
    reported and none is kept. *)
Lemma build_children_as_unsearchable build path l :
  forall acc out,
    build_children_as build false path l acc out
    = (OK acc,
       (out ++ map (fun kv => ("Ignored: " ++ os_path_join path (fst kv))
                              %string) l)%list).
Proof.
  induction l as [|[k c] l IH]; intros acc out.
  - simpl. unfold ret. now rewrite app_nil_r.
  - cbn [build_children_as]. unfold stat_isfile, stat_isdir. cbn [andb negb].
    unfold bind, print. rewrite IH. cbn [map fst].
    now rewrite <- app_assoc.
Qed.


(** What the caller's build prints does not depend on what was printed
    before, nor does what it returns. *)
Lemma build_children_as_out build s path l :
  Forall (fun kv => forall p n o,
              build (snd kv) p n o
              = (fst (build (snd kv) p n []),
                 (o ++ snd (build (snd kv) p n []))%list)) l ->
  forall acc out,
    build_children_as build s path l acc out
    = (fst (build_children_as build s path l acc []),
       (out ++ snd (build_children_as build s path l acc []))%list).
Proof.
  induction 1 as [|[k c] l Hc _ IH]; intros acc out.
  - simpl. unfold ret. simpl. now rewrite app_nil_r.
  - cbn [build_children_as].
    destruct (negb (stat_isfile s c) && negb (stat_isdir s c)).
    + unfold bind, print.
      rewrite (IH acc (out ++ [("Ignored: " ++ os_path_join path k)%string])
                 %list).
      rewrite (IH acc ([] ++ [("Ignored: " ++ os_path_join path k)%string])
                 %list).
      cbn [fst snd app]. now rewrite <- app_assoc.
    + unfold bind. cbn [snd] in Hc. rewrite (Hc (os_path_join path k) k out).
      destruct (build c (os_path_join path k) k []) as [[node|x] o0];
        cbn [fst snd]; [|reflexivity].
      rewrite (IH (dict_set acc k node) (out ++ o0)%list).
      rewrite (IH (dict_set acc k node) o0).
      cbn [fst snd]. now rewrite app_assoc.
Qed.

Lemma TreeNode_build_node_as_out e :
  forall path name out,
    TreeNode_build_node_as who xxh64 e path name out
    = (built_as who xxh64 e path name,
       (out ++ snd (TreeNode_build_node_as who xxh64 e path name []))%list).
Proof.
  unfold built_as.
  induction e as [m c|m t r|m l IH|m] using entry_nested_ind;
    intros path name out.
  - cbn [TreeNode_build_node_as islink isfile]. unfold bind.
    rewrite !FileNode_build_node_as_regular.
    destruct (may_read who m); cbn; now rewrite app_nil_r.
  - cbn [TreeNode_build_node_as islink]. unfold bind.
    rewrite !SymlinkNode_build_node_as_link.
    destruct (is_text t); cbn; now rewrite app_nil_r.
  - cbn [TreeNode_build_node_as islink isfile isdir].
    unfold DirectoryNode_build_node_as_with. cbn [lstat_st_mode isdir assert].
    destruct (may_read who m).
    + cbv beta iota delta [bind ret].
      rewrite (build_children_as_out (TreeNode_build_node_as who xxh64)
                 (may_search who m) path IH [] out).
      destruct (build_children_as (TreeNode_build_node_as who xxh64)
                  (may_search who m) path l [] []) as [[ch|x] o0];
        cbn [fst snd]; [|reflexivity].
      unfold lift. destruct (built_children ch); reflexivity.
    + cbv beta iota delta [bind ret raise]. cbn. now rewrite app_nil_r.
  - cbn. unfold bind, print, ret. reflexivity.
Qed.

(** What is kept is built to a node, if it is built. *)
Lemma TreeNode_build_node_as_some e path name out r o :
  isfile e || isdir e = true ->
  TreeNode_build_node_as who xxh64 e path name out = (OK r, o) ->
  exists n, r = Some n.
Proof.
  intros Hkind. destruct e as [m c|m t rs|m l|m]; try discriminate Hkind.
  - cbn [TreeNode_build_node_as islink isfile]. unfold bind.
    rewrite FileNode_build_node_as_regular.
    destruct (may_read who m); [|discriminate].
    unfold ret. intros [= <- _]. eauto.
  - cbn [TreeNode_build_node_as islink]. unfold bind.
    rewrite SymlinkNode_build_node_as_link.
    destruct (is_text t); [|discriminate].
    unfold ret. intros [= <- _]. eauto.
  - cbn [TreeNode_build_node_as islink isfile isdir]. unfold bind at 1.
    destruct (DirectoryNode_build_node_as_with who xxh64
                (TreeNode_build_node_as who xxh64) (Dir m l) l path name out)
      as [[n|x] o']; [|discriminate].
    unfold ret. intros [= <- _]. eauto.
Qed.

Lemma items_as_keys path listing k :
  In k (keys (items_as who xxh64 path listing)) -> In k (map fst listing).
Proof.
  induction listing as [|[k' c] l IH]; simpl; [tauto|].
  unfold keys in *. rewrite map_app, in_app_iff. intros [H|H]; [|auto].
  left. destruct (negb (isfile c) && negb (isdir c)); [destruct H|].
  destruct (built_as who xxh64 c (os_path_join path k') k') as [[n|]|x];
    simpl in H; intuition.
Qed.

Lemma items_as_nodup path listing :
  NoDup (map fst listing) -> NoDup (keys (items_as who xxh64 path listing)).
Proof.
  induction listing as [|[k c] l IH]; simpl; intros Hnd; [constructor|].
  inversion Hnd as [|? ? Hnin Hnd']; subst.
  unfold keys in *. rewrite map_app.
  destruct (negb (isfile c) && negb (isdir c)); simpl; [auto|].
  destruct (built_as who xxh64 c (os_path_join path k) k) as [[n|]|x];
    simpl; auto.
  constructor; [|auto]. intros Hin. apply Hnin.
  now apply (items_as_keys path l).
Qed.

Lemma build_children_as_items path l : forall acc out ch o,
    NoDup (keys acc ++ map fst l) ->
    build_children_as (TreeNode_build_node_as who xxh64) true path l
      (some_dict acc) out = (OK ch, o) ->
    ch = some_dict (acc ++ items_as who xxh64 path l)%list
    /\ all_built who xxh64 path l.
Proof.
  induction l as [|[k c] l IH]; intros acc out ch o Hnd.
  - simpl. unfold ret. intros [= <- _]. rewrite app_nil_r.
    split; [reflexivity|constructor].
  - cbn [build_children_as]. unfold stat_isfile, stat_isdir. cbn [andb].
    simpl in Hnd. pose proof (NoDup_remove_1 _ _ _ Hnd) as Hnd1.
    pose proof (NoDup_remove_2 _ _ _ Hnd) as Hnin.
    cbn [items_as flat_map fst snd]. fold (items_as who xxh64 path l).
    destruct (negb (isfile c) && negb (isdir c)) eqn:G.
    + unfold bind, print. intros Hb.
      destruct (IH _ _ _ _ Hnd1 Hb) as [-> Hall].
      split; [reflexivity|]. constructor; [|exact Hall].
      cbn [snd]. rewrite <- negb_orb in G. apply negb_true_iff in G.
      rewrite G. discriminate.
    + rewrite <- negb_orb in G. apply negb_false_iff in G.
      unfold bind. rewrite TreeNode_build_node_as_out.
      destruct (built_as who xxh64 c (os_path_join path k) k)
        as [r|x] eqn:Eb; [|discriminate].
      assert (Hr : exists n, r = Some n).
      { unfold built_as in Eb.
        destruct (TreeNode_build_node_as who xxh64 c (os_path_join path k)
                    k []) as [r0 o0] eqn:E0.
        cbn [fst] in Eb. subst r0.
        exact (TreeNode_build_node_as_some c _ _ _ G E0). }
      destruct Hr as [n ->]. rewrite some_dict_set.
      rewrite dict_set_new by (intros Hin; apply Hnin, in_or_app; now left).
      intros Hb. apply IH in Hb.
      * destruct Hb as [-> Hall]. rewrite <- app_assoc.
        split; [reflexivity|]. constructor; [|exact Hall].
        intros _. exists n. exact Eb.
      * unfold keys. rewrite map_app. simpl. rewrite <- app_assoc. exact Hnd.
Qed.

Lemma build_children_as_built path l :
  all_built who xxh64 path l ->
  forall acc out,
    NoDup (keys acc ++ map fst l) ->
    exists o,
      build_children_as (TreeNode_build_node_as who xxh64) true path l
        (some_dict acc) out
      = (OK (some_dict (acc ++ items_as who xxh64 path l)%list), o).
Proof.
  induction 1 as [|[k c] l Hc _ IH]; intros acc out Hnd.
  - simpl. unfold ret. rewrite app_nil_r. eauto.
  - cbn [build_children_as]. unfold stat_isfile, stat_isdir. cbn [andb].
    simpl in Hnd. pose proof (NoDup_remove_1 _ _ _ Hnd) as Hnd1.
    pose proof (NoDup_remove_2 _ _ _ Hnd) as Hnin.
    cbn [items_as flat_map fst snd]. fold (items_as who xxh64 path l).
    destruct (negb (isfile c) && negb (isdir c)) eqn:G.
    + unfold bind, print. apply IH. exact Hnd1.
    + rewrite <- negb_orb in G. apply negb_false_iff in G.
      cbn [fst snd] in Hc. destruct (Hc G) as [n Hn].
      unfold bind. rewrite TreeNode_build_node_as_out, Hn.
      rewrite some_dict_set.
      rewrite dict_set_new by (intros Hin; apply Hnin, in_or_app; now left).
      destruct (IH (acc ++ [(k, n)])%list
                  (out ++ snd (TreeNode_build_node_as who xxh64 c
                                 (os_path_join path k) k []))%list) as [o Ho].
      * unfold keys. rewrite map_app. simpl. rewrite <- app_assoc. exact Hnd.
      * exists o. rewrite Ho. now rewrite <- app_assoc.
Qed.

Lemma all_built_perm path l l' :
  Permutation l l' -> all_built who xxh64 path l -> all_built who xxh64 path l'.
Proof.
  unfold all_built. intros Hp H. rewrite Forall_forall in *.
  intros kv Hin. apply H. eapply Permutation_in; [|exact Hin].
  now apply Permutation_sym.
Qed.

Lemma items_as_kept path l :
  all_built who xxh64 path l ->
  keys (items_as who xxh64 path l) = map fst (kept l).
Proof.
  unfold items_as, kept, keys.
  induction 1 as [|[k c] l Hc _ IH]; simpl; [reflexivity|].
  rewrite map_app, IH. rewrite <- negb_orb.
  destruct (isfile c || isdir c) eqn:G; simpl; [|reflexivity].
  cbn [fst snd] in Hc. destruct (Hc G) as [n ->]. reflexivity.
Qed.

Lemma items_as_lookup path l :
  NoDup (map fst l) -> all_built who xxh64 path l ->
  Forall (fun kv => built_as who xxh64 (snd kv) (os_path_join path (fst kv))
                      (fst kv)
                    = OK (dict_get (items_as who xxh64 path l) (fst kv)))
         (kept l).
Proof.
  intros Hnd Hall. apply Forall_forall. intros [k c] Hin.
  unfold kept in Hin. apply filter_In in Hin. destruct Hin as [Hin G].
  unfold all_built in Hall. rewrite Forall_forall in Hall.
  cbn [fst snd] in *. destruct (Hall _ Hin G) as [n Hn].
  cbn [fst snd] in Hn. rewrite Hn. f_equal. symmetry.
  apply dict_get_in; [now apply items_as_nodup|].
  unfold items_as. apply in_flat_map. exists (k, c). split; [assumption|].
  cbn [fst snd]. rewrite <- negb_orb, G. simpl. rewrite Hn. now left.
Qed.

(** What [DirectoryNode.build_node] returns, when it returns: the
    children are the items of the listing, or none where the directory
    cannot be searched. *)
Lemma DirectoryNode_build_node_as_value m l path name out node o :
  NoDup (map fst l) ->
  DirectoryNode_build_node_as who xxh64 (Dir m l) l path name out
  = (OK node, o) ->
  may_read who m = true
  /\ if may_search who m
     then all_built who xxh64 path l
          /\ node = DirectoryNode name
                      (directory_checksum xxh64 (items_as who xxh64 path l))
                      (S_IMODE m) (items_as who xxh64 path l)
     else node = DirectoryNode name (xxh64 []) (S_IMODE m) [].
Proof.
  intros Hnd. unfold DirectoryNode_build_node_as,
                DirectoryNode_build_node_as_with.
  cbn [lstat_st_mode isdir assert].
  destruct (may_read who m); [|discriminate].
  cbv beta iota delta [bind ret]. intros H. split; [reflexivity|].
  destruct (may_search who m).
  - destruct (build_children_as (TreeNode_build_node_as who xxh64) true path
                l [] out) as [[ch|x] o0] eqn:Ec; [|discriminate].
    destruct (@build_children_as_items path l [] out ch o0 Hnd Ec)
      as [-> Hall].
    unfold lift in H. cbn [app] in H.
    rewrite built_children_some in H. injection H as <- _.
    split; [exact Hall|reflexivity].
  - rewrite build_children_as_unsearchable in H. unfold lift in H.
    cbn in H. injection H as <- _. reflexivity.
Qed.

Lemma DirectoryNode_build_node_as_built m l path name out :
  NoDup (map fst l) -> may_read who m = true ->
  (if may_search who m then all_built who xxh64 path l else True) ->
  exists o,
    DirectoryNode_build_node_as who xxh64 (Dir m l) l path name out
    = (OK (if may_search who m
           then DirectoryNode name
                  (directory_checksum xxh64 (items_as who xxh64 path l))
                  (S_IMODE m) (items_as who xxh64 path l)
           else DirectoryNode name (xxh64 []) (S_IMODE m) []), o).
Proof.
  intros Hnd Hr Hall. unfold DirectoryNode_build_node_as,
                        DirectoryNode_build_node_as_with.
  cbn [lstat_st_mode isdir assert]. rewrite Hr.
  cbv beta iota delta [bind ret].
  destruct (may_search who m).
  - destruct (@build_children_as_built path l Hall [] out Hnd) as [o Ho].
    cbn [some_dict map] in Ho. rewrite Ho. cbn [app].
    unfold lift. rewrite built_children_some. eauto.
  - rewrite build_children_as_unsearchable. unfold lift. cbn. eauto.
Qed.

Lemma items_as_perm path l l' :
  Permutation l l' ->
  Permutation (items_as who xxh64 path l) (items_as who xxh64 path l').
Proof. intros Hp. unfold items_as. now apply Permutation_flat_map. Qed.

End Access.

(** C1. Whenever [DirectoryNode.build_node] returns for a directory,
    the checksum it produces is the xxh64 digest of the children's
    digests concatenated in ascending order of child name. The children
    are the entries of the listing that are a file or a directory once
    links are followed, each under its listed name and as the node
    [TreeNode.build_node] makes of it (none of them where the calling
    process may not search the directory). Listing the same entries
    (names pairwise distinct, as in a directory) in another order, the
    build returns as well, with the same checksum and the same set of
    children. It does return unless something it asks for is refused:
    a file or directory it may not read, a link target that is not
    text. *)
Theorem C1_directory_checksum_sorted_children
  (who : caller) (xxh64 : list byte -> string) (st_mode : Z)
  (listing listing' : list (string * entry)) (path name : string) (out : log)
  (Hnames : NoDup (map fst listing))
  (Horder : Permutation listing listing') :
  match fst (DirectoryNode_build_node_as who xxh64 (Dir st_mode listing)
               listing path name out) with
  | OK node =>
      let found := if may_search who st_mode then kept listing else [] in
      exists children children' names out',
        node = DirectoryNode name (xxh64 (digests_of children names))
                 (S_IMODE st_mode) children
        /\ keys children = map fst found
        /\ Forall (fun kv =>
                     fst (TreeNode_build_node_as who xxh64 (snd kv)
                            (os_path_join path (fst kv)) (fst kv) [])
                     = OK (dict_get children (fst kv)))
                  found
        /\ Permutation names (keys children)
        /\ StronglySorted lex_lt names
        /\ DirectoryNode_build_node_as who xxh64 (Dir st_mode listing')
             listing' path name out
           = (OK (DirectoryNode name (xxh64 (digests_of children names))
                    (S_IMODE st_mode) children'), out')
        /\ Permutation children children'
  | Raise _ => buildable who (Dir st_mode listing) = false
  end.
Proof.
  destruct (DirectoryNode_build_node_as who xxh64 (Dir st_mode listing)
              listing path name out) as [[node|x] o] eqn:Eb; cbn [fst].
  2: { destruct (buildable who (Dir st_mode listing)) eqn:Hb; [|reflexivity].
       rewrite (DirectoryNode_build_node_as_granted who xxh64 st_mode listing
                  Hb) in Eb.
       destruct (DirectoryNode_build_node_spec xxh64 st_mode listing path
                   name out) as [o1 H1].
       rewrite H1 in Eb. discriminate Eb. }
  assert (Hnames' : NoDup (map fst listing')).
  { eapply Permutation_NoDup; [|exact Hnames]. now apply Permutation_map. }
  destruct (@DirectoryNode_build_node_as_value who xxh64 st_mode listing
              path name out node o Hnames Eb) as [Hr Hv].
  pose proof (@DirectoryNode_build_node_as_built who xxh64 st_mode listing'
                path name out Hnames' Hr) as Hb'.
  destruct (may_search who st_mode).
  - destruct Hv as [Hall ->].
    destruct (Hb' (@all_built_perm who xxh64 path listing listing'
                     Horder Hall)) as [o' Ho'].
    set (children := items_as who xxh64 path listing) in *.
    set (children' := items_as who xxh64 path listing') in *.
    assert (Hnd : NoDup (keys children))
      by (now apply items_as_nodup).
    assert (Hp : Permutation children children')
      by (now apply items_as_perm).
    destruct (@directory_checksum_in_name_order xxh64 children Hnd)
      as (names & Hperm & Hsorted & Hsum).
    exists children, children', names, o'.
    rewrite <- Hsum. repeat split; try assumption.
    + now apply items_as_kept.
    + now apply items_as_lookup.
    + rewrite Ho'.
      now rewrite (@directory_checksum_perm xxh64 children children' Hnd Hp).
  - subst node. destruct (Hb' I) as [o' Ho'].
    exists [], [], [], o'. repeat split; try assumption; constructor.
Qed.

(* ===================================================================== *)
(** ** Checksums do not see permissions *)
(* ===================================================================== *)

Section Permissions.

Variable xxh64 : list byte -> string.

Lemma same_digests_set d1 d2 k n1 n2 :
  same_digests d1 d2 -> checksum n1 = checksum n2 ->
  same_digests (dict_set d1 k n1) (dict_set d2 k n2).
Proof.
  intros H Hn. induction H as [|[k1 v1] [k2 v2] d1 d2 [Hk Hv] Ht IH]; simpl.
  - repeat constructor; assumption.
  - simpl in Hk, Hv. subst k2.
    destruct (String.eqb k1 k); constructor; simpl; auto.
Qed.

Lemma same_digests_get d1 d2 k :
  same_digests d1 d2 ->
  option_map checksum (dict_get d1 k) = option_map checksum (dict_get d2 k).
Proof.
  induction 1 as [|[k1 v1] [k2 v2] d1 d2 [Hk Hv] _ IH]; simpl;
    [reflexivity|].
  simpl in Hk, Hv. subst k2.
  destruct (String.eqb k1 k); simpl; congruence.
Qed.

Lemma same_digests_keys d1 d2 : same_digests d1 d2 -> keys d1 = keys d2.
Proof.
  induction 1 as [|[k1 v1] [k2 v2] d1 d2 [Hk Hv] _ IH]; simpl;
    [reflexivity|].
  simpl in Hk. congruence.
Qed.

Lemma same_digests_checksum d1 d2 :
  same_digests d1 d2 ->
  directory_checksum xxh64 d1 = directory_checksum xxh64 d2.
Proof.
  intros H. rewrite !directory_checksum_digests.
  rewrite (same_digests_keys H). unfold digests_of. do 2 f_equal.
  apply map_ext. intros k. pose proof (same_digests_get k H) as Hg.
  destruct (dict_get d1 k), (dict_get d2 k); simpl in Hg;
    congruence.
Qed.

Lemma strip_modes_dir m l : strip_modes (Dir m l) = Dir 0 (strip_listing l).
Proof.
  simpl. f_equal. induction l as [|[k c] l IH]; simpl; [reflexivity|].
  now rewrite IH.
Qed.

Lemma isfile_strip e : isfile (strip_modes e) = isfile e.
Proof. now destruct e. Qed.

Lemma isdir_strip e : isdir (strip_modes e) = isdir e.
Proof. now destruct e. Qed.

Lemma kids_of_strip l :
  Forall (fun kv => forall n n',
              option_map checksum (node_of xxh64 (snd kv) n)
              = option_map checksum
                  (node_of xxh64 (strip_modes (snd kv)) n')) l ->
  forall acc acc', same_digests acc acc' ->
    same_digests (kids_of xxh64 l acc)
                 (kids_of xxh64 (strip_listing l) acc').
Proof.
  induction 1 as [|[k c] l Hc _ IH]; intros acc acc' Hacc; simpl;
    [assumption|].
  rewrite isfile_strip, isdir_strip.
  destruct (negb (isfile c) && negb (isdir c)); [auto|].
  specialize (Hc k k). simpl in Hc.
  destruct (node_of xxh64 c k), (node_of xxh64 (strip_modes c) k);
    simpl in Hc; try discriminate; [|auto].
  apply IH, same_digests_set; congruence.
Qed.

(** The checksum of the node built for an entry depends neither on
    any [st_mode] in the tree nor on the name given to the node. *)
Lemma node_of_strip e : forall n n',
    option_map checksum (node_of xxh64 e n)
    = option_map checksum (node_of xxh64 (strip_modes e) n').
Proof.
  induction e as [m c|m t r|m l IH|m] using entry_nested_ind; intros n n';
    try reflexivity.
  rewrite strip_modes_dir, !node_of_dir. simpl. f_equal.
  apply same_digests_checksum, kids_of_strip; [assumption|constructor].
Qed.

Lemma node_of_same_content e1 e2 n1 n2 :
  same_content e1 e2 ->
  option_map checksum (node_of xxh64 e1 n1)
  = option_map checksum (node_of xxh64 e2 n2).
Proof.
  unfold same_content. intros H.
  rewrite (node_of_strip e1 n1 n1), (node_of_strip e2 n2 n1). now rewrite H.
Qed.

End Permissions.

(** C2, as far as it holds. The checksum of a node is independent of
    any timestamp, and of the permissions wherever these grant the
    calling process the accesses the build asks for: building from two
    trees that differ in [st_mode] only (at any level), in both of
    which the process may read each file and read and search each
    directory (and each link target is text), returns nodes with equal
    checksums, for a file as for the directories above it; the checksum
    under which a checkpoint is identified does not depend on the
    capture time; and a file's checksum is the digest of its content
    whatever its mode, provided the mode lets the process read it --
    otherwise [build_node] raises [PermissionError]. *)
Theorem C2_checksum_independent_of_permissions
  (who : caller) (xxh64 : list byte -> string) (e1 e2 : entry)
  (path1 path2 name1 name2 : string) (out1 out2 : log)
  (Hsame : same_content e1 e2)
  (Haccess1 : buildable who e1 = true)
  (Haccess2 : buildable who e2 = true) :
  (exists r1 r2 o1 o2,
      TreeNode_build_node_as who xxh64 e1 path1 name1 out1 = (OK r1, o1) /\
      TreeNode_build_node_as who xxh64 e2 path2 name2 out2 = (OK r2, o2) /\
      option_map checksum r1 = option_map checksum r2 /\
      forall n1 n2 now1 now2 t1 t2 nm1 nm2 cp1 cp2,
        r1 = Some n1 -> r2 = Some n2 ->
        Checkpoint.init now1 n1 t1 nm1 = OK cp1 ->
        Checkpoint.init now2 n2 t2 nm2 = OK cp2 ->
        CheckpointMeta.checksum (Checkpoint.meta cp1)
        = CheckpointMeta.checksum (Checkpoint.meta cp2))
  /\ (forall st_mode content path name out,
         FileNode_build_node_as who xxh64 (RegFile st_mode content)
           path name out
         = if may_read who st_mode
           then (OK (FileNode name (xxh64 content) (S_IMODE st_mode)), out)
           else (Raise PermissionError, out)).
Proof.
  split; [|intros; apply FileNode_build_node_as_regular].
  rewrite (TreeNode_build_node_as_granted who xxh64 e1 Haccess1).
  rewrite (TreeNode_build_node_as_granted who xxh64 e2 Haccess2).
  destruct (TreeNode_build_node_spec xxh64 e1 path1 name1 out1) as [o1 H1].
  destruct (TreeNode_build_node_spec xxh64 e2 path2 name2 out2) as [o2 H2].
  pose proof (node_of_same_content xxh64 name1 name2 Hsame) as Hsum.
  exists (node_of xxh64 e1 name1), (node_of xxh64 e2 name2), o1, o2.
  repeat split; try assumption.
  intros n1 n2 now1 now2 t1 t2 nm1 nm2 cp1 cp2 Hn1 Hn2 Hc1 Hc2.
  rewrite Hn1, Hn2 in Hsum. simpl in Hsum. injection Hsum as Hsum.
  unfold Checkpoint.init in Hc1, Hc2.
  destruct (match nm1 with None => true | Some s => _ end); [|discriminate].
  destruct (match nm2 with None => true | Some s => _ end); [|discriminate].
  injection Hc1 as <-. injection Hc2 as <-. exact Hsum.
Qed.

(** Which children a directory keeps: those that are a file or a
    directory once links are followed. Among the symbolic links these are
    the ones that resolve; each is kept as a [SymlinkNode]. *)
Lemma kept_children xxh64 listing k n :
  NoDup (map fst listing) ->
  In (k, n) (kids_of xxh64 listing []) <->
  exists c, In (k, c) listing /\ isfile c || isdir c = true
            /\ node_of xxh64 c k = Some n.
Proof.
  intros Hnd. rewrite kids_of_items by exact Hnd. simpl.
  unfold items. rewrite in_flat_map. split.
  - intros ([k' c] & Hin & H). simpl in H.
    destruct (negb (isfile c) && negb (isdir c)) eqn:G; [destruct H|].
    destruct (node_of xxh64 c k') as [n'|] eqn:E; [|destruct H].
    destruct H as [[= -> ->]|[]]. exists c. repeat split; try assumption.
    rewrite <- negb_orb in G. now apply negb_false_iff in G.
  - intros (c & Hin & G & E). exists (k, c). split; [assumption|]. simpl.
    rewrite <- negb_orb, G. simpl. rewrite E. now left.
Qed.

Lemma node_of_link xxh64 m target r k :
  node_of xxh64 (Link m target r) k
  = Some (SymlinkNode k (xxh64 (list_byte_of_string target)) (S_IMODE m)).
Proof. reflexivity. Qed.

(** C6, at a directory holding one dangling symbolic link: the link is
    skipped with the warning ["Ignored: ..."] and the directory is built
    without it, whereas [TreeNode.build_node] on the link itself
    returns a [SymlinkNode]. *)
Theorem C6_dangling_symlink_is_skipped (xxh64 : list byte -> string) :
  let link := Link 41471 "missing" ToNothing in
  DirectoryNode_build_node xxh64 (Dir 16877 [("l", link)]) [("l", link)]
    "/r" "" []
  = (OK (DirectoryNode "" (xxh64 []) 493 []), ["Ignored: /r/l"])
  /\ TreeNode_build_node xxh64 link "/r/l" "l" []
     = (OK (Some (SymlinkNode "l" (xxh64 (list_byte_of_string "missing"))
                    511)), []).
Proof. split; reflexivity. Qed.

(* ===================================================================== *)
(** ** Serialization *)
(* ===================================================================== *)

Section NodeDictInd.
Variable P : node_dict -> Prop.
Hypothesis Hnode : forall n c p kids t,
    match kids with Some l => Forall P l | None => True end ->
    P (NodeDict n c p kids t).

Fixpoint node_dict_nested_ind (d : node_dict) : P d :=
  match d with
  | NodeDict n c p kids t =>
      Hnode n c p kids t
        (match kids
               return match kids with Some l => Forall P l | None => True end
         with
         | Some l =>
             (fix each (l : list node_dict) : Forall P l :=
                match l with
                | [] => Forall_nil _
                | d' :: l' => Forall_cons d' (node_dict_nested_ind d') (each l')
                end) l
         | None => I
         end)
  end.
End NodeDictInd.

Lemma to_dict_directory s c p ch :
  to_dict (DirectoryNode s c p ch)
  = NodeDict (Some s) (Some c) (Some p)
             (Some (map (fun kv => to_dict (snd kv)) ch)) (Some "directory").
Proof.
  simpl. do 2 f_equal. induction ch as [|[k n] ch IH]; simpl; [reflexivity|].
  now rewrite IH.
Qed.

Lemma d_name_to_dict n : d_name (to_dict n) = OK (name n).
Proof. now destruct n. Qed.

Lemma well_keyed_directory s c p ch :
  well_keyed (DirectoryNode s c p ch) <->
  NoDup (keys ch) /\
  Forall (fun kv => fst kv = name (snd kv) /\ well_keyed (snd kv)) ch.
Proof.
  simpl. apply and_iff_compat_l.
  induction ch as [|[k n] ch IH]; simpl.
  - split; [constructor|trivial].
  - rewrite IH. split.
    + intros (H1 & H2 & H3). now constructor.
    + intros H. inversion H as [|? ? [H1 H2] H3]; subst. auto.
Qed.

Lemma TreeNode_from_dict_directory d :
  d_type d = OK "directory" ->
  TreeNode_from_dict d = DirectoryNode_from_dict d.
Proof.
  intros H. destruct d as [n c p kids t].
  unfold DirectoryNode_from_dict. simpl in *. now rewrite H.
Qed.

(** The comprehension over child dicts that all parse: one [dict_set]
    per child, in list order. *)
Lemma children_from_dicts_parsed from_dict l entries :
  Forall2 (fun child kv =>
             d_name child = OK (fst kv) /\ from_dict child = OK (snd kv))
          l entries ->
  forall acc,
    children_from_dicts from_dict l acc
    = OK (fold_left (fun a kv => dict_set a (fst kv) (snd kv)) entries acc).
Proof.
  induction 1 as [|child [k n] l entries [Hk Hn] _ IH]; intros acc; simpl.
  - reflexivity.
  - simpl in Hk, Hn. rewrite Hk, Hn. simpl. apply IH.
Qed.

Section FoldSet.

Context {V : Type}.
Implicit Types (entries before after : list (string * V)) (acc : dict V).

Lemma set_all_cons k (v : V) entries acc :
  set_all ((k, v) :: entries) acc = set_all entries (dict_set acc k v).
Proof. reflexivity. Qed.

Lemma set_all_app before after acc :
  set_all (before ++ after) acc = set_all after (set_all before acc).
Proof. unfold set_all. apply fold_left_app. Qed.

Lemma set_all_nodup entries : forall acc,
    NoDup (keys acc) -> NoDup (keys (set_all entries acc)).
Proof.
  induction entries as [|[k v] entries IH]; intros acc H; [exact H|].
  rewrite set_all_cons. apply IH. now apply dict_set_nodup.
Qed.

Lemma set_all_keys entries : forall acc x,
    In x (keys (set_all entries acc)) <->
    In x (keys acc) \/ In x (keys entries).
Proof.
  induction entries as [|[k v] entries IH]; intros acc x.
  - simpl. tauto.
  - rewrite set_all_cons, IH, dict_set_keys. simpl. intuition.
Qed.

Lemma set_all_other entries k : forall acc,
    ~ In k (keys entries) ->
    dict_get (set_all entries acc) k = dict_get acc k.
Proof.
  induction entries as [|[k' v] entries IH]; intros acc Hnin;
    [reflexivity|].
  simpl in Hnin. rewrite set_all_cons, IH by tauto.
  apply dict_get_set_other. intros ->. tauto.
Qed.

(** The value kept under a key is that of its last entry. *)
Lemma set_all_last before k v after acc :
  ~ In k (keys after) ->
  dict_get (set_all (before ++ (k, v) :: after) acc) k = Some v.
Proof.
  intros Hnin. rewrite set_all_app, set_all_cons.
  rewrite set_all_other by assumption. apply dict_get_set_same.
Qed.

(** With distinct keys, nothing is overwritten. *)
Lemma set_all_new entries : forall acc,
    NoDup (keys acc ++ keys entries) ->
    set_all entries acc = (acc ++ entries)%list.
Proof.
  induction entries as [|[k v] entries IH]; intros acc Hnd.
  - simpl. now rewrite app_nil_r.
  - rewrite set_all_cons.
    simpl in Hnd. pose proof (NoDup_remove_2 _ _ _ Hnd) as Hnin.
    rewrite dict_set_new by (intros Hin; apply Hnin, in_or_app; now left).
    rewrite IH.
    + now rewrite <- app_assoc.
    + unfold keys. rewrite map_app. simpl. rewrite <- app_assoc. exact Hnd.
Qed.

End FoldSet.

(** C3. For every tree node (file, symlink or directory) that meets
    the data-model invariant (children filed under their own, pairwise
    distinct names), [TreeNode.from_dict(n.to_dict())] returns a node
    equal to [n]: the same checksum, the same permissions and the same
    map from child names to children, at every level. *)
Theorem C3_from_dict_to_dict_roundtrip (n : TreeNode)
  (Hkeyed : well_keyed n) :
  exists n',
    TreeNode_from_dict (to_dict n) = OK n'
    /\ checksum n' = checksum n
    /\ permissions n' = permissions n
    /\ children n' = children n
    /\ n' = n.
Proof.
  enough (H : TreeNode_from_dict (to_dict n) = OK n)
    by (exists n; repeat split; auto).
  induction n as [s c p|s c p|s c p ch IH] using TreeNode_nested_ind;
    try reflexivity.
  apply well_keyed_directory in Hkeyed. destruct Hkeyed as [Hnd Hall].
  rewrite TreeNode_from_dict_directory
    by (now rewrite to_dict_directory).
  rewrite to_dict_directory. unfold DirectoryNode_from_dict.
  unfold DirectoryNode_from_dict_with. simpl.
  rewrite (@children_from_dicts_parsed TreeNode_from_dict _ ch).
  - fold (set_all ch []). rewrite set_all_new by exact Hnd. reflexivity.
  - clear Hnd. induction ch as [|[k n] ch IHch]; simpl; constructor.
    + inversion Hall as [|? ? [Hk Hw] _]; subst.
      inversion IH as [|? ? Hn _]; subst. simpl in *.
      rewrite d_name_to_dict. split; [congruence|auto].
    + inversion Hall; subst. inversion IH; subst. auto.
Qed.

(** An unknown discriminator never yields a node: the parse ends in the
    [TypeError] built from [d['name']], or in the [KeyError] of that
    lookup. *)
Lemma TreeNode_from_dict_unknown_type d type :
  d_type d = OK type ->
  type <> "directory" -> type <> "file" -> type <> "symlink" ->
  TreeNode_from_dict d
  = (name <~ d_name d ;;
     Raise (TypeError ("Type " ++ name ++ " does not exist.")))%py
  /\ is_ok (TreeNode_from_dict d) = false.
Proof.
  intros Ht Hd Hf Hs.
  assert (H : TreeNode_from_dict d
              = (name <~ d_name d ;;
                 Raise (TypeError ("Type " ++ name ++ " does not exist.")))%py).
  { destruct d as [n c p kids t]. cbn [TreeNode_from_dict].
    rewrite Ht. cbn [rbind].
    apply String.eqb_neq in Hd, Hf, Hs. now rewrite Hd, Hf, Hs. }
  split; [exact H|]. rewrite H. now destruct (d_name d).
Qed.

(** C7, at a node dict of type ["socket"] named ["x"]: the parse is
    aborted by a [TypeError] whose message carries the name of the
    node, ["x"], and not the discriminator ["socket"]. *)
Theorem C7_unknown_type_error_names_the_node :
  TreeNode_from_dict
    (NodeDict (Some "x") (Some "ef46db3751d8e999") (Some 420) None
              (Some "socket"))
  = Raise (TypeError "Type x does not exist.").
Proof. reflexivity. Qed.

(** C10. Where every child dict of a serialized directory has a name
    and parses, [DirectoryNode.from_dict] raises nothing, the keys of
    the children map are pairwise distinct and are the names that occur
    in the list, and under each name the map holds the node built from
    the last entry of that name in list order. *)
Theorem C10_duplicate_child_names_last_wins
  (name checksum : string) (permissions : Z) (l : list node_dict)
  (type : option string) (entries : list (string * TreeNode))
  (Hparsed : Forall2 (fun child kv =>
                        d_name child = OK (fst kv) /\
                        TreeNode_from_dict child = OK (snd kv)) l entries) :
  exists children,
    DirectoryNode_from_dict
      (NodeDict (Some name) (Some checksum) (Some permissions) (Some l) type)
    = OK (DirectoryNode name checksum permissions children)
    /\ NoDup (keys children)
    /\ (forall k, In k (keys children) <-> In k (keys entries))
    /\ (forall before k n after,
           entries = (before ++ (k, n) :: after)%list ->
           ~ In k (keys after) ->
           dict_get children k = Some n).
Proof.
  exists (set_all entries []). split; [|split; [|split]].
  - unfold DirectoryNode_from_dict, DirectoryNode_from_dict_with. simpl.
    rewrite (@children_from_dicts_parsed TreeNode_from_dict l entries Hparsed).
    reflexivity.
  - apply set_all_nodup. constructor.
  - intros k. rewrite set_all_keys. simpl. tauto.
  - intros before k n after -> Hnin. now apply set_all_last.
Qed.

(** *** Every node the program makes meets the invariant *)

Lemma dict_set_keyed d k n :
  keyed d -> k = name n -> well_keyed n -> keyed (dict_set d k n).
Proof.
  intros Hd Hk Hn. induction Hd as [|[k' n'] d Hkv Ht IH]; simpl.
  - repeat constructor; assumption.
  - destruct (String.eqb_spec k' k) as [->|Hne]; constructor; simpl; auto.
Qed.

Lemma TreeNode_from_dict_well_keyed d :
  forall n, TreeNode_from_dict d = OK n ->
            well_keyed n /\ d_name d = OK (name n).
Proof.
  induction d as [nm c p kids t IH] using node_dict_nested_ind. intros n.
  destruct t as [t|]; [|discriminate].
  cbn [TreeNode_from_dict d_type getitem rbind].
  destruct (String.eqb t "directory").
  - unfold DirectoryNode_from_dict_with.
    destruct nm as [nm|]; [|discriminate].
    destruct c as [c|]; [|discriminate].
    destruct p as [p|]; [|discriminate].
    destruct kids as [l|]; [|discriminate].
    cbn [d_name d_checksum d_permissions getitem rbind].
    destruct (children_from_dicts TreeNode_from_dict l []) as [ch|e] eqn:E;
      [|discriminate].
    cbn [rbind]. intros [= <-]. split; [|reflexivity].
    apply well_keyed_directory.
    assert (Hinv : forall l acc ch,
               Forall (fun d => forall n, TreeNode_from_dict d = OK n ->
                                  well_keyed n /\ d_name d = OK (name n)) l ->
               NoDup (keys acc) /\ keyed acc ->
               children_from_dicts TreeNode_from_dict l acc = OK ch ->
               NoDup (keys ch) /\ keyed ch).
    { clear. induction l as [|d l IHl]; intros acc ch Hl Hacc; simpl.
      - now intros [= <-].
      - inversion Hl as [|? ? Hd Hl']; subst.
        destruct (d_name d) as [k|] eqn:Ek; [|discriminate].
        destruct (TreeNode_from_dict d) as [n|] eqn:En; [|discriminate].
        simpl. apply IHl; [assumption|].
        destruct (Hd n eq_refl) as [Hw Hname].
        destruct Hacc as [Hnd Hkeyed]. split.
        + now apply dict_set_nodup.
        + apply dict_set_keyed; congruence. }
    apply (Hinv l [] ch IH); [|exact E].
    split; constructor.
  - destruct (String.eqb t "file");
      [|destruct (String.eqb t "symlink")];
      unfold FileNode_from_dict, SymlinkNode_from_dict;
      destruct nm as [nm|]; try discriminate;
      destruct c as [c|]; try discriminate;
      destruct p as [p|]; try discriminate;
      cbn [d_name d_checksum d_permissions getitem rbind];
      try discriminate; intros [= <-]; split; [exact I|reflexivity
                                                |exact I|reflexivity].
Qed.

Lemma node_of_well_keyed xxh64 e :
  forall nm n, node_of xxh64 e nm = Some n -> name n = nm /\ well_keyed n.
Proof.
  induction e as [m c|m t r|m l IH|m] using entry_nested_ind; intros nm n;
    try (simpl; intros [= <-]; split; [reflexivity|exact I]);
    try discriminate.
  rewrite node_of_dir. intros [= <-]. split; [reflexivity|].
  apply well_keyed_directory.
  split; [apply kids_of_nodup; constructor|].
  assert (Hinv : forall acc, keyed acc -> keyed (kids_of xxh64 l acc)).
  { induction IH as [|[k c] l Hc _ IHl]; intros acc Hacc; simpl; [assumption|].
    destruct (negb (isfile c) && negb (isdir c)); [auto|].
    destruct (node_of xxh64 c k) as [n|] eqn:En; [|auto].
    destruct (Hc k n En) as [Hname Hw].
    apply IHl, dict_set_keyed; auto. }
  apply Hinv. constructor.
Qed.

Section AccessInvariant.

Variable who : caller.
Variable xxh64 : list byte -> string.

(** Whatever the bits, a node that is returned carries the name asked
    for and meets the data-model invariant; [None] is returned for what
    is neither link, file nor directory only. *)
Lemma build_children_as_keyed build searchable path l :
  Forall (fun kv => forall p n o r o',
              build (snd kv) p n o = (OK r, o') ->
              isfile (snd kv) || isdir (snd kv) = true ->
              exists node, r = Some node /\ name node = n
                           /\ well_keyed node) l ->
  forall acc out ch out',
    NoDup (keys acc) -> keyed acc ->
    build_children_as build searchable path l (some_dict acc) out
    = (OK ch, out') ->
    exists d, ch = some_dict d /\ NoDup (keys d) /\ keyed d.
Proof.
  induction 1 as [|[k c] l Hc _ IH]; intros acc out ch out' Hnd Hk.
  - simpl. unfold ret. intros [= <- _]. eauto.
  - cbn [build_children_as]. unfold stat_isfile, stat_isdir.
    destruct (negb (searchable && isfile c) && negb (searchable && isdir c))
      eqn:G.
    + unfold bind, print. apply IH; assumption.
    + unfold bind.
      destruct (build c (os_path_join path k) k out) as [[r|x] o] eqn:Eb;
        [|discriminate].
      assert (Hkind : isfile c || isdir c = true).
      { destruct searchable; simpl in G.
        - rewrite <- negb_orb in G. now apply negb_false_iff in G.
        - discriminate. }
      destruct (Hc _ _ _ _ _ Eb Hkind) as (node & -> & Hname & Hw).
      rewrite some_dict_set. apply IH.
      * now apply dict_set_nodup.
      * apply dict_set_keyed; auto.
Qed.

Lemma TreeNode_build_node_as_invariant e :
  forall path nm out r out',
    TreeNode_build_node_as who xxh64 e path nm out = (OK r, out') ->
    match r with
    | Some n => name n = nm /\ well_keyed n
                /\ islink e || isfile e || isdir e = true
    | None => islink e || isfile e || isdir e = false
    end.
Proof.
  induction e as [m c|m t r0|m l IH|m] using entry_nested_ind;
    intros path nm out r out'.
  - cbn [TreeNode_build_node_as islink isfile]. unfold bind.
    rewrite FileNode_build_node_as_regular.
    destruct (may_read who m); [|discriminate].
    unfold ret. intros [= <- _]. simpl. auto.
  - cbn [TreeNode_build_node_as islink]. unfold bind.
    rewrite SymlinkNode_build_node_as_link.
    destruct (is_text t); [|discriminate].
    unfold ret. intros [= <- _]. simpl. auto.
  - cbn [TreeNode_build_node_as islink isfile isdir].
    unfold DirectoryNode_build_node_as_with. cbn [lstat_st_mode].
    unfold bind at 1. unfold bind at 1. cbn [isdir assert].
    unfold ret at 1. cbn iota.
    destruct (may_read who m); [|discriminate].
    unfold bind at 1.
    destruct (build_children_as (TreeNode_build_node_as who xxh64)
                (may_search who m) path l [] out) as [[ch|x] o] eqn:Ec;
      [|discriminate].
    assert (Hch : exists d, ch = some_dict d /\ NoDup (keys d) /\ keyed d).
    { apply (@build_children_as_keyed (TreeNode_build_node_as who xxh64)
               (may_search who m) path l) with (acc := []) (out := out)
                                                (out' := o).
      - eapply Forall_impl; [|exact IH].
        intros [k c] Hkc p n o0 r1 o1 Hb Hkind. cbn [snd] in *.
        specialize (Hkc _ _ _ _ _ Hb). destruct r1 as [node|].
        + exists node. intuition.
        + destruct c as [? ?|? ? [ | | ]|? ?|?]; simpl in *; discriminate.
      - constructor.
      - constructor.
      - exact Ec. }
    destruct Hch as (d & -> & Hnd & Hk).
    unfold bind, lift, ret. rewrite built_children_some.
    intros [= <- _]. split; [reflexivity|]. split; [|reflexivity].
    apply well_keyed_directory. split; assumption.
  - simpl. unfold bind, print, ret. intros [= <- _]. reflexivity.
Qed.

End AccessInvariant.

(* ===================================================================== *)
(** ** Traversal *)
(* ===================================================================== *)

Section Traversal.

Import Checkpoint.

Lemma iter_loop_unfold stack :
  iter_loop stack
  = match pop stack with
    | None => []
    | Some ((current_node, current_path), rest) =>
        (current_node, current_path)
        :: iter_loop
             (match current_node with
              | DirectoryNode _ _ _ items =>
                  push_children rest current_path items
              | _ => rest
              end)
    end.
Proof.
  funelim (iter_loop stack).
  - now rewrite e.
  - now rewrite e.
Qed.

Lemma pop_app {A} (rest : list A) x : pop (rest ++ [x]) = Some (x, rest).
Proof.
  induction rest as [|a rest IH]; simpl; [reflexivity|]. now rewrite IH.
Qed.

Lemma push_children_app stack path items :
  push_children stack path items
  = (stack ++ map (fun kc => (snd kc, os_path_join path (fst kc))) items)%list.
Proof.
  unfold push_children. revert stack.
  induction items as [|[k c] items IH]; intros stack; simpl.
  - now rewrite app_nil_r.
  - rewrite IH. now rewrite <- app_assoc.
Qed.

Lemma dfs_reversed_unfold n path :
  dfs_reversed n path
  = (n, path)
    :: flat_map (fun kc => dfs_reversed (snd kc) (os_path_join path (fst kc)))
                (rev (children n)).
Proof.
  destruct n as [| |s c p ch]; try reflexivity.
  simpl. f_equal. induction ch as [|[k n] ch IH]; simpl; [reflexivity|].
  rewrite IH, flat_map_app. cbn [flat_map]. now rewrite app_nil_r.
Qed.

Lemma dfs_listed_unfold n path :
  dfs_listed n path
  = (n, path)
    :: flat_map (fun kc => dfs_listed (snd kc) (os_path_join path (fst kc)))
                (children n).
Proof.
  destruct n as [| |s c p ch]; try reflexivity.
  simpl. f_equal. induction ch as [|[k n] ch IH]; simpl; [reflexivity|].
  now rewrite IH.
Qed.

Lemma node_size_pos n : (1 <= node_size n)%nat.
Proof. destruct n; simpl; lia. Qed.

(** The loop yields, for the stack from its top down, each node
    followed by its subtree, later children first. *)
Lemma iter_loop_spec (fuel : nat) : forall stack,
    (stack_size stack <= fuel)%nat ->
    iter_loop stack
    = flat_map (fun x => dfs_reversed (fst x) (snd x)) (rev stack).
Proof.
  induction fuel as [|fuel IH]; intros stack Hsize;
    rewrite iter_loop_unfold;
    destruct (pop stack) as [[[n path] rest]|] eqn:E.
  - apply pop_spec in E. subst stack. rewrite stack_size_app in Hsize.
    pose proof (node_size_pos n). simpl in Hsize. lia.
  - destruct stack as [|x stack]; [reflexivity|].
    simpl in E. destruct (pop stack) as [[? ?]|]; discriminate.
  - apply pop_spec in E. subst stack. rewrite stack_size_app in Hsize.
    rewrite rev_app_distr. simpl.
    rewrite dfs_reversed_unfold. cbn [app]. f_equal.
    pose proof (node_size_children n) as Hn. simpl in Hsize.
    rewrite IH.
    + destruct n as [| |s c p ch]; simpl; try reflexivity.
      rewrite push_children_app, rev_app_distr, flat_map_app. f_equal.
      rewrite <- map_rev, flat_map_concat_map, map_map.
      now rewrite <- flat_map_concat_map.
    + destruct n as [| |s c p ch]; simpl in *; try lia.
      rewrite push_children_size. lia.
  - destruct stack as [|x stack]; [reflexivity|].
    simpl in E. destruct (pop stack) as [[? ?]|]; discriminate.
Qed.

Lemma iter_reversed self : iter self = dfs_reversed (root self) "".
Proof.
  unfold iter. rewrite (@iter_loop_spec (stack_size [(root self, "")]));
    [|lia].
  simpl. now rewrite app_nil_r.
Qed.

Lemma flat_map_perm_pointwise {A B} (f g : A -> list B) l :
  Forall (fun x => Permutation (f x) (g x)) l ->
  Permutation (flat_map f l) (flat_map g l).
Proof.
  induction 1 as [|x l Hx _ IH]; simpl; [constructor|].
  now apply Permutation_app.
Qed.

(** Both orders visit the same nodes under the same paths, each as
    often as it occurs in the tree. *)
Lemma dfs_reversed_listed n : forall path,
    Permutation (dfs_reversed n path) (dfs_listed n path).
Proof.
  induction n as [s c p|s c p|s c p ch IH] using TreeNode_nested_ind;
    intros path; try reflexivity.
  rewrite dfs_reversed_unfold, dfs_listed_unfold. constructor.
  cbn [children].
  etransitivity;
    [apply Permutation_flat_map, Permutation_sym, Permutation_rev|].
  apply flat_map_perm_pointwise.
  eapply Forall_impl; [|exact IH]. intros kc H. apply H.
Qed.

End Traversal.

(** C5 as amended. For every checkpoint, [iter()] yields depth-first
    and root first, each node of the tree once with its relative path;
    among the children of a directory the yield order is the reverse of
    the insertion order of the children map. *)
Theorem C5_iter_depth_first_reverse_insertion_order (self : Checkpoint.t) :
  Checkpoint.iter self = dfs_reversed (Checkpoint.root self) ""
  /\ hd_error (Checkpoint.iter self) = Some (Checkpoint.root self, "")
  /\ Permutation (Checkpoint.iter self)
                 (dfs_listed (Checkpoint.root self) "").
Proof.
  rewrite iter_reversed. split; [reflexivity|]. split.
  - now rewrite dfs_reversed_unfold.
  - apply dfs_reversed_listed.
Qed.

(* ===================================================================== *)
(** ** Strings, dates and names *)
(* ===================================================================== *)

Section StringFacts.

Lemma append_empty_r s : s ++ "" = s.
Proof. induction s as [|c s IH]; simpl; [reflexivity|]. now rewrite IH. Qed.

Lemma append_assoc s1 s2 s3 : (s1 ++ s2) ++ s3 = s1 ++ (s2 ++ s3).
Proof. induction s1 as [|c s1 IH]; simpl; [reflexivity|]. now rewrite IH. Qed.

Lemma contains_append c s1 s2 :
  Str.contains c (s1 ++ s2) = Str.contains c s1 || Str.contains c s2.
Proof.
  induction s1 as [|a s1 IH]; simpl; [reflexivity|].
  rewrite IH. now rewrite orb_assoc.
Qed.

Lemma cut_absent sep s : Str.contains sep s = false -> Str.cut sep s = None.
Proof.
  induction s as [|c s IH]; simpl; [reflexivity|].
  intros H. apply orb_false_elim in H. destruct H as [Hc Hs].
  rewrite Hc. now rewrite IH.
Qed.

(** The first separator is where the text is cut. *)
Lemma cut_first sep a b :
  Str.contains sep a = false ->
  Str.cut sep (a ++ String sep b) = Some (a, b).
Proof.
  induction a as [|c a IH]; simpl.
  - intros _. now rewrite Ascii.eqb_refl.
  - intros H. apply orb_false_elim in H. destruct H as [Hc Ha].
    rewrite Hc. now rewrite IH.
Qed.

(** [split] with [maxsplit = 2] on [a_b]: two fields. *)
Lemma split_two sep a b :
  Str.contains sep a = false -> Str.contains sep b = false ->
  Str.split sep 2 (a ++ String sep b) = [a; b].
Proof.
  intros Ha Hb. simpl. rewrite cut_first by assumption.
  now rewrite cut_absent.
Qed.

(** [split] with [maxsplit = 2] on [a_b_rest]: the rest is kept whole,
    separators included. *)
Lemma split_three sep a b rest :
  Str.contains sep a = false -> Str.contains sep b = false ->
  Str.split sep 2 (a ++ String sep (b ++ String sep rest)) = [a; b; rest].
Proof.
  intros Ha Hb. simpl. now rewrite !cut_first.
Qed.

End StringFacts.

Section DatetimeFacts.

Lemma digit_cases d :
  d mod 10 = 0 \/ d mod 10 = 1 \/ d mod 10 = 2 \/ d mod 10 = 3 \/
  d mod 10 = 4 \/ d mod 10 = 5 \/ d mod 10 = 6 \/ d mod 10 = 7 \/
  d mod 10 = 8 \/ d mod 10 = 9.
Proof. pose proof (Z.mod_pos_bound d 10). lia. Qed.

Lemma digit_value_digit d : digit_value (digit d) = Some (d mod 10).
Proof.
  unfold digit.
  destruct (digit_cases d) as [H|[H|[H|[H|[H|[H|[H|[H|[H|H]]]]]]]]];
    rewrite H; reflexivity.
Qed.

Lemma digit_not_underscore d : Ascii.eqb (digit d) "_" = false.
Proof.
  unfold digit.
  destruct (digit_cases d) as [H|[H|[H|[H|[H|[H|[H|[H|[H|H]]]]]]]]];
    rewrite H; reflexivity.
Qed.

Lemma number_zfill w : forall z acc tail,
    number acc (zfill w z tail)
    = number (acc * 10 ^ Z.of_nat w + z mod 10 ^ Z.of_nat w) tail.
Proof.
  induction w as [|w IH]; intros z acc tail.
  - simpl. rewrite Z.mod_1_r. f_equal. lia.
  - cbn [zfill]. rewrite IH. cbn [number]. rewrite digit_value_digit.
    f_equal. rewrite Nat2Z.inj_succ, Z.pow_succ_r by lia.
    rewrite (Z.rem_mul_r z 10 (10 ^ Z.of_nat w)) by lia.
    lia.
Qed.

Lemma contains_zfill w : forall z tail,
    Str.contains "_" (zfill w z tail) = Str.contains "_" tail.
Proof.
  induction w as [|w IH]; intros z tail; [reflexivity|].
  cbn [zfill]. rewrite IH. cbn [Str.contains].
  now rewrite digit_not_underscore.
Qed.

(** No time string holds an underscore. *)
Lemma isoformat_micro_no_underscore t :
  Str.contains "_" (isoformat_micro t) = false.
Proof.
  unfold isoformat_micro.
  repeat (rewrite contains_zfill; cbn [append Str.contains Ascii.eqb];
          try reflexivity).
Qed.

(** [to_string] always writes the microsecond form. *)
Lemma timestring_padded t :
  isoformat t ++ (if Nat.eqb (String.length (isoformat t)) 19
                  then ".000000" else "")
  = isoformat_micro t.
Proof.
  unfold isoformat, isoformat_micro.
  destruct (microsecond t =? 0) eqn:E.
  - apply Z.eqb_eq in E. rewrite E. reflexivity.
  - reflexivity.
Qed.

Lemma isoformat_length t :
  String.length (isoformat t)
  = if microsecond t =? 0 then 19%nat else 26%nat.
Proof. unfold isoformat. now destruct (microsecond t =? 0). Qed.

(** The parser modelled from the spec reads the microsecond form
    back. *)
Lemma datetime_from_iso_format_micro t :
  valid t -> datetime_from_iso_format (isoformat_micro t) = OK t.
Proof.
  intros (Hy & Hmo & Hd & Hh & Hmi & Hs & Hus).
  unfold datetime_from_iso_format.
  change (String.length (isoformat_micro t)) with 26%nat.
  change (sep_at (isoformat_micro t) 4 "-") with true.
  change (sep_at (isoformat_micro t) 7 "-") with true.
  change (sep_at (isoformat_micro t) 10 "T") with true.
  change (sep_at (isoformat_micro t) 13 ":") with true.
  change (sep_at (isoformat_micro t) 16 ":") with true.
  change (sep_at (isoformat_micro t) 19 ".") with true.
  cbn [Nat.eqb orb andb negb].
  unfold field.
  change (substring 0 4 (isoformat_micro t)) with (zfill 4 (year t) "").
  change (substring 5 2 (isoformat_micro t)) with (zfill 2 (month t) "").
  change (substring 8 2 (isoformat_micro t)) with (zfill 2 (day t) "").
  change (substring 11 2 (isoformat_micro t)) with (zfill 2 (hour t) "").
  change (substring 14 2 (isoformat_micro t)) with (zfill 2 (minute t) "").
  change (substring 17 2 (isoformat_micro t)) with (zfill 2 (second t) "").
  change (substring 20 6 (isoformat_micro t))
    with (zfill 6 (microsecond t) "").
  rewrite !number_zfill. cbn [number].
  change (10 ^ Z.of_nat 4) with 10000.
  change (10 ^ Z.of_nat 2) with 100.
  change (10 ^ Z.of_nat 6) with 1000000.
  rewrite !Z.mod_small by lia. destruct t; reflexivity.
Qed.

(** It reads the 19-character form as well. *)
Lemma datetime_from_iso_format_seconds t :
  valid t -> microsecond t = 0 ->
  datetime_from_iso_format (isoformat t) = OK t.
Proof.
  intros (Hy & Hmo & Hd & Hh & Hmi & Hs & Hus) H0.
  unfold datetime_from_iso_format, isoformat. rewrite H0.
  cbn [Z.eqb].
  set (s := zfill 4 (year t) _).
  change (String.length s) with 19%nat.
  change (sep_at s 4 "-") with true.
  change (sep_at s 7 "-") with true.
  change (sep_at s 10 "T") with true.
  change (sep_at s 13 ":") with true.
  change (sep_at s 16 ":") with true.
  cbn [Nat.eqb orb andb negb].
  unfold field.
  change (substring 0 4 s) with (zfill 4 (year t) "").
  change (substring 5 2 s) with (zfill 2 (month t) "").
  change (substring 8 2 s) with (zfill 2 (day t) "").
  change (substring 11 2 s) with (zfill 2 (hour t) "").
  change (substring 14 2 s) with (zfill 2 (minute t) "").
  change (substring 17 2 s) with (zfill 2 (second t) "").
  rewrite !number_zfill. cbn [number].
  change (10 ^ Z.of_nat 4) with 10000.
  change (10 ^ Z.of_nat 2) with 100.
  rewrite !Z.mod_small by lia. destruct t; simpl in *. now subst.
Qed.

End DatetimeFacts.

(* ===================================================================== *)
(** ** Identifiers *)
(* ===================================================================== *)

(** [from_string] undoes [to_string] whenever the parser reads the
    time string back, the checksum holds no underscore and the name,
    if any, is not empty; the name may hold underscores. *)
Lemma from_string_to_string
  (parse : string -> result datetime) (self : CheckpointMeta.t) :
  parse (isoformat_micro (CheckpointMeta.time self))
  = OK (CheckpointMeta.time self) ->
  Str.contains "_" (CheckpointMeta.checksum self) = false ->
  CheckpointMeta.name self <> Some "" ->
  CheckpointMeta.to_string self
  = CheckpointMeta.checksum self ++ "_"
    ++ isoformat_micro (CheckpointMeta.time self)
    ++ match CheckpointMeta.name self with
       | Some n => "_" ++ n
       | None => ""
       end
  /\ CheckpointMeta.from_string parse (CheckpointMeta.to_string self)
     = OK self.
Proof.
  destruct self as [cs t nm]. cbn [CheckpointMeta.time CheckpointMeta.checksum
                                    CheckpointMeta.name].
  intros Hparse Hcs Hnm.
  assert (Hstr : CheckpointMeta.to_string (CheckpointMeta.mk cs t nm)
                 = cs ++ "_" ++ isoformat_micro t
                   ++ match nm with Some n => "_" ++ n | None => "" end).
  { unfold CheckpointMeta.to_string.
    cbn [CheckpointMeta.time CheckpointMeta.checksum CheckpointMeta.name].
    rewrite timestring_padded. destruct nm as [n|]; [|reflexivity].
    destruct (String.eqb_spec n "") as [->|_]; [congruence|reflexivity]. }
  split; [exact Hstr|]. rewrite Hstr. unfold CheckpointMeta.from_string.
  pose proof (isoformat_micro_no_underscore t) as Ht.
  destruct nm as [n|].
  - change (cs ++ "_" ++ isoformat_micro t ++ "_" ++ n)
      with (cs ++ String "_" (isoformat_micro t ++ String "_" n)).
    rewrite split_three by assumption. simpl. now rewrite Hparse.
  - rewrite append_empty_r.
    change (cs ++ "_" ++ isoformat_micro t)
      with (cs ++ String "_" (isoformat_micro t)).
    rewrite split_two by assumption. simpl. now rewrite Hparse.
Qed.

(** C4. For every checksum (a hex digest: no underscore), time, and
    optional name matching [^[a-zA-Z0-9_.-]+$], [to_string] emits
    [<checksum>_<time in microsecond form>], followed by [_<name>] when
    there is a name, and [from_string] gives back the checksum, the
    time and the name, whenever the timestamp parser reads the
    microsecond form of the time back. *)
Theorem C4_identifier_roundtrip
  (parse : string -> result datetime) (self : CheckpointMeta.t)
  (Hparse : parse (isoformat_micro (CheckpointMeta.time self))
            = OK (CheckpointMeta.time self))
  (Hchecksum : Str.contains "_" (CheckpointMeta.checksum self) = false)
  (Hname : match CheckpointMeta.name self with
           | None => True
           | Some s => Re.re_match name_pattern s = true
           end) :
  CheckpointMeta.to_string self
  = CheckpointMeta.checksum self ++ "_"
    ++ isoformat_micro (CheckpointMeta.time self)
    ++ match CheckpointMeta.name self with
       | Some n => "_" ++ n
       | None => ""
       end
  /\ CheckpointMeta.from_string parse (CheckpointMeta.to_string self)
     = OK self.
Proof.
  apply from_string_to_string; try assumption.
  intros Heq. rewrite Heq in Hname. discriminate.
Qed.

(* ===================================================================== *)
(** ** Checkpoint names and times *)
(* ===================================================================== *)

Section NamePattern.

Lemma match_plus_spec k s :
  Re.match_plus name_class k s = true <->
  exists body rest,
    s = body ++ rest /\ body <> "" /\ all_in_class body = true /\
    k rest = true.
Proof.
  split.
  - induction s as [|c s IH]; simpl; [discriminate|].
    intros H. apply andb_prop in H. destruct H as [Hc H].
    apply orb_prop in H. destruct H as [H|H].
    + destruct (IH H) as (body & rest & -> & _ & Hall & Hk).
      exists (String c body), rest. simpl. rewrite Hc, Hall.
      repeat split; [discriminate|assumption].
    + exists (String c ""), s. simpl. rewrite Hc.
      repeat split; [discriminate|assumption].
  - intros (body & rest & -> & Hne & Hall & Hk).
    induction body as [|c body IH]; [congruence|].
    simpl in *. apply andb_prop in Hall. destruct Hall as [Hc Hall].
    rewrite Hc. simpl. destruct body as [|c' body].
    + simpl. rewrite Hk. apply orb_true_r.
    + rewrite IH; [reflexivity|discriminate|assumption].
Qed.

Lemma at_dollar_spec s :
  Re.at_dollar s = true <-> s = "" \/ s = newline.
Proof.
  unfold Re.at_dollar. rewrite orb_true_iff, !String.eqb_eq. reflexivity.
Qed.

(** What [re.match('^[a-zA-Z0-9_\-.]+$', s)] accepts: a non-empty run
    of characters of the class, possibly followed by one newline. *)
Lemma name_pattern_spec s :
  Re.re_match name_pattern s = true <->
  exists body,
    body <> "" /\ all_in_class body = true /\
    (s = body \/ s = body ++ newline).
Proof.
  unfold Re.re_match, name_pattern. cbn [Re.match_here andb].
  rewrite match_plus_spec. split.
  - intros (body & rest & -> & Hne & Hall & Hk).
    rewrite andb_true_r in Hk. apply at_dollar_spec in Hk.
    exists body. repeat split; try assumption.
    destruct Hk as [-> | ->]; [left; apply append_empty_r|now right].
  - intros (body & Hne & Hall & [-> | ->]).
    + exists body, "". rewrite append_empty_r. now repeat split.
    + exists body, newline. now repeat split.
Qed.

(** Construction succeeds exactly on no name or a name the pattern
    accepts. *)
Lemma init_ok_iff now root time nm :
  is_ok (Checkpoint.init now root time nm) = true <->
  nm = None \/ exists s, nm = Some s /\ Re.re_match name_pattern s = true.
Proof.
  unfold Checkpoint.init. destruct nm as [s|]; simpl.
  - destruct (Re.re_match name_pattern s) eqn:E; simpl; split.
    + intros _. right. now exists s.
    + reflexivity.
    + discriminate.
    + intros [H|(s' & [= <-] & H)]; congruence.
  - split; [now left|reflexivity].
Qed.

End NamePattern.

(** C8, at the name ["abc\n"]: the newline is outside the class
    [[a-zA-Z0-9_.-]], and construction succeeds all the same, because
    [$] also matches just before a final newline. *)
Theorem C8_name_with_trailing_newline_is_accepted
  (now : datetime) (root : TreeNode) (time : option datetime) :
  name_class "010" = false
  /\ Checkpoint.init now root time (Some ("abc" ++ newline))
     = OK (Checkpoint.mk root (match time with None => now | Some t => t end)
             (Some ("abc" ++ newline))).
Proof. split; reflexivity. Qed.

(** C9 as amended. The time field written by [to_json] is the
    [isoformat()] of the capture time, without timezone: the
    microsecond form when the microseconds are not 0, and the
    19-character form, without fraction, when the time falls on a
    second. *)
Theorem C9_to_json_time_is_isoformat (self : Checkpoint.t) :
  doc_time (Checkpoint.to_json self) = isoformat (Checkpoint.time self)
  /\ if microsecond (Checkpoint.time self) =? 0
     then String.length (doc_time (Checkpoint.to_json self)) = 19%nat
          /\ doc_time (Checkpoint.to_json self) ++ ".000000"
             = isoformat_micro (Checkpoint.time self)
     else doc_time (Checkpoint.to_json self)
          = isoformat_micro (Checkpoint.time self).
Proof.
  split; [reflexivity|]. cbn [Checkpoint.to_json doc_time].
  pose proof (timestring_padded (Checkpoint.time self)) as Hpad.
  rewrite isoformat_length in *.
  destruct (microsecond (Checkpoint.time self) =? 0); cbn [Nat.eqb] in Hpad.
  - split; [reflexivity|exact Hpad].
  - now rewrite append_empty_r in Hpad.
Qed.

(* ===================================================================== *)
(** ** The embedding at concrete inputs *)
(* ===================================================================== *)

(** Published digests of the xxhash library. *)
Example xxh64_empty :
  XXH64.hexdigest (list_byte_of_string "") = "ef46db3751d8e999".
Proof. reflexivity. Qed.

Example xxh64_a :
  XXH64.hexdigest (list_byte_of_string "a") = "d24ec4f1a98c6e5b".
Proof. reflexivity. Qed.

Example xxh64_abc :
  XXH64.hexdigest (list_byte_of_string "abc") = "44bc2cf5ad770999".
Proof. reflexivity. Qed.

Example xxh64_xxhash :
  XXH64.hexdigest (list_byte_of_string "xxhash") = "32dd38952c4bc720".
Proof. reflexivity. Qed.

Example xxh64_spammish :
  XXH64.hexdigest
    (list_byte_of_string "Nobody inspects the spammish repetition")
  = "fbcea83c8a378bf1".
Proof. reflexivity. Qed.

(** A directory with a file, a link to it, a dangling link and a
    socket: the first two are filed, the others are reported. *)
Example build_node_mixed_directory :
  TreeNode_build_node XXH64.hexdigest
    (Dir 16877 [("b", RegFile 33188 [x61; x62; x63]);
                ("dangling", Link 41471 "missing" ToNothing);
                ("a", Link 41471 "abc" ToFile);
                ("sock", Special 49645)])
    "/r" "" []
  = (OK (Some (DirectoryNode ""
                 (XXH64.hexdigest
                    (list_byte_of_string "44bc2cf5ad77099944bc2cf5ad770999"))
                 493
                 [("b", FileNode "b" "44bc2cf5ad770999" 420);
                  ("a", SymlinkNode "a" "44bc2cf5ad770999" 511)])),
     ["Ignored: /r/dangling"; "Ignored: /r/sock"]).
Proof. vm_compute. reflexivity. Qed.

Lemma C1_witness :
  NoDup (map fst Examples.listing)
  /\ Permutation Examples.listing Examples.listing_swapped
  /\ exists children children' names out',
      DirectoryNode_build_node_as Owner XXH64.hexdigest
        (Dir 16877 Examples.listing) Examples.listing "/r" "" []
      = (OK (DirectoryNode "" (XXH64.hexdigest (digests_of children names))
               (S_IMODE 16877) children), [])
      /\ keys children = map fst (kept Examples.listing)
      /\ Forall (fun kv =>
                   fst (TreeNode_build_node_as Owner XXH64.hexdigest (snd kv)
                          (os_path_join "/r" (fst kv)) (fst kv) [])
                   = OK (dict_get children (fst kv)))
                (kept Examples.listing)
      /\ Permutation names (keys children)
      /\ StronglySorted lex_lt names
      /\ DirectoryNode_build_node_as Owner XXH64.hexdigest
           (Dir 16877 Examples.listing_swapped) Examples.listing_swapped
           "/r" "" []
         = (OK (DirectoryNode "" (XXH64.hexdigest (digests_of children names))
                  (S_IMODE 16877) children'), out')
      /\ Permutation children children'.
Proof.
  assert (Hn : NoDup (map fst Examples.listing)).
  { simpl. repeat constructor; simpl; intuition discriminate. }
  assert (Hp : Permutation Examples.listing Examples.listing_swapped)
    by apply perm_swap.
  split; [exact Hn|]. split; [exact Hp|].
  assert (Eb : DirectoryNode_build_node_as Owner XXH64.hexdigest
                 (Dir 16877 Examples.listing) Examples.listing "/r" "" []
               = (OK (DirectoryNode "" "afc094f0d42e2290" 493
                        [("b", FileNode "b" "ea8842e9ea2638fa" 420);
                         ("a", SymlinkNode "a" "78452aa11af39f9b" 511)]),
                  []))
    by (vm_compute; reflexivity).
  pose proof (@C1_directory_checksum_sorted_children Owner XXH64.hexdigest
                16877 Examples.listing Examples.listing_swapped "/r" "" []
                Hn Hp) as H.
  rewrite Eb in H. cbn [fst] in H.
  change (may_search Owner 16877) with true in H. cbv zeta in H.
  destruct H as (children & children' & names & out' & Hnode & H).
  exists children, children', names, out'.
  split; [|exact H].
  rewrite Eb. now rewrite <- Hnode.
Defined.

Lemma C2_witness :
  same_content (Dir 16877 Examples.listing)
               (Dir 16832 Examples.listing_owner_only)
  /\ buildable Owner (Dir 16877 Examples.listing) = true
  /\ buildable Owner (Dir 16832 Examples.listing_owner_only) = true
  /\ exists r1 r2 o1 o2,
      TreeNode_build_node_as Owner XXH64.hexdigest
        (Dir 16877 Examples.listing) "/r" "" [] = (OK r1, o1) /\
      TreeNode_build_node_as Owner XXH64.hexdigest
        (Dir 16832 Examples.listing_owner_only) "/r" "" [] = (OK r2, o2) /\
      option_map checksum r1 = option_map checksum r2.
Proof.
  assert (Hs : same_content (Dir 16877 Examples.listing)
                            (Dir 16832 Examples.listing_owner_only))
    by reflexivity.
  assert (Ha1 : buildable Owner (Dir 16877 Examples.listing) = true)
    by reflexivity.
  assert (Ha2 : buildable Owner (Dir 16832 Examples.listing_owner_only)
                = true)
    by reflexivity.
  split; [exact Hs|]. split; [exact Ha1|]. split; [exact Ha2|].
  destruct (proj1 (@C2_checksum_independent_of_permissions Owner
                     XXH64.hexdigest
                     (Dir 16877 Examples.listing)
                     (Dir 16832 Examples.listing_owner_only)
                     "/r" "/r" "" "" [] [] Hs Ha1 Ha2))
    as (r1 & r2 & o1 & o2 & H1 & H2 & H3 & _).
  exists r1, r2, o1, o2. auto.
Defined.

Lemma C3_witness :
  well_keyed Examples.root
  /\ exists n',
      TreeNode_from_dict (to_dict Examples.root) = OK n'
      /\ checksum n' = checksum Examples.root
      /\ permissions n' = permissions Examples.root
      /\ children n' = children Examples.root
      /\ n' = Examples.root.
Proof.
  assert (Hk : well_keyed Examples.root).
  { simpl. split; [|tauto].
    repeat constructor; simpl; intuition discriminate. }
  split; [exact Hk|].
  exact (@C3_from_dict_to_dict_roundtrip Examples.root Hk).
Defined.

Lemma C4_witness :
  CheckpointMeta.to_string Examples.meta
  = "ef46db3751d8e999_2024-01-01T00:00:00.000000_my_backup.1"
  /\ CheckpointMeta.from_string datetime_from_iso_format
       (CheckpointMeta.to_string Examples.meta)
     = OK Examples.meta.
Proof.
  exact (@C4_identifier_roundtrip datetime_from_iso_format Examples.meta
           eq_refl eq_refl eq_refl).
Defined.

Lemma C10_witness :
  exists children,
    DirectoryNode_from_dict
      (NodeDict (Some "d") (Some "ef46db3751d8e999") (Some 493)
                (Some [Examples.child_first; Examples.child_last])
                (Some "directory"))
    = OK (DirectoryNode "d" "ef46db3751d8e999" 493 children)
    /\ NoDup (keys children)
    /\ (forall k, In k (keys children) <->
                  In k (keys [("a", Examples.file_a);
                              ("a", SymlinkNode "a" "44bc2cf5ad770999" 384)]))
    /\ (forall before k n after,
           [("a", Examples.file_a);
            ("a", SymlinkNode "a" "44bc2cf5ad770999" 384)]
           = (before ++ (k, n) :: after)%list ->
           ~ In k (keys after) ->
           dict_get children k = Some n).
Proof.
  apply C10_duplicate_child_names_last_wins.
  repeat constructor.
Defined.

(** C5 fails as stated: the root of [Examples.checkpoint] lists ["a"]
    before ["b"], and [iter()] yields ["b"] before ["a"]. *)
Lemma C5_counterexample :
  ~ (forall self : Checkpoint.t,
        Checkpoint.iter self = dfs_listed (Checkpoint.root self) "").
Proof.
  intros H. specialize (H Examples.checkpoint).
  rewrite iter_reversed in H. discriminate H.
Qed.

(** C9 fails as stated: a capture time on the second is written in
    the 19-character form, not in the microsecond form. *)
Lemma C9_counterexample :
  ~ (forall self : Checkpoint.t,
        valid (Checkpoint.time self) ->
        doc_time (Checkpoint.to_json self)
        = isoformat_micro (Checkpoint.time self)).
Proof.
  intros H. specialize (H Examples.checkpoint).
  assert (Hv : valid (Checkpoint.time Examples.checkpoint))
    by (unfold valid; simpl; lia).
  specialize (H Hv). discriminate H.
Qed.

(** C2 fails as stated: the owner of a directory [rw-------] may list
    it but may not look at what it holds, every entry is skipped, and
    the directory gets the digest of no input, unlike the same
    directory [rwxr-xr-x]; both builds return. *)
Lemma C2_counterexample :
  ~ (forall (who : caller) (xxh64 : list byte -> string) (e1 e2 : entry)
            (path name : string) (r1 r2 : option TreeNode) (o1 o2 : log),
        same_content e1 e2 ->
        TreeNode_build_node_as who xxh64 e1 path name [] = (OK r1, o1) ->
        TreeNode_build_node_as who xxh64 e2 path name [] = (OK r2, o2) ->
        option_map checksum r1 = option_map checksum r2).
Proof.
  intros H.
  specialize (H Owner XXH64.hexdigest
                (Dir 16877 Examples.listing) (Dir 16768 Examples.listing)
                "/r" "" _ _ _ _ eq_refl eq_refl eq_refl).
  vm_compute in H. discriminate H.
Qed.

(** The two builds side by side. *)
Example build_node_unsearchable_directory :
  TreeNode_build_node_as Owner XXH64.hexdigest
    (Dir 16877 Examples.listing) "/r" "" []
  = (OK (Some (DirectoryNode "" "afc094f0d42e2290" 493
                 [("b", FileNode "b" "ea8842e9ea2638fa" 420);
                  ("a", SymlinkNode "a" "78452aa11af39f9b" 511)])),
     [])
  /\ TreeNode_build_node_as Owner XXH64.hexdigest
       (Dir 16768 Examples.listing) "/r" "" []
     = (OK (Some (DirectoryNode "" "ef46db3751d8e999" 384 [])),
        ["Ignored: /r/b"; "Ignored: /r/a"]).
Proof. split; vm_compute; reflexivity. Qed.

(** After [chmod 000 b] the owner cannot build the directory at all,
    while a privileged process builds it with the checksum it had. *)
Example build_node_unreadable_file :
  TreeNode_build_node_as Owner XXH64.hexdigest
    (Dir 16877 Examples.listing_chmod) "/r" "" []
  = (Raise PermissionError, [])
  /\ TreeNode_build_node_as Privileged XXH64.hexdigest
       (Dir 16877 Examples.listing_chmod) "/r" "" []
     = (OK (Some (DirectoryNode "" "afc094f0d42e2290" 493
                    [("b", FileNode "b" "ea8842e9ea2638fa" 0);
                     ("a", SymlinkNode "a" "78452aa11af39f9b" 511)])),
        []).
Proof. split; vm_compute; reflexivity. Qed.

(** A link whose target is the single octet [0xff] cannot be hashed. *)
Example build_node_link_not_text :
  is_text (String (ascii_of_byte xff) EmptyString) = false
  /\ TreeNode_build_node_as Privileged XXH64.hexdigest
       (Link 41471 (String (ascii_of_byte xff) EmptyString) ToNothing)
       "/r/l" "l" []
     = (Raise UnicodeEncodeError, []).
Proof. split; vm_compute; reflexivity. Qed.

(** Well-formed and ill-formed UTF-8. *)
Example utf8_examples :
  utf8 [x68; xc3; xa9; xe2; x82; xac; xf0; x9f; x98; x80] = true
  /\ utf8 [xc0; x80] = false        (* overlong *)
  /\ utf8 [xed; xa0; x80] = false   (* a surrogate *)
  /\ utf8 [xf4; x90; x80; x80] = false  (* beyond U+10FFFF *)
  /\ utf8 [xe2; x82] = false.       (* cut short *)
Proof. repeat split; reflexivity. Qed.

(* ===================================================================== *)
(** ** Further properties: building *)
(* ===================================================================== *)

(** X1. Where nothing it asks for is refused (the permission bits let
    the calling process read each file and read and search each
    directory, and each link target is text), [TreeNode.build_node]
    returns: the node of the entry, or [None] for what is neither link,
    file nor directory; and it appends to the output exactly the lines
    of [warnings_of], one ["Ignored: <path>"] per skipped directory
    entry in listing order, or ["Could not backup: <path>"] for an
    entry it cannot classify; links and files print nothing. *)
Theorem X1_build_node_value_and_output
  (who : caller) (xxh64 : list byte -> string) (e : entry)
  (path name : string) (out : log)
  (Hgranted : buildable who e = true) :
  TreeNode_build_node_as who xxh64 e path name out
  = (OK (node_of xxh64 e name), (out ++ warnings_of e path)%list)
  /\ match node_of xxh64 e name with
     | Some _ => islink e || isfile e || isdir e = true
     | None => islink e || isfile e || isdir e = false
     end
  /\ (if islink e || isfile e then warnings_of e path = [] else True).
Proof.
  split; [|split].
  - rewrite (TreeNode_build_node_as_granted who xxh64 e Hgranted).
    apply TreeNode_build_node_log.
  - destruct e as [m c|m t r|m l|m]; reflexivity.
  - destruct e as [m c|m t r|m l|m]; simpl; try reflexivity; exact I.
Qed.

(** X22. What a refusal does. A file the process may not read makes
    [build_node] raise [PermissionError], and so does a directory it
    may not list, before anything is printed; a link whose target is
    not text raises [UnicodeEncodeError]; a directory the process may
    list but not search is built as an empty directory is, with no
    children and the digest of no input, each of its entries being
    reported as ignored. *)
Theorem X22_refused_access
  (who : caller) (xxh64 : list byte -> string) (st_mode : Z)
  (content : list byte) (target : string) (resolves : resolution)
  (listing : list (string * entry)) (path name : string) (out : log) :
  TreeNode_build_node_as who xxh64 (RegFile st_mode content) path name out
  = (if may_read who st_mode
     then (OK (Some (FileNode name (xxh64 content) (S_IMODE st_mode))), out)
     else (Raise PermissionError, out))
  /\ TreeNode_build_node_as who xxh64 (Link st_mode target resolves)
       path name out
     = (if is_text target
        then (OK (Some (SymlinkNode name
                          (xxh64 (list_byte_of_string target))
                          (S_IMODE st_mode))), out)
        else (Raise UnicodeEncodeError, out))
  /\ (if may_read who st_mode
      then
        if may_search who st_mode
        then
          TreeNode_build_node_as who xxh64 (Dir st_mode []) path name out
          = (OK (Some (DirectoryNode name (xxh64 []) (S_IMODE st_mode) [])),
             out)
        else
          TreeNode_build_node_as who xxh64 (Dir st_mode listing)
            path name out
          = (OK (Some (DirectoryNode name (xxh64 []) (S_IMODE st_mode) [])),
             (out ++ map (fun kv => ("Ignored: "
                                     ++ os_path_join path (fst kv))%string)
                       listing)%list)
      else
        TreeNode_build_node_as who xxh64 (Dir st_mode listing) path name out
        = (Raise PermissionError, out)).
Proof.
  split; [|split].
  - cbn [TreeNode_build_node_as islink isfile]. unfold bind.
    rewrite FileNode_build_node_as_regular.
    now destruct (may_read who st_mode).
  - cbn [TreeNode_build_node_as islink]. unfold bind.
    rewrite SymlinkNode_build_node_as_link.
    now destruct (is_text target).
  - cbn [TreeNode_build_node_as islink isfile isdir].
    unfold DirectoryNode_build_node_as_with. cbn [lstat_st_mode].
    unfold bind at 1. unfold bind at 1. unfold bind at 2. unfold bind at 2.
    unfold bind at 3. unfold bind at 3.
    cbn [isdir assert]. unfold ret at 1. cbn iota.
    destruct (may_read who st_mode); [|reflexivity].
    destruct (may_search who st_mode).
    + reflexivity.
    + cbv beta iota delta [bind ret].
      rewrite build_children_as_unsearchable. reflexivity.
Qed.




(* ===================================================================== *)
(** ** Further properties: serialization *)
(* ===================================================================== *)

Lemma d_checksum_to_dict n : d_checksum (to_dict n) = OK (checksum n).
Proof. now destruct n. Qed.

Lemma d_permissions_to_dict n : d_permissions (to_dict n) = OK (permissions n).
Proof. now destruct n. Qed.

(** What a parsed node takes from its dict. *)
Lemma TreeNode_from_dict_fields d n :
  TreeNode_from_dict d = OK n ->
  d_checksum d = OK (checksum n) /\ d_permissions d = OK (permissions n)
  /\ d_type d = OK (match n with
                    | FileNode _ _ _ => "file"
                    | SymlinkNode _ _ _ => "symlink"
                    | DirectoryNode _ _ _ _ => "directory"
                    end).
Proof.
  destruct d as [nm c p kids t].
  destruct t as [t|]; [|discriminate].
  cbn [TreeNode_from_dict d_type getitem rbind].
  destruct (String.eqb_spec t "directory") as [->|Hd];
    [|destruct (String.eqb_spec t "file") as [->|Hf];
      [|destruct (String.eqb_spec t "symlink") as [->|Hs]]];
    unfold DirectoryNode_from_dict_with, FileNode_from_dict,
      SymlinkNode_from_dict;
    destruct nm as [nm|]; try discriminate;
    destruct c as [c|]; try discriminate;
    destruct p as [p|]; try discriminate;
    cbn [d_name d_checksum d_permissions getitem rbind]; try discriminate.
  - destruct kids as [l|]; [|discriminate].
    destruct (children_from_dicts TreeNode_from_dict l []); [|discriminate].
    cbn [rbind]. intros [= <-]. auto.
  - intros [= <-]. auto.
  - intros [= <-]. auto.
Qed.

Lemma from_dict_to_dict_id n :
  well_keyed n -> TreeNode_from_dict (to_dict n) = OK n.
Proof.
  induction n as [s c p|s c p|s c p ch IH] using TreeNode_nested_ind;
    intros Hkeyed; try reflexivity.
  apply well_keyed_directory in Hkeyed. destruct Hkeyed as [Hnd Hall].
  rewrite TreeNode_from_dict_directory by (now rewrite to_dict_directory).
  rewrite to_dict_directory.
  unfold DirectoryNode_from_dict, DirectoryNode_from_dict_with. simpl.
  rewrite (@children_from_dicts_parsed TreeNode_from_dict _ ch).
  - fold (set_all ch []). rewrite set_all_new by exact Hnd. reflexivity.
  - clear Hnd. induction ch as [|[k n] ch IHch]; simpl; constructor.
    + inversion Hall as [|? ? [Hk Hw] _]; subst.
      inversion IH as [|? ? Hn _]; subst. simpl in *.
      rewrite d_name_to_dict. split; [congruence|auto].
    + inversion Hall; subst. inversion IH; subst. auto.
Qed.

Lemma Forall_exists_Forall2 {A B} (R : A -> B -> Prop) l :
  Forall (fun x => exists y, R x y) l -> exists l', Forall2 R l l'.
Proof.
  induction 1 as [|x l [y Hy] _ [l' IH]].
  - exists []. constructor.
  - exists (y :: l'). now constructor.
Qed.

(** Whatever the node, its dict parses; the children come back under
    their own names. *)
Lemma to_dict_parses n :
  exists n',
    TreeNode_from_dict (to_dict n) = OK n'
    /\ forall k, In k (keys (children n')) <->
                 In k (map (fun kv => name (snd kv)) (children n)).
Proof.
  induction n as [s c p|s c p|s c p ch IH] using TreeNode_nested_ind.
  - eexists. split; [reflexivity|]. simpl. tauto.
  - eexists. split; [reflexivity|]. simpl. tauto.
  - assert (Hall : Forall (fun d => exists kv : string * TreeNode,
                               d_name d = OK (fst kv) /\
                               TreeNode_from_dict d = OK (snd kv))
                          (map (fun kv => to_dict (snd kv)) ch)).
    { apply Forall_map. eapply Forall_impl; [|exact IH].
      intros [k n] (n' & Hn' & _). exists (name n, n'). simpl.
      now rewrite d_name_to_dict. }
    destruct (Forall_exists_Forall2 _ Hall) as [entries Hentries].
    exists (DirectoryNode s c p (set_all entries [])). split.
    + rewrite TreeNode_from_dict_directory
        by (now rewrite to_dict_directory).
      rewrite to_dict_directory.
      unfold DirectoryNode_from_dict, DirectoryNode_from_dict_with. simpl.
      now rewrite (@children_from_dicts_parsed TreeNode_from_dict _ _ Hentries).
    + intros k. cbn [children]. rewrite set_all_keys. simpl.
      assert (Hkeys : keys entries = map (fun kv => name (snd kv)) ch).
      { clear -Hentries. revert entries Hentries.
        induction ch as [|[k' n] ch IHch]; intros entries H;
          inversion H as [|? [k'' n''] ? ? [Hk _] Ht]; subst;
          [reflexivity|].
        simpl in *. rewrite d_name_to_dict in Hk. injection Hk as <-.
        f_equal. now apply IHch. }
      rewrite Hkeys. tauto.
Qed.

Lemma children_from_dicts_app from_dict before after entries acc :
  Forall2 (fun child kv =>
             d_name child = OK (fst kv) /\ from_dict child = OK (snd kv))
          before entries ->
  children_from_dicts from_dict (before ++ after) acc
  = children_from_dicts from_dict after (set_all entries acc).
Proof.
  intros H. revert acc.
  induction H as [|child [k n] l entries [Hk Hn] _ IH]; intros acc;
    [reflexivity|].
  simpl in Hk, Hn. cbn [app children_from_dicts]. rewrite Hk, Hn.
  cbn [rbind]. rewrite IH. reflexivity.
Qed.

(** X5. A node returned by [TreeNode.from_dict] has the name, checksum
    and permissions of its dict and the variant its type names, and it
    meets the data-model invariant: the keys of every directory below
    it are pairwise distinct and each child is filed under its own
    name. *)
Theorem X5_parsed_nodes_are_well_keyed (d : node_dict) (n : TreeNode)
  (Hparsed : TreeNode_from_dict d = OK n) :
  well_keyed n
  /\ d_name d = OK (name n)
  /\ d_checksum d = OK (checksum n)
  /\ d_permissions d = OK (permissions n)
  /\ d_type d = OK (match n with
                    | FileNode _ _ _ => "file"
                    | SymlinkNode _ _ _ => "symlink"
                    | DirectoryNode _ _ _ _ => "directory"
                    end).
Proof.
  destruct (TreeNode_from_dict_well_keyed d Hparsed) as [Hw Hn].
  destruct (TreeNode_from_dict_fields d Hparsed) as (Hc & Hp & Ht).
  auto.
Qed.

(** X6. The dict of any node parses, whether or not the node meets the
    invariant: [from_dict(n.to_dict())] raises nothing and returns a
    node with the name, checksum and permissions of [n] that meets the
    invariant, its children filed under the names of [n]'s children. *)
Theorem X6_to_dict_always_parses (n : TreeNode) :
  exists n',
    TreeNode_from_dict (to_dict n) = OK n'
    /\ name n' = name n
    /\ checksum n' = checksum n
    /\ permissions n' = permissions n
    /\ well_keyed n'
    /\ forall k, In k (keys (children n')) <->
                 In k (map (fun kv => name (snd kv)) (children n)).
Proof.
  destruct (to_dict_parses n) as (n' & Hn' & Hkeys). exists n'.
  destruct (TreeNode_from_dict_well_keyed _ Hn') as [Hw Hname].
  destruct (TreeNode_from_dict_fields _ Hn') as (Hc & Hp & _).
  rewrite d_name_to_dict in Hname. rewrite d_checksum_to_dict in Hc.
  rewrite d_permissions_to_dict in Hp.
  repeat split; try congruence; try assumption; apply Hkeys.
Qed.

(** X7. Parsing reaches a fixed point in one step: a node returned by
    [from_dict] serializes to a dict that parses back to the same
    node. *)
Theorem X7_parsed_nodes_round_trip (d : node_dict) (n : TreeNode)
  (Hparsed : TreeNode_from_dict d = OK n) :
  TreeNode_from_dict (to_dict n) = OK n.
Proof.
  apply from_dict_to_dict_id.
  now destruct (TreeNode_from_dict_well_keyed d Hparsed).
Qed.

(** X8. Missing keys: a dict without ['type'] raises [KeyError('type')]
    whatever else it holds; a file or symlink dict raises the
    [KeyError] of the first key missing among name, checksum and
    permissions, and parses otherwise, a ['children'] entry being
    ignored; a directory dict with these three keys and no ['children']
    raises [KeyError('children')]. *)
Theorem X8_missing_keys_raise_key_error
  (nm c : option string) (p : option Z) (kids : option (list node_dict)) :
  TreeNode_from_dict (NodeDict nm c p kids None) = Raise (KeyError "type")
  /\ TreeNode_from_dict (NodeDict nm c p kids (Some "file"))
     = match nm, c, p with
       | None, _, _ => Raise (KeyError "name")
       | Some _, None, _ => Raise (KeyError "checksum")
       | Some _, Some _, None => Raise (KeyError "permissions")
       | Some n, Some cs, Some pm => OK (FileNode n cs pm)
       end
  /\ TreeNode_from_dict (NodeDict nm c p kids (Some "symlink"))
     = match nm, c, p with
       | None, _, _ => Raise (KeyError "name")
       | Some _, None, _ => Raise (KeyError "checksum")
       | Some _, Some _, None => Raise (KeyError "permissions")
       | Some n, Some cs, Some pm => OK (SymlinkNode n cs pm)
       end
  /\ TreeNode_from_dict (NodeDict nm c p None (Some "directory"))
     = match nm, c, p with
       | None, _, _ => Raise (KeyError "name")
       | Some _, None, _ => Raise (KeyError "checksum")
       | Some _, Some _, None => Raise (KeyError "permissions")
       | Some _, Some _, Some _ => Raise (KeyError "children")
       end.
Proof.
  repeat split; destruct nm, c, p; reflexivity.
Qed.

(** X9. The first child dict that fails to parse aborts the parse of
    the directory with its own error, at any depth: the children
    before it are parsed and dropped, those after it are not looked
    at. *)
Theorem X9_child_error_aborts_directory
  (nm c : string) (p : Z) (before after : list node_dict)
  (child : node_dict) (entries : list (string * TreeNode))
  (k : string) (e : exn)
  (Hbefore : Forall2 (fun d kv =>
                        d_name d = OK (fst kv) /\
                        TreeNode_from_dict d = OK (snd kv)) before entries)
  (Hkey : d_name child = OK k)
  (Hchild : TreeNode_from_dict child = Raise e) :
  TreeNode_from_dict
    (NodeDict (Some nm) (Some c) (Some p)
              (Some (before ++ child :: after)%list) (Some "directory"))
  = Raise e.
Proof.
  cbn [TreeNode_from_dict d_type getitem rbind String.eqb Ascii.eqb
         Bool.eqb].
  unfold DirectoryNode_from_dict_with.
  cbn [d_name d_checksum d_permissions getitem rbind].
  rewrite (@children_from_dicts_app TreeNode_from_dict before
             (child :: after) entries [] Hbefore).
  cbn [children_from_dicts]. rewrite Hkey, Hchild. reflexivity.
Qed.

(* ===================================================================== *)
(** ** Further properties: identifiers and checkpoints *)
(* ===================================================================== *)

Lemma to_string_empty_name cs t :
  CheckpointMeta.to_string (CheckpointMeta.mk cs t (Some ""))
  = CheckpointMeta.to_string (CheckpointMeta.mk cs t None).
Proof. reflexivity. Qed.

Lemma from_string_one_field parse a :
  Str.contains "_" a = false ->
  CheckpointMeta.from_string parse a = Raise IndexError.
Proof.
  intros Ha. unfold CheckpointMeta.from_string. simpl.
  now rewrite cut_absent.
Qed.

Lemma from_string_two_fields parse a b :
  Str.contains "_" a = false -> Str.contains "_" b = false ->
  CheckpointMeta.from_string parse (a ++ "_" ++ b)
  = (t <~ parse b ;; OK (CheckpointMeta.mk a t None))%py.
Proof.
  intros Ha Hb. unfold CheckpointMeta.from_string.
  change (a ++ "_" ++ b) with (a ++ String "_" b).
  rewrite split_two by assumption. simpl. now destruct (parse b).
Qed.

Lemma from_string_three_fields parse a b rest :
  Str.contains "_" a = false -> Str.contains "_" b = false ->
  CheckpointMeta.from_string parse (a ++ "_" ++ b ++ "_" ++ rest)
  = (t <~ parse b ;; OK (CheckpointMeta.mk a t (Some rest)))%py.
Proof.
  intros Ha Hb. unfold CheckpointMeta.from_string.
  change (a ++ "_" ++ b ++ "_" ++ rest)
    with (a ++ String "_" (b ++ String "_" rest)).
  rewrite split_three by assumption. simpl. now destruct (parse b).
Qed.

(** X10. What [from_string] makes of any string, by its first two
    underscores: none, [IndexError]; one, the checksum before it, the
    time parsed from what follows, and no name; two, the name is
    everything after the second, further underscores included and
    possibly empty. An error of the time parser is passed on. *)
Theorem X10_from_string_by_underscores
  (parse : string -> result datetime) (a b rest : string)
  (Ha : Str.contains "_" a = false) (Hb : Str.contains "_" b = false) :
  CheckpointMeta.from_string parse a = Raise IndexError
  /\ CheckpointMeta.from_string parse (a ++ "_" ++ b)
     = (t <~ parse b ;; OK (CheckpointMeta.mk a t None))%py
  /\ CheckpointMeta.from_string parse (a ++ "_" ++ b ++ "_" ++ rest)
     = (t <~ parse b ;; OK (CheckpointMeta.mk a t (Some rest)))%py.
Proof.
  split; [now apply from_string_one_field|].
  split; [now apply from_string_two_fields|].
  now apply from_string_three_fields.
Qed.

(** X11. An empty name does not survive the identifier: [to_string]
    writes a meta named [''] as it writes one without a name, so
    [from_string] returns it with name [None]; and the identifier of a
    nameless meta followed by one underscore parses to the name ['']. *)
Theorem X11_empty_name_is_not_round_tripped
  (parse : string -> result datetime) (cs : string) (t : datetime)
  (Hparse : parse (isoformat_micro t) = OK t)
  (Hchecksum : Str.contains "_" cs = false) :
  CheckpointMeta.to_string (CheckpointMeta.mk cs t (Some ""))
  = CheckpointMeta.to_string (CheckpointMeta.mk cs t None)
  /\ CheckpointMeta.from_string parse
       (CheckpointMeta.to_string (CheckpointMeta.mk cs t (Some "")))
     = OK (CheckpointMeta.mk cs t None)
  /\ CheckpointMeta.from_string parse
       (CheckpointMeta.to_string (CheckpointMeta.mk cs t None) ++ "_")
     = OK (CheckpointMeta.mk cs t (Some "")).
Proof.
  split; [reflexivity|].
  assert (Hs : CheckpointMeta.to_string (CheckpointMeta.mk cs t None)
               = cs ++ "_" ++ isoformat_micro t).
  { destruct (@from_string_to_string parse (CheckpointMeta.mk cs t None)
                Hparse Hchecksum) as [H _]; [discriminate|].
    cbn [CheckpointMeta.checksum CheckpointMeta.time CheckpointMeta.name] in H.
    now rewrite append_empty_r in H. }
  pose proof (isoformat_micro_no_underscore t) as Ht.
  split.
  - rewrite to_string_empty_name, Hs.
    rewrite from_string_two_fields by assumption. now rewrite Hparse.
  - rewrite Hs.
    replace ((cs ++ "_" ++ isoformat_micro t) ++ "_")
      with (cs ++ "_" ++ isoformat_micro t ++ "_" ++ "")
      by (now rewrite !append_assoc).
    rewrite from_string_three_fields by assumption. now rewrite Hparse.
Qed.

(** X12. Identifiers do not collide: two metas with valid times,
    checksums without underscore and names that are absent or not
    empty have the same [to_string] only if they are equal. *)
Theorem X12_to_string_is_injective (m1 m2 : CheckpointMeta.t)
  (Htime1 : valid (CheckpointMeta.time m1))
  (Htime2 : valid (CheckpointMeta.time m2))
  (Hsum1 : Str.contains "_" (CheckpointMeta.checksum m1) = false)
  (Hsum2 : Str.contains "_" (CheckpointMeta.checksum m2) = false)
  (Hname1 : CheckpointMeta.name m1 <> Some "")
  (Hname2 : CheckpointMeta.name m2 <> Some "")
  (Hsame : CheckpointMeta.to_string m1 = CheckpointMeta.to_string m2) :
  m1 = m2.
Proof.
  destruct (@from_string_to_string datetime_from_iso_format m1) as [_ H1];
    try assumption; [now apply datetime_from_iso_format_micro|].
  destruct (@from_string_to_string datetime_from_iso_format m2) as [_ H2];
    try assumption; [now apply datetime_from_iso_format_micro|].
  rewrite Hsame in H1. congruence.
Qed.

(** X13. The identifier of a constructed checkpoint leads back to it:
    for a checkpoint that [Checkpoint(...)] accepted, whose root
    checksum holds no underscore, [from_string] of
    [meta.to_string()] is [meta], and [meta] carries the checksum of
    the root, the time and the name of the checkpoint. *)
Theorem X13_checkpoint_identifier_round_trip
  (parse : string -> result datetime) (now : datetime) (root : TreeNode)
  (time : option datetime) (nm : option string) (self : Checkpoint.t)
  (Hinit : Checkpoint.init now root time nm = OK self)
  (Hparse : parse (isoformat_micro (Checkpoint.time self))
            = OK (Checkpoint.time self))
  (Hchecksum : Str.contains "_" (checksum root) = false) :
  Checkpoint.meta self
  = CheckpointMeta.mk (checksum root)
      (match time with None => now | Some t => t end) nm
  /\ CheckpointMeta.from_string parse
       (CheckpointMeta.to_string (Checkpoint.meta self))
     = OK (Checkpoint.meta self).
Proof.
  unfold Checkpoint.init in Hinit.
  destruct (match nm with None => true | Some s => _ end) eqn:Hname;
    [|discriminate].
  injection Hinit as <-. split; [reflexivity|].
  apply from_string_to_string; try assumption.
  cbn [Checkpoint.meta Checkpoint.name CheckpointMeta.name].
  intros ->. discriminate.
Qed.

(** X14. [Checkpoint(root, time, name)] keeps the root and the name,
    takes the time given or else the current time, and accepts exactly
    no name or a name made of a non-empty run of characters of
    [[a-zA-Z0-9_.-]], possibly followed by one newline; every other
    name raises [AssertionError]. *)
Theorem X14_checkpoint_construction
  (now : datetime) (root : TreeNode) (time : option datetime)
  (nm : option string) :
  (Checkpoint.init now root time nm
   = OK (Checkpoint.mk root (match time with None => now | Some t => t end)
           nm)
   \/ Checkpoint.init now root time nm = Raise AssertionError)
  /\ (is_ok (Checkpoint.init now root time nm) = true <->
      nm = None \/
      exists body, body <> "" /\ all_in_class body = true /\
                   (nm = Some body \/ nm = Some (body ++ newline))).
Proof.
  split.
  - unfold Checkpoint.init.
    destruct (match nm with None => true | Some s => _ end); auto.
  - rewrite init_ok_iff. split.
    + intros [H|(s & -> & H)]; [now left|right].
      apply name_pattern_spec in H.
      destruct H as (body & Hne & Hall & [-> | ->]);
        exists body; auto.
    + intros [H|(body & Hne & Hall & H)]; [now left|right].
      destruct H as [-> | ->]; eexists; (split; [reflexivity|]);
        apply name_pattern_spec; exists body; auto.
Qed.

Section MoreChildrenFacts.

Variable xxh64 : list byte -> string.








End MoreChildrenFacts.

Section TraversalClosure.

Lemma dfs_reversed_head n path : In (n, path) (dfs_reversed n path).
Proof. rewrite dfs_reversed_unfold. now left. Qed.

(** With a directory, a traversal holds each of its children, under
    the joined path. *)
Lemma dfs_reversed_closed root : forall path n p k c,
    In (n, p) (dfs_reversed root path) ->
    In (k, c) (children n) ->
    In (c, os_path_join p k) (dfs_reversed root path).
Proof.
  induction root as [s cs pm|s cs pm|s cs pm ch IH]
    using TreeNode_nested_ind; intros path n p k c Hin Hchild.
  - destruct Hin as [[= <- <-]|[]]. destruct Hchild.
  - destruct Hin as [[= <- <-]|[]]. destruct Hchild.
  - rewrite dfs_reversed_unfold in *. cbn [children] in *.
    destruct Hin as [[= <- <-]|Hin].
    + right. apply in_flat_map. exists (k, c). split.
      * now apply in_rev in Hchild.
      * apply dfs_reversed_head.
    + right. apply in_flat_map in Hin. destruct Hin as ([k' c'] & Hkc & Hin).
      apply in_flat_map. exists (k', c'). split; [assumption|].
      cbn [fst snd] in *. rewrite Forall_forall in IH.
      apply in_rev in Hkc.
      apply (IH (k', c') Hkc _ n p k c Hin Hchild).
Qed.

End TraversalClosure.

(** X15. A checkpoint written by [to_json] is read back by [from_json]:
    for a root that meets the data-model invariant, a name that
    construction accepts, and a timestamp parser that reads the
    [isoformat()] of the time (in the 19-character form when the time
    falls on a second), [from_json(to_json(c))] is [c], root, time and
    name. *)
Theorem X15_from_json_to_json_round_trip
  (parse : string -> result datetime) (now : datetime) (self : Checkpoint.t)
  (Hroot : well_keyed (Checkpoint.root self))
  (Hparse : parse (isoformat (Checkpoint.time self))
            = OK (Checkpoint.time self))
  (Hname : match Checkpoint.name self with
           | None => True
           | Some s => Re.re_match name_pattern s = true
           end) :
  Checkpoint_from_json parse now (Checkpoint.to_json self) = OK self.
Proof.
  destruct self as [root time nm]. cbn [Checkpoint.root Checkpoint.time
                                          Checkpoint.name] in *.
  unfold Checkpoint_from_json, Checkpoint.to_json.
  cbn [doc_root doc_time doc_name Checkpoint.root Checkpoint.time
         Checkpoint.name].
  rewrite from_dict_to_dict_id by assumption. cbn [rbind].
  rewrite Hparse. cbn [rbind]. unfold Checkpoint.init.
  destruct nm as [s|]; [now rewrite Hname|reflexivity].
Qed.

(** X16. [build_checkpoint] walks the tree before it looks at the
    name: where nothing the build asks for is refused, the whole tree
    is built and all its warnings are printed whatever the name; then a
    name that construction does not accept raises [AssertionError], and
    otherwise the object returned has the current time, the given name
    and as root what [TreeNode.build_node] returned for the path: the
    node, named [''], or [None] where the path is neither link, file
    nor directory. *)
Theorem X16_build_checkpoint_checks_the_name_last
  (who : caller) (xxh64 : list byte -> string) (now : datetime) (e : entry)
  (path : string) (nm : option string) (out : log)
  (Hgranted : buildable who e = true) :
  Checkpoint_build_checkpoint xxh64 who now e path nm out
  = (if match nm with
        | None => true
        | Some s => Re.re_match name_pattern s
        end
     then OK {| obj_root := node_of xxh64 e "";
                obj_time := now;
                obj_name := nm |}
     else Raise AssertionError,
     (out ++ warnings_of e path)%list)
  /\ match node_of xxh64 e "" with
     | Some r => name r = "" /\ well_keyed r
     | None => islink e || isfile e || isdir e = false
     end.
Proof.
  split.
  - unfold Checkpoint_build_checkpoint, bind at 1.
    rewrite (TreeNode_build_node_as_granted who xxh64 e Hgranted).
    rewrite TreeNode_build_node_log.
    unfold lift, Checkpoint_new.
    now destruct (match nm with None => true | Some s => _ end).
  - destruct (node_of xxh64 e "") as [r|] eqn:E.
    + now apply (node_of_well_keyed xxh64 e).
    + destruct e as [m c|m t r|m l|m]; try discriminate; reflexivity.
Qed.

(** X17. The traversal is closed under children: whenever [iter()]
    yields a directory with a path, it also yields each child of that
    directory with [os.path.join] of that path and the child's key. *)
Theorem X17_iter_yields_children_under_joined_paths
  (self : Checkpoint.t) (n : TreeNode) (p k : string) (c : TreeNode)
  (Hyield : In (n, p) (Checkpoint.iter self))
  (Hchild : In (k, c) (children n)) :
  In (c, os_path_join p k) (Checkpoint.iter self).
Proof.
  rewrite iter_reversed in *.
  now apply (dfs_reversed_closed _ _ n p k c).
Qed.




(* ===================================================================== *)
(** ** The further properties at concrete inputs *)
(* ===================================================================== *)


Lemma X5_witness :
  TreeNode_from_dict Examples.child_first = OK Examples.file_a
  /\ well_keyed Examples.file_a
  /\ d_name Examples.child_first = OK (name Examples.file_a)
  /\ d_checksum Examples.child_first = OK (checksum Examples.file_a)
  /\ d_permissions Examples.child_first = OK (permissions Examples.file_a)
  /\ d_type Examples.child_first = OK "file".
Proof.
  split; [reflexivity|].
  exact (@X5_parsed_nodes_are_well_keyed Examples.child_first
           Examples.file_a eq_refl).
Defined.

Lemma X7_witness :
  TreeNode_from_dict Examples.child_last
  = OK (SymlinkNode "a" "44bc2cf5ad770999" 384)
  /\ TreeNode_from_dict (to_dict (SymlinkNode "a" "44bc2cf5ad770999" 384))
     = OK (SymlinkNode "a" "44bc2cf5ad770999" 384).
Proof.
  split; [reflexivity|].
  exact (@X7_parsed_nodes_round_trip Examples.child_last
           (SymlinkNode "a" "44bc2cf5ad770999" 384) eq_refl).
Defined.

Lemma X9_witness :
  TreeNode_from_dict
    (NodeDict (Some "d") (Some "ef46db3751d8e999") (Some 493)
       (Some ([Examples.child_first]
              ++ NodeDict (Some "x") (Some "ef46db3751d8e999") (Some 420)
                          None (Some "socket")
              :: [Examples.child_last])%list)
       (Some "directory"))
  = Raise (TypeError "Type x does not exist.").
Proof.
  apply (@X9_child_error_aborts_directory "d" "ef46db3751d8e999" 493
           [Examples.child_first] [Examples.child_last]
           (NodeDict (Some "x") (Some "ef46db3751d8e999") (Some 420)
                     None (Some "socket"))
           [("a", Examples.file_a)] "x").
  - repeat constructor.
  - reflexivity.
  - reflexivity.
Defined.

Lemma X10_witness :
  CheckpointMeta.from_string datetime_from_iso_format "ef46db3751d8e999"
  = Raise IndexError
  /\ CheckpointMeta.from_string datetime_from_iso_format
       ("ef46db3751d8e999" ++ "_" ++ "2024-01-01T00:00:00.000000")
     = (t <~ datetime_from_iso_format "2024-01-01T00:00:00.000000" ;;
        OK (CheckpointMeta.mk "ef46db3751d8e999" t None))%py
  /\ CheckpointMeta.from_string datetime_from_iso_format
       ("ef46db3751d8e999" ++ "_" ++ "2024-01-01T00:00:00.000000"
        ++ "_" ++ "my_backup_1")
     = (t <~ datetime_from_iso_format "2024-01-01T00:00:00.000000" ;;
        OK (CheckpointMeta.mk "ef46db3751d8e999" t (Some "my_backup_1")))%py.
Proof.
  exact (@X10_from_string_by_underscores datetime_from_iso_format
           "ef46db3751d8e999" "2024-01-01T00:00:00.000000" "my_backup_1"
           eq_refl eq_refl).
Defined.

Lemma X11_witness :
  CheckpointMeta.to_string
    (CheckpointMeta.mk "ef46db3751d8e999" Examples.midnight (Some ""))
  = CheckpointMeta.to_string
      (CheckpointMeta.mk "ef46db3751d8e999" Examples.midnight None)
  /\ CheckpointMeta.from_string datetime_from_iso_format
       (CheckpointMeta.to_string
          (CheckpointMeta.mk "ef46db3751d8e999" Examples.midnight (Some "")))
     = OK (CheckpointMeta.mk "ef46db3751d8e999" Examples.midnight None)
  /\ CheckpointMeta.from_string datetime_from_iso_format
       (CheckpointMeta.to_string
          (CheckpointMeta.mk "ef46db3751d8e999" Examples.midnight None)
        ++ "_")
     = OK (CheckpointMeta.mk "ef46db3751d8e999" Examples.midnight (Some "")).
Proof.
  exact (@X11_empty_name_is_not_round_tripped datetime_from_iso_format
           "ef46db3751d8e999" Examples.midnight eq_refl eq_refl).
Defined.

Lemma X12_witness :
  CheckpointMeta.to_string Examples.meta
  = CheckpointMeta.to_string
      (CheckpointMeta.mk "ef46db3751d8e999" (Datetime.mk 2024 1 1 0 0 0 0)
         (Some "my_backup.1"))
  /\ Examples.meta
     = CheckpointMeta.mk "ef46db3751d8e999" (Datetime.mk 2024 1 1 0 0 0 0)
         (Some "my_backup.1").
Proof.
  split; [reflexivity|].
  apply X12_to_string_is_injective;
    try (unfold valid; simpl; lia); try reflexivity; discriminate.
Defined.

Lemma X13_witness :
  Checkpoint.init Examples.midnight Examples.root None (Some "nightly")
  = OK (Checkpoint.mk Examples.root Examples.midnight (Some "nightly"))
  /\ Checkpoint.meta
       (Checkpoint.mk Examples.root Examples.midnight (Some "nightly"))
     = CheckpointMeta.mk (checksum Examples.root) Examples.midnight
         (Some "nightly")
  /\ CheckpointMeta.from_string datetime_from_iso_format
       (CheckpointMeta.to_string
          (Checkpoint.meta
             (Checkpoint.mk Examples.root Examples.midnight
                (Some "nightly"))))
     = OK (Checkpoint.meta
             (Checkpoint.mk Examples.root Examples.midnight
                (Some "nightly"))).
Proof.
  split; [reflexivity|].
  exact (@X13_checkpoint_identifier_round_trip datetime_from_iso_format
           Examples.midnight Examples.root None (Some "nightly")
           (Checkpoint.mk Examples.root Examples.midnight (Some "nightly"))
           eq_refl eq_refl eq_refl).
Defined.

Lemma X15_witness :
  doc_time (Checkpoint.to_json Examples.checkpoint) = "2024-01-01T00:00:00"
  /\ Checkpoint_from_json datetime_from_iso_format
       (Datetime.mk 2025 6 1 12 0 0 0)
       (Checkpoint.to_json Examples.checkpoint)
     = OK Examples.checkpoint.
Proof.
  split; [reflexivity|].
  apply X15_from_json_to_json_round_trip.
  - simpl. split; [|tauto].
    repeat constructor; simpl; intuition discriminate.
  - reflexivity.
  - exact I.
Defined.

Lemma X17_witness :
  In (Examples.file_a, os_path_join "" "a")
     (Checkpoint.iter Examples.checkpoint).
Proof.
  apply (@X17_iter_yields_children_under_joined_paths Examples.checkpoint
           Examples.root "" "a" Examples.file_a).
  - rewrite iter_reversed. simpl. now left.
  - simpl. now left.
Defined.




(* ===================================================================== *)
(** ** Further properties: from the tree to the document and back *)
(* ===================================================================== *)

Lemma from_json_to_json_id parse now (self : Checkpoint.t) :
  well_keyed (Checkpoint.root self) ->
  parse (isoformat (Checkpoint.time self)) = OK (Checkpoint.time self) ->
  match Checkpoint.name self with
  | None => True
  | Some s => Re.re_match name_pattern s = true
  end ->
  Checkpoint_from_json parse now (Checkpoint.to_json self) = OK self.
Proof.
  destruct self as [root time nm]. cbn [Checkpoint.root Checkpoint.time
                                          Checkpoint.name].
  intros Hroot Hparse Hname.
  unfold Checkpoint_from_json, Checkpoint.to_json.
  cbn [doc_root doc_time doc_name Checkpoint.root Checkpoint.time
         Checkpoint.name].
  rewrite from_dict_to_dict_id by assumption. cbn [rbind].
  rewrite Hparse. cbn [rbind]. unfold Checkpoint.init.
  destruct nm as [s|]; [now rewrite Hname|reflexivity].
Qed.

(** X21. Every object that [build_checkpoint] returns, whatever was
    refused on the way, has the current time of the build and the given
    name. If its root is a node, the root is named [''] and the object
    survives the document: [from_json(to_json(c))] gives the same root,
    time and name back whenever the timestamp parser reads the
    [isoformat()] of that time. If its root is [None], the path was
    neither link, file nor directory, and [to_json] raises
    [AttributeError]. *)
Theorem X21_built_checkpoint_round_trip
  (who : caller) (xxh64 : list byte -> string)
  (parse : string -> result datetime)
  (now now' : datetime) (e : entry) (path : string) (nm : option string)
  (out out' : log) (self : checkpoint_object)
  (Hbuilt : Checkpoint_build_checkpoint xxh64 who now e path nm out
            = (OK self, out'))
  (Hparse : parse (isoformat now) = OK now) :
  obj_time self = now
  /\ obj_name self = nm
  /\ match obj_root self with
     | Some root =>
         name root = ""
         /\ islink e || isfile e || isdir e = true
         /\ checkpoint_object_to_json self
            = OK (Checkpoint.to_json (Checkpoint.mk root now nm))
         /\ Checkpoint_from_json parse now'
              (Checkpoint.to_json (Checkpoint.mk root now nm))
            = OK (Checkpoint.mk root now nm)
     | None =>
         islink e || isfile e || isdir e = false
         /\ checkpoint_object_to_json self = Raise AttributeError
     end.
Proof.
  unfold Checkpoint_build_checkpoint, bind at 1 in Hbuilt.
  destruct (TreeNode_build_node_as who xxh64 e path "" out)
    as [[r|x] o] eqn:Eb; [|discriminate].
  pose proof (TreeNode_build_node_as_invariant who xxh64 e path "" out Eb)
    as Hinv.
  unfold lift, Checkpoint_new in Hbuilt.
  destruct (match nm with None => true | Some s => _ end) eqn:Hnm;
    [|discriminate].
  injection Hbuilt as <- _. cbn [obj_time obj_name obj_root].
  split; [reflexivity|]. split; [reflexivity|].
  destruct r as [root|].
  - destruct Hinv as (Hname & Hw & Hkind).
    repeat split; try assumption.
    apply from_json_to_json_id; cbn [Checkpoint.root Checkpoint.time
                                       Checkpoint.name]; try assumption.
    destruct nm; [assumption|exact I].
  - split; [assumption|reflexivity].
Qed.

Lemma X21_witness :
  Checkpoint_build_checkpoint XXH64.hexdigest Owner Examples.midnight
    (RegFile 33188 [x61; x62; x63]) "/r/f" (Some "nightly") []
  = (OK {| obj_root := Some (FileNode "" "44bc2cf5ad770999" 420);
           obj_time := Examples.midnight;
           obj_name := Some "nightly" |}, [])
  /\ Checkpoint_from_json datetime_from_iso_format
       (Datetime.mk 2025 6 1 12 0 0 0)
       (Checkpoint.to_json
          (Checkpoint.mk (FileNode "" "44bc2cf5ad770999" 420)
             Examples.midnight (Some "nightly")))
     = OK (Checkpoint.mk (FileNode "" "44bc2cf5ad770999" 420)
             Examples.midnight (Some "nightly")).
Proof.
  assert (Hb : Checkpoint_build_checkpoint XXH64.hexdigest Owner
                 Examples.midnight
                 (RegFile 33188 [x61; x62; x63]) "/r/f" (Some "nightly") []
               = (OK {| obj_root := Some (FileNode "" "44bc2cf5ad770999" 420);
                        obj_time := Examples.midnight;
                        obj_name := Some "nightly" |}, []))
    by (vm_compute; reflexivity).
  split; [exact Hb|].
  exact (proj2 (proj2 (proj2 (proj2 (proj2
           (@X21_built_checkpoint_round_trip Owner XXH64.hexdigest
              datetime_from_iso_format Examples.midnight
              (Datetime.mk 2025 6 1 12 0 0 0)
              (RegFile 33188 [x61; x62; x63]) "/r/f" (Some "nightly")
              [] [] _ Hb eq_refl)))))).
Defined.

(** A socket given as the path: the object is returned with no root,
    after the warning, and cannot be written. *)
Example build_checkpoint_of_a_socket :
  Checkpoint_build_checkpoint XXH64.hexdigest Owner Examples.midnight
    (Special 49645) "/r/sock" None []
  = (OK {| obj_root := None;
           obj_time := Examples.midnight;
           obj_name := None |}, ["Could not backup: /r/sock"])
  /\ checkpoint_object_to_json
       {| obj_root := None; obj_time := Examples.midnight; obj_name := None |}
     = Raise AttributeError.
Proof. split; reflexivity. Qed.

Lemma X1_witness :
  buildable Owner (Dir 16877 Examples.listing) = true
  /\ TreeNode_build_node_as Owner XXH64.hexdigest
       (Dir 16877 Examples.listing) "/r" "" []
     = (OK (node_of XXH64.hexdigest (Dir 16877 Examples.listing) ""),
        ([] ++ warnings_of (Dir 16877 Examples.listing) "/r")%list).
Proof.
  assert (Hg : buildable Owner (Dir 16877 Examples.listing) = true)
    by reflexivity.
  split; [exact Hg|].
  exact (proj1 (@X1_build_node_value_and_output Owner XXH64.hexdigest
                  (Dir 16877 Examples.listing) "/r" "" [] Hg)).
Defined.

Lemma X16_witness :
  buildable Other (Dir 16877 Examples.listing) = true
  /\ Checkpoint_build_checkpoint XXH64.hexdigest Other Examples.midnight
       (Dir 16877 Examples.listing) "/r" (Some "bad name") []
     = (Raise AssertionError,
        ([] ++ warnings_of (Dir 16877 Examples.listing) "/r")%list).
Proof.
  assert (Hg : buildable Other (Dir 16877 Examples.listing) = true)
    by reflexivity.
  split; [exact Hg|].
  exact (proj1 (@X16_build_checkpoint_checks_the_name_last Other
                  XXH64.hexdigest Examples.midnight
                  (Dir 16877 Examples.listing) "/r" (Some "bad name") [] Hg)).
Defined.
